(** * nanodl, models/gpt4.py: the decoder-only transformer, its generation
      loops and its data-parallel trainer.

    The file has two parts.  The first is a shallow embedding of the
    program: jax arrays as a shape with a row-major buffer, the flax layers
    the program instantiates, [SelfMultiHeadAttention], [GPT4Block], the two
    generation methods of [GPT4] and the epoch loop and checkpointing of
    [GPT4DataParallelTrainer].  The second states and proves properties of
    these definitions.

    Floating-point numbers are abstracted by the class [Scalar]; its
    instance over Stdlib's real numbers gives them their ideal meaning and is
    the one used wherever a number has to be compared with another.  Python
    exceptions are values of [exn], threaded through the [result] monad.
    Line numbers refer to models/gpt4.py. *)

From Stdlib Require Import List ZArith Reals Lra Lia Bool String.
From stdpp Require Import gmap strings.
Import ListNotations.

Set Implicit Arguments.

(** ** Exceptions and the result monad *)

Inductive exn : Type :=
| AssertionError (msg : string)
| IndexError
| ZeroDivisionError
| FileNotFoundError
| OSError              (* any other failure of [open] or of a write *)
| UnpicklingError
| ShapeError.          (* jax's TypeError / ValueError on incompatible shapes *)

Inductive result (A : Type) : Type :=
| Ok (a : A)
| Raise (e : exn).
Arguments Ok {A} a.
Arguments Raise {A} e.

Definition rbind {A B : Type} (r : result A) (k : A -> result B) : result B :=
  match r with
  | Ok a => k a
  | Raise e => Raise e
  end.

Notation "'let*' x ':=' e 'in' k" := (rbind e (fun x => k))
  (at level 10, x pattern, e at level 100, k at level 200).

Definition rmap {A B : Type} (f : A -> B) (r : result A) : result B :=
  let* a := r in Ok (f a).

(** ** Scalars *)

Class Scalar (F : Type) : Type := {
  of_Z  : Z -> F;              (* promotion of a Python/jax integer *)
  fadd  : F -> F -> F;
  fsub  : F -> F -> F;
  fmul  : F -> F -> F;
  fdiv  : F -> F -> F;
  fsqrt : F -> F;
  fexp  : F -> F;
  ftanh : F -> F;
  fltb  : F -> F -> bool;
  feqb  : F -> F -> bool
}.

Definition of_nat {F} `{Scalar F} (n : nat) : F := of_Z (Z.of_nat n).

Definition Rltb (x y : R) : bool := if Rlt_dec x y then true else false.
Definition Reqb (x y : R) : bool := if Req_dec_T x y then true else false.

#[export] Instance R_Scalar : Scalar R := {|
  of_Z := IZR;
  fadd := Rplus;
  fsub := Rminus;
  fmul := Rmult;
  fdiv := Rdiv;
  fsqrt := sqrt;
  fexp := exp;
  ftanh := tanh;
  fltb := Rltb;
  feqb := Reqb
|}.

(** ** n-dimensional arrays *)

Record ndarray (A : Type) : Type := mk_ndarray {
  shape : list nat;
  data  : list A
}.
Arguments mk_ndarray {A} shape data.

Definition size_of (s : list nat) : nat := fold_right Nat.mul 1 s.

(** Row-major offset of a multi-index. *)
Fixpoint ravel (s idx : list nat) : nat :=
  match s, idx with
  | _ :: s', i :: idx' => i * size_of s' + ravel s' idx'
  | _, _ => 0
  end.

(** All multi-indices of a shape, in row-major order. *)
Fixpoint indices (s : list nat) : list (list nat) :=
  match s with
  | [] => [[]]
  | d :: s' => flat_map (fun i => map (cons i) (indices s')) (seq 0 d)
  end.

Definition build {A} (s : list nat) (f : list nat -> A) : ndarray A :=
  mk_ndarray s (map f (indices s)).

Definition get {A} (d : A) (a : ndarray A) (idx : list nat) : A :=
  nth (ravel (shape a) idx) (data a) d.

Definition in_range (s idx : list nat) : Prop := Forall2 lt idx s.

Definition well_formed {A} (a : ndarray A) : Prop :=
  length (data a) = size_of (shape a).

Fixpoint shape_eqb (s1 s2 : list nat) : bool :=
  match s1, s2 with
  | [], [] => true
  | d1 :: s1', d2 :: s2' => Nat.eqb d1 d2 && shape_eqb s1' s2'
  | _, _ => false
  end.

(** [a.shape[i]] and [a.shape[-1]]. *)
Definition shape_at {A} (a : ndarray A) (i : nat) : result nat :=
  match nth_error (shape a) i with
  | Some d => Ok d
  | None => Raise IndexError
  end.

Definition shape_last {A} (a : ndarray A) : result nat :=
  match rev (shape a) with
  | d :: _ => Ok d
  | [] => Raise IndexError
  end.

(** [jnp.reshape(a, s)]: the buffer is kept, the sizes must agree. *)
Definition reshape {A} (a : ndarray A) (s : list nat) : result (ndarray A) :=
  if Nat.eqb (size_of (shape a)) (size_of s)
  then Ok (mk_ndarray s (data a))
  else Raise ShapeError.

(** *** Broadcasting *)

Definition broadcast_dim (d1 d2 : nat) : result nat :=
  if Nat.eqb d1 d2 then Ok d1
  else if Nat.eqb d1 1 then Ok d2
  else if Nat.eqb d2 1 then Ok d1
  else Raise ShapeError.

(** Shapes are given reversed (last axis first), so that alignment on the
    trailing axes is alignment on the head of the lists. *)
Fixpoint broadcast_rev (r1 r2 : list nat) : result (list nat) :=
  match r1, r2 with
  | [], r => Ok r
  | r, [] => Ok r
  | d1 :: r1', d2 :: r2' =>
      let* d := broadcast_dim d1 d2 in
      let* r := broadcast_rev r1' r2' in
      Ok (d :: r)
  end.

Definition broadcast_shapes (s1 s2 : list nat) : result (list nat) :=
  rmap (@rev nat) (broadcast_rev (rev s1) (rev s2)).

Fixpoint project_rev (rs ridx : list nat) : list nat :=
  match rs, ridx with
  | d :: rs', i :: ridx' => (if Nat.eqb d 1 then 0 else i) :: project_rev rs' ridx'
  | _, _ => []
  end.

(** The index into an operand of shape [s] that a result index [idx]
    reads: leading axes the operand lacks are dropped and axes of extent
    one are read at 0. *)
Definition project (s idx : list nat) : list nat :=
  rev (project_rev (rev s) (rev idx)).

Definition broadcast2 {A B C} (da : A) (db : B) (f : A -> B -> C)
    (a : ndarray A) (b : ndarray B) : result (ndarray C) :=
  let* s := broadcast_shapes (shape a) (shape b) in
  Ok (build s (fun idx => f (get da a (project (shape a) idx))
                            (get db b (project (shape b) idx)))).

Definition amap {A B} (f : A -> B) (a : ndarray A) : ndarray B :=
  mk_ndarray (shape a) (map f (data a)).

(** *** Linear algebra on the two trailing axes *)

Definition fsum {F} `{Scalar F} (l : list F) : F := fold_right fadd (of_Z 0) l.

(** Splits a shape into its leading (batch) axes and its two trailing ones. *)
Definition split_last2 (s : list nat) : result (list nat * nat * nat) :=
  match rev s with
  | n :: m :: rb => Ok (rev rb, m, n)
  | _ => Raise ShapeError
  end.

(** [a.transpose(0, 1, 3, 2)] on a rank-4 array; written for any rank of at
    least two as the swap of the two trailing axes. *)
Definition swap_last2 {A} (d : A) (a : ndarray A) : result (ndarray A) :=
  let* t := split_last2 (shape a) in
  let '(sb, m, n) := t in
  Ok (build (sb ++ [n; m])
        (fun idx =>
           let bi := firstn (length sb) idx in
           match skipn (length sb) idx with
           | [j; i] => get d a (bi ++ [i; j])
           | _ => d
           end)).

(** [jnp.matmul] of two arrays of rank at least two: the batch axes are
    broadcast, the inner extents must agree. *)
Definition matmul {F} `{Scalar F} (a b : ndarray F) : result (ndarray F) :=
  let* ta := split_last2 (shape a) in
  let '(sa, m, n) := ta in
  let* tb := split_last2 (shape b) in
  let '(sb, n', p) := tb in
  if negb (Nat.eqb n n') then Raise ShapeError else
  let* batch := broadcast_shapes sa sb in
  Ok (build (batch ++ [m; p])
        (fun idx =>
           let bi := firstn (length batch) idx in
           match skipn (length batch) idx with
           | [i; j] =>
               fsum (map (fun t => fmul (get (of_Z 0) a (project sa bi ++ [i; t]))
                                        (get (of_Z 0) b (project sb bi ++ [t; j])))
                         (seq 0 n))
           | _ => of_Z 0
           end)).

(** [jax.nn.softmax(x, axis=-1)]: exp(x_j) / sum_j' exp(x_j') along the last
    axis (jax subtracts the row maximum first, which leaves the quotient
    unchanged over the reals). *)
Definition softmax {F} `{Scalar F} (x : ndarray F) : result (ndarray F) :=
  match rev (shape x) with
  | [] => Raise ShapeError
  | n :: rb =>
      Ok (build (shape x)
            (fun idx =>
               let bi := removelast idx in
               fdiv (fexp (get (of_Z 0) x idx))
                    (fsum (map (fun j => fexp (get (of_Z 0) x (bi ++ [j])))
                               (seq 0 n)))))
  end.

(** ** SelfMultiHeadAttention.attention_function *)

Section Attention.
Context {F : Type} `{Scalar F}.

(** [query.shape[-1] // self.num_heads] *)
Definition floordiv (a b : nat) : result nat :=
  if Nat.eqb b 0 then Raise ZeroDivisionError else Ok (a / b).

(** Lines 109-117: the sizes read off the arguments and the three arrays
    split into heads. *)
Record Heads : Type := mk_heads {
  input_length : nat;
  context_length : nat;
  head_dim : nat;
  dim_key : nat;
  query_heads : ndarray F;
  key_heads : ndarray F;
  value_heads : ndarray F
}.

Definition split_heads (num_heads : nat) (query key value : ndarray F)
    : result Heads :=
  let* input_length := shape_at query 1 in
  let* context_length := shape_at key 1 in
  let* q_last := shape_last query in
  let* head_dim := floordiv q_last num_heads in
  let* dim_key := shape_last key in
  let* q0 := shape_at query 0 in
  let* query_heads := reshape query [q0; num_heads; input_length; head_dim] in
  let* k0 := shape_at key 0 in
  let* key_heads := reshape key [k0; num_heads; context_length; head_dim] in
  let* v0 := shape_at value 0 in
  let* value_heads := reshape value [v0; num_heads; context_length; head_dim] in
  Ok (mk_heads input_length context_length head_dim dim_key
        query_heads key_heads value_heads).

(** [jnp.matmul(query_heads, key_heads.transpose(0, 1, 3, 2)) / jnp.sqrt(d)] *)
Definition scaled_scores (h : Heads) (d : nat) : result (ndarray F) :=
  let* key_t := swap_last2 (of_Z 0) (key_heads h) in
  let* qk := matmul (query_heads h) key_t in
  Ok (amap (fun s => fdiv s (fsqrt (of_nat d))) qk).

(** The value of [attention_scores] after line 119: the divisor is the
    square root of [dim_key = key.shape[-1]]. *)
Definition attention_scores (num_heads : nat) (query key value : ndarray F)
    : result (ndarray F) :=
  let* h := split_heads num_heads query key value in
  scaled_scores h (dim_key h).

(** What the specification asks of line 119: the divisor is the square
    root of the per-head dimension. *)
Definition spec_attention_scores (num_heads : nat) (query key value : ndarray F)
    : result (ndarray F) :=
  let* h := split_heads num_heads query key value in
  scaled_scores h (head_dim h).

(** Lines 120-121. *)
Definition apply_mask (scores : ndarray F) (mask : option (ndarray Z))
    : result (ndarray F) :=
  match mask with
  | Some m => broadcast2 (of_Z 0) 0%Z (fun s b => fmul s (of_Z b)) scores m
  | None => Ok scores
  end.

Definition attention_function (num_heads : nat) (query key value : ndarray F)
    (mask : option (ndarray Z)) : result (ndarray F * ndarray F) :=
  let* h := split_heads num_heads query key value in
  let* attention_scores := scaled_scores h (dim_key h) in
  let* attention_scores := apply_mask attention_scores mask in
  let* attention_weights := softmax attention_scores in
  let* attended_values := matmul attention_weights (value_heads h) in
  let* q0 := shape_at query 0 in
  let* q_last := shape_last query in
  let* attended_values :=
    reshape attended_values [q0; input_length h; q_last] in
  Ok (attended_values, attention_weights).

End Attention.

Arguments Heads F : clear implicits.

(** ** Library layers (flax.linen), as far as the program uses them *)

Section Layers.
Context {F : Type} `{Scalar F}.

(** [jnp.broadcast_to(a, s)] *)
Definition broadcast_to {A} (d : A) (a : ndarray A) (s : list nat)
    : result (ndarray A) :=
  let* s' := broadcast_shapes (shape a) s in
  if shape_eqb s' s
  then Ok (build s (fun idx => get d a (project (shape a) idx)))
  else Raise ShapeError.

(** [x[..., lo:hi]] for [lo <= hi <= x.shape[-1]]. *)
Definition slice_last (lo hi : nat) (x : ndarray F) : result (ndarray F) :=
  match rev (shape x) with
  | [] => Raise IndexError
  | _ :: rb =>
      Ok (build (rev rb ++ [hi - lo])
            (fun idx =>
               get (of_Z 0) x (removelast idx ++ [lo + List.last idx 0%nat])))
  end.

(** [jnp.array_split(x, 3, axis=-1)]: the first [n mod 3] sections have one
    element more than the others. *)
Definition array_split3 (x : ndarray F)
    : result (ndarray F * ndarray F * ndarray F) :=
  let* n := shape_last x in
  let q := n / 3 in
  let r := n mod 3 in
  let c1 := q + (if 0 <? r then 1 else 0) in
  let c2 := c1 + q + (if 1 <? r then 1 else 0) in
  let* a := slice_last 0 c1 x in
  let* b := slice_last c1 c2 x in
  let* c := slice_last c2 n x in
  Ok (a, b, c).

(** *** nn.Dense *)

Record DenseParams : Type := mk_dense {
  kernel : ndarray F;
  bias : ndarray F
}.

(** [nn.Dense(features)(x)]: contraction of the last axis of [x] with the
    kernel, plus the bias; the stored parameters must have the shapes the
    layer declares. *)
Definition dense (features : nat) (p : DenseParams) (x : ndarray F)
    : result (ndarray F) :=
  let* n := shape_last x in
  if negb (shape_eqb (shape (kernel p)) [n; features]
           && shape_eqb (shape (bias p)) [features])
  then Raise ShapeError
  else
    Ok (build (removelast (shape x) ++ [features])
          (fun idx =>
             let bi := removelast idx in
             let j := List.last idx 0%nat in
             fadd (fsum (map (fun t => fmul (get (of_Z 0) x (bi ++ [t]))
                                            (get (of_Z 0) (kernel p) [t; j]))
                             (seq 0 n)))
                  (get (of_Z 0) (bias p) [j]))).

(** *** nn.LayerNorm *)

(** The dataclass fields of [nn.LayerNorm] that the program sets or
    leaves at their defaults; [epsilon] is the first field, hence the one
    a single positional argument binds. *)
Record LayerNorm : Type := mk_LayerNorm {
  epsilon : F;
  use_bias : bool;
  use_scale : bool
}.

Definition nn_LayerNorm (positional : F) : LayerNorm :=
  {| epsilon := positional; use_bias := true; use_scale := true |}.

Record LayerNormParams : Type := mk_ln_params {
  ln_scale : ndarray F;
  ln_bias : ndarray F
}.

Definition fmean (l : list F) : F := fdiv (fsum l) (of_nat (length l)).

(** Statistics over the last axis; the variance is the mean squared
    deviation (flax computes E[x^2] - E[x]^2 clipped at 0, the same number
    over the reals). *)
Definition row_of (x : ndarray F) (bi : list nat) (n : nat) : list F :=
  map (fun t => get (of_Z 0) x (bi ++ [t])) (seq 0 n).

Definition variance (l : list F) : F :=
  let m := fmean l in
  fmean (map (fun v => fmul (fsub v m) (fsub v m)) l).

(** The divisor of the normalization: sqrt(var + epsilon), applied by
    flax as a multiplication by its reciprocal. *)
Definition norm_divisor (ln : LayerNorm) (row : list F) : F :=
  fsqrt (fadd (variance row) (epsilon ln)).

Definition layer_norm (ln : LayerNorm) (p : LayerNormParams) (x : ndarray F)
    : result (ndarray F) :=
  let* n := shape_last x in
  if negb ((if use_scale ln then shape_eqb (shape (ln_scale p)) [n] else true)
           && (if use_bias ln then shape_eqb (shape (ln_bias p)) [n] else true))
  then Raise ShapeError
  else
    Ok (build (shape x)
          (fun idx =>
             let bi := removelast idx in
             let j := List.last idx 0%nat in
             let row := row_of x bi n in
             let y := fsub (get (of_Z 0) x idx) (fmean row) in
             let mul := fdiv (of_Z 1) (norm_divisor ln row) in
             let mul := if use_scale ln
                        then fmul mul (get (of_Z 0) (ln_scale p) [j]) else mul in
             let y := fmul y mul in
             if use_bias ln then fadd y (get (of_Z 0) (ln_bias p) [j]) else y)).

(** *** nn.Dropout *)

Record Dropout : Type := mk_Dropout { rate : F }.

Definition nn_Dropout (positional : F) : Dropout := {| rate := positional |}.

(** [bernoulli name keep_prob shape] stands for
    [random.bernoulli(self.make_rng('dropout'), keep_prob, shape)] in the
    dropout layer called [name] during the current call. *)
Variable bernoulli : string -> F -> list nat -> ndarray bool.

Definition dropout_apply (name : string) (dr : Dropout) (x : ndarray F)
    (deterministic : bool) : ndarray F :=
  if feqb (rate dr) (of_Z 0) || deterministic then x
  else if feqb (rate dr) (of_Z 1) then amap (fun _ => of_Z 0) x
  else
    let keep_prob := fsub (of_Z 1) (rate dr) in
    let mask := bernoulli name keep_prob (shape x) in
    build (shape x)
      (fun idx => if get false mask idx
                  then fdiv (get (of_Z 0) x idx) keep_prob
                  else of_Z 0).

(** ** SelfMultiHeadAttention *)

Record SelfMultiHeadAttention : Type := mk_attention {
  att_hidden_dim : nat;
  att_num_heads : nat
}.

Record AttentionParams : Type := mk_att_params {
  projection : DenseParams;
  output : DenseParams
}.

Definition SelfMultiHeadAttention_call (m : SelfMultiHeadAttention)
    (p : AttentionParams) (inputs : ndarray F) (mask : option (ndarray Z))
    : result (ndarray F * ndarray F) :=
  let* projections := dense (3 * att_hidden_dim m) (projection p) inputs in
  let* qkv := array_split3 projections in
  let '(query, key, value) := qkv in
  let* ca := attention_function (att_num_heads m) query key value mask in
  let '(context_vectors, attention) := ca in
  let* outputs := dense (att_hidden_dim m) (output p) context_vectors in
  Ok (outputs, attention).

End Layers.

Arguments DenseParams F : clear implicits.
Arguments LayerNorm F : clear implicits.
Arguments LayerNormParams F : clear implicits.
Arguments Dropout F : clear implicits.
Arguments AttentionParams F : clear implicits.

(** ** GEGLU, MixtureOfExperts, PositionWiseFFNMoE *)

Fixpoint rmapM {A B : Type} (f : A -> result B) (l : list A) : result (list B) :=
  match l with
  | [] => Ok []
  | a :: l' =>
      let* b := f a in
      let* bs := rmapM f l' in
      Ok (b :: bs)
  end.

Section FeedForward.
Context {F : Type} `{Scalar F}.

(** A decimal literal [num / den] of the source. *)
Definition lit (num den : Z) : F := fdiv (of_Z num) (of_Z den).

Definition mul_arrays (a b : ndarray F) : result (ndarray F) :=
  broadcast2 (of_Z 0) (of_Z 0) fmul a b.

Definition add_arrays (a b : ndarray F) : result (ndarray F) :=
  broadcast2 (of_Z 0) (of_Z 0) fadd a b.

Definition GEGLU_call (output_dim : nat) (p : DenseParams F) (inputs : ndarray F)
    : result (ndarray F) :=
  let* x := dense (output_dim * 2) p inputs in
  let* n := shape_last x in
  let* gate := slice_last (Nat.min output_dim n) n x in
  let* x := slice_last 0 (Nat.min output_dim n) x in
  let tanh_res :=
    amap (fun g => ftanh (fmul (fmul g (lit 7978845608 10000000000))
                               (fadd (of_Z 1)
                                     (fmul (lit 44715 1000000) (fmul g g)))))
         gate in
  let* xg := mul_arrays (amap (fun v => fmul v (lit 5 10)) x) gate in
  mul_arrays xg (amap (fun t => fadd (of_Z 1) t) tanh_res).

Record MixtureOfExperts : Type := mk_moe {
  moe_num_experts : nat;
  moe_num_hiddens : nat;
  moe_num_outputs : nat
}.

Record MoEParams : Type := mk_moe_params {
  experts : list (DenseParams F);
  gate : DenseParams F;
  dense_final : DenseParams F;
  activation : DenseParams F
}.

(** [jnp.stack(arrays, axis=2)] *)
Definition stack_axis2 (arrays : list (ndarray F)) : result (ndarray F) :=
  match arrays with
  | [] => Raise ShapeError
  | a0 :: _ =>
      if negb (forallb (fun a => shape_eqb (shape a) (shape a0)) arrays
               && (2 <=? length (shape a0)))
      then Raise ShapeError
      else
        Ok (build (firstn 2 (shape a0) ++ [length arrays] ++ skipn 2 (shape a0))
              (fun idx =>
                 get (of_Z 0) (nth (nth 2 idx 0%nat) arrays a0)
                     (firstn 2 idx ++ skipn 3 idx)))
  end.

(** [jnp.sum(a, axis=2)] *)
Definition sum_axis2 (a : ndarray F) : result (ndarray F) :=
  match nth_error (shape a) 2 with
  | None => Raise ShapeError
  | Some e =>
      Ok (build (firstn 2 (shape a) ++ skipn 3 (shape a))
            (fun idx =>
               fsum (map (fun k => get (of_Z 0) a
                                     (firstn 2 idx ++ [k] ++ skipn 2 idx))
                         (seq 0 e))))
  end.

Definition MixtureOfExperts_call (m : MixtureOfExperts) (p : MoEParams)
    (X : ndarray F) : result (ndarray F) :=
  if negb (Nat.eqb (length (experts p)) (moe_num_experts m))
  then Raise ShapeError else
  let* g := dense (moe_num_experts m) (gate p) X in
  let* gating_weights := softmax g in
  let* outs := rmapM (fun e => dense (moe_num_hiddens m) e X) (experts p) in
  let* expert_outputs := stack_axis2 outs in
  let* gating_weights := reshape gating_weights (shape gating_weights ++ [1]) in
  let* weighted := mul_arrays gating_weights expert_outputs in
  let* mixed_expert_output := sum_axis2 weighted in
  let* act := GEGLU_call (moe_num_hiddens m) (activation p) mixed_expert_output in
  dense (moe_num_outputs m) (dense_final p) act.

Record PositionWiseFFNMoE : Type := mk_ffn {
  ffn_num_hiddens : nat;
  ffn_num_outputs : nat;
  ffn_num_experts : nat
}.

Definition PositionWiseFFNMoE_call (m : PositionWiseFFNMoE) (p : MoEParams)
    (X : ndarray F) : result (ndarray F) :=
  MixtureOfExperts_call
    {| moe_num_experts := ffn_num_experts m;
       moe_num_hiddens := ffn_num_hiddens m;
       moe_num_outputs := ffn_num_outputs m |} p X.

End FeedForward.

Arguments MoEParams F : clear implicits.

(** ** GPT4Block *)

(** Two's-complement wrap-around of jax's int32 arithmetic. *)
Definition wrap32 (z : Z) : Z := ((z + 2 ^ 31) mod 2 ^ 32 - 2 ^ 31)%Z.

Section Block.
Context {F : Type} `{Scalar F}.
Variable bernoulli : string -> F -> list nat -> ndarray bool.

Record GPT4Block : Type := mk_block {
  hidden_dim : nat;
  num_heads : nat;
  feedforward_dim : nat;
  dropout : F;
  num_experts : nat
}.

(** The sub-modules that [setup] creates. *)
Record BlockModules : Type := mk_modules {
  attention1 : SelfMultiHeadAttention;
  attention2 : SelfMultiHeadAttention;
  feed_forward : PositionWiseFFNMoE;
  norm1 : LayerNorm F;
  norm2 : LayerNorm F;
  norm3 : LayerNorm F;
  dropout1 : Dropout F;
  dropout2 : Dropout F;
  dropout3 : Dropout F
}.

Definition GPT4Block_setup (self : GPT4Block) : BlockModules :=
  {| attention1 := mk_attention (hidden_dim self) (num_heads self);
     attention2 := mk_attention (hidden_dim self) (num_heads self);
     feed_forward := mk_ffn (feedforward_dim self) (hidden_dim self) (num_experts self);
     norm1 := nn_LayerNorm (dropout self);
     norm2 := nn_LayerNorm (dropout self);
     norm3 := nn_LayerNorm (dropout self);
     dropout1 := nn_Dropout (dropout self);
     dropout2 := nn_Dropout (dropout self);
     dropout3 := nn_Dropout (dropout self) |}.

Record BlockParams : Type := mk_block_params {
  p_attention1 : AttentionParams F;
  p_attention2 : AttentionParams F;
  p_feed_forward : MoEParams F;
  p_norm1 : LayerNormParams F;
  p_norm2 : LayerNormParams F;
  p_norm3 : LayerNormParams F
}.

Definition arange (n : nat) : ndarray Z :=
  build [n] (fun idx => Z.of_nat (nth 0 idx 0%nat)).

Definition causal_mask (self : GPT4Block)
    (batch_size destination_dim source_dim : nat) : result (ndarray Z) :=
  let* idx_source := reshape (arange destination_dim) [destination_dim; 1] in
  let idx_destination := arange source_dim in
  let rhs := amap (fun j => wrap32 (wrap32 (j - Z.of_nat source_dim)
                                    + Z.of_nat destination_dim))
                  idx_destination in
  let* mask := broadcast2 0%Z 0%Z Z.geb idx_source rhs in
  let mask := amap (fun b : bool => if b then 1%Z else 0%Z) mask in
  let* mask := reshape mask (1 :: 1 :: shape mask) in
  broadcast_to 0%Z mask [batch_size; num_heads self; destination_dim; source_dim].

(** Every variable [__call__] binds, in the order it binds them. *)
Record BlockTrace : Type := mk_trace {
  t_mask : ndarray Z;
  t_normed1 : ndarray F;
  t_attended1 : ndarray F;
  t_attention1 : ndarray F;
  t_dropped1 : ndarray F;
  t_x1 : ndarray F;
  t_normed2 : ndarray F;
  t_attended2 : ndarray F;
  t_attention2 : ndarray F;
  t_dropped2 : ndarray F;
  t_x2 : ndarray F;
  t_normed3 : ndarray F;
  t_output : ndarray F;
  t_dropped3 : ndarray F;
  t_x3 : ndarray F
}.

(** [__call__], keeping every intermediate value.  The [mask] argument is
    rebound on the first line and never read. *)
Definition GPT4Block_trace (self : GPT4Block) (p : BlockParams)
    (x : ndarray F) (mask : option (ndarray Z)) (training : bool)
    : result BlockTrace :=
  let m := GPT4Block_setup self in
  let* b := shape_at x 0 in
  let* l := shape_at x 1 in
  let* mask := causal_mask self b l l in

  let* normed1 := layer_norm (norm1 m) (p_norm1 p) x in
  let* r1 := SelfMultiHeadAttention_call (attention1 m) (p_attention1 p)
               normed1 (Some mask) in
  let '(attended_x1, attn1) := r1 in
  let dropped1 := dropout_apply bernoulli "dropout1" (dropout1 m) normed1
                    (negb training) in
  let* x1 := add_arrays dropped1 attended_x1 in

  let* normed2 := layer_norm (norm2 m) (p_norm2 p) x1 in
  let* r2 := SelfMultiHeadAttention_call (attention2 m) (p_attention2 p)
               normed2 (Some mask) in
  let '(attended_x2, attn2) := r2 in
  let dropped2 := dropout_apply bernoulli "dropout2" (dropout2 m) normed2
                    (negb training) in
  let* x2 := add_arrays dropped2 attended_x2 in

  let* normed3 := layer_norm (norm3 m) (p_norm3 p) x2 in
  let* output := PositionWiseFFNMoE_call (feed_forward m) (p_feed_forward p)
                   normed3 in
  let dropped3 := dropout_apply bernoulli "dropout3" (dropout3 m) output
                    (negb training) in
  let* x3 := add_arrays dropped3 attended_x2 in

  Ok {| t_mask := mask;
        t_normed1 := normed1; t_attended1 := attended_x1; t_attention1 := attn1;
        t_dropped1 := dropped1; t_x1 := x1;
        t_normed2 := normed2; t_attended2 := attended_x2; t_attention2 := attn2;
        t_dropped2 := dropped2; t_x2 := x2;
        t_normed3 := normed3; t_output := output;
        t_dropped3 := dropped3; t_x3 := x3 |}.

Definition GPT4Block_call (self : GPT4Block) (p : BlockParams)
    (x : ndarray F) (mask : option (ndarray Z)) (training : bool)
    : result (ndarray F * ndarray F * ndarray F) :=
  let* t := GPT4Block_trace self p x mask training in
  Ok (t_x3 t, t_attention1 t, t_attention2 t).

End Block.

Arguments GPT4Block F : clear implicits.
Arguments BlockModules F : clear implicits.
Arguments BlockParams F : clear implicits.
Arguments BlockTrace F : clear implicits.

(** ** GPT4: autoregressive generation *)

(** Computations that count the decoding steps they start: the number of
    calls of [self.decoder] made so far, and the value or the exception. *)
Definition run (A : Type) : Type := (nat * result A)%type.

Definition run_ret {A} (a : A) : run A := (0, Ok a).

Definition run_lift {A} (r : result A) : run A := (0, r).

Definition run_bind {A B} (c : run A) (k : A -> run B) : run B :=
  match c with
  | (n, Ok a) => let '(m, r) := k a in (n + m, r)
  | (n, Raise e) => (n, Raise e)
  end.

Notation "'do*' x ':=' e 'in' k" := (run_bind e (fun x => k))
  (at level 10, x pattern, e at level 100, k at level 200).

Definition steps {A} (c : run A) : nat := fst c.
Definition outcome {A} (c : run A) : result A := snd c.

Section ArrayOps.
Context {A : Type} (d : A).

(** [a[:, -1, :]] *)
Definition take_last_axis1 (a : ndarray A) : result (ndarray A) :=
  match shape a with
  | d0 :: d1 :: d2 :: rest' =>
      let rest := d2 :: rest' in
      if Nat.eqb d1 0 then Raise IndexError
      else Ok (build (d0 :: rest)
                 (fun idx => match idx with
                             | b :: r => get d a (b :: (d1 - 1) :: r)
                             | [] => d
                             end))
  | _ => Raise IndexError
  end.

(** [a[0]] *)
Definition take_first (a : ndarray A) : result (ndarray A) :=
  match shape a with
  | d0 :: rest =>
      if Nat.eqb d0 0 then Raise IndexError
      else Ok (build rest (fun idx => get d a (0 :: idx)))
  | [] => Raise IndexError
  end.

(** [a.item()] *)
Definition item (a : ndarray A) : result A :=
  match data a with
  | [v] => Ok v
  | _ => Raise ShapeError
  end.

(** [a[:, None]] *)
Definition expand_axis1 (a : ndarray A) : result (ndarray A) :=
  match shape a with
  | d0 :: rest => reshape a (d0 :: 1 :: rest)
  | [] => Raise IndexError
  end.

(** [jnp.concatenate([a, b], axis=1)] *)
Definition concatenate_axis1 (a b : ndarray A) : result (ndarray A) :=
  match shape a, shape b with
  | a0 :: a1 :: ra, b0 :: b1 :: rb =>
      if Nat.eqb a0 b0 && shape_eqb ra rb
      then Ok (build (a0 :: (a1 + b1) :: ra)
                 (fun idx => match idx with
                             | i :: j :: r =>
                                 if j <? a1 then get d a (i :: j :: r)
                                 else get d b (i :: (j - a1) :: r)
                             | _ => d
                             end))
      else Raise ShapeError
  | _, _ => Raise ShapeError
  end.

(** [out.at[:, i].set(v)] for a rank-2 [out] and [i] within its width. *)
Definition set_column (out : ndarray A) (i : nat) (v : ndarray A)
    : result (ndarray A) :=
  match shape out with
  | [b; w] =>
      let* v := broadcast_to d v [b] in
      Ok (build [b; w]
            (fun idx => match idx with
                        | [r; c] => if Nat.eqb c i then get d v [r]
                                    else get d out [r; c]
                        | _ => d
                        end))
  | _ => Raise ShapeError
  end.

End ArrayOps.

Section Generation.
Context {F : Type} `{Scalar F}.

Record GPT4 : Type := mk_GPT4 {
  g_num_layers : nat;
  g_hidden_dim : nat;
  g_num_heads : nat;
  g_feedforward_dim : nat;
  g_dropout : F;
  g_vocab_size : nat;
  g_embed_dim : nat;
  max_length : nat;
  start_token : Z;
  end_token : Z;
  g_num_experts : nat
}.

(** [self.decoder(x, training=False)[0]] for the bound parameters. *)
Variable decoder : ndarray Z -> result (ndarray F).
(** The class that [jax.random.categorical(jax.random.PRNGKey(seed), p,
    axis=-1)] draws at a position of the batch. *)
Variable categorical_sample : Z -> ndarray F -> list nat -> Z.
(** [int(time.time())] as read in the decoding step of the given number. *)
Variable clock : nat -> Z.

Definition call_decoder (x : ndarray Z) : run (ndarray F) := (1, decoder x).

(** First index of a maximum of a non-empty row. *)
Fixpoint argmax_from (best_i : nat) (best : F) (i : nat) (l : list F) : nat :=
  match l with
  | [] => best_i
  | v :: l' => if fltb best v then argmax_from i v (S i) l'
               else argmax_from best_i best (S i) l'
  end.

Definition argmax_list (l : list F) : nat :=
  match l with
  | [] => 0
  | v :: l' => argmax_from 0 v 1 l'
  end.

(** [jnp.argmax(p, axis=-1)] *)
Definition argmax (p : ndarray F) : result (ndarray Z) :=
  match rev (shape p) with
  | [] => Raise ShapeError
  | n :: rb =>
      if Nat.eqb n 0 then Raise ShapeError
      else Ok (build (rev rb)
                 (fun idx => Z.of_nat (argmax_list (row_of p idx n))))
  end.

(** [jax.random.categorical(jax.random.PRNGKey(seed), p, axis=-1)]: one
    draw per position of the leading axes. *)
Definition categorical (seed : Z) (p : ndarray F) : result (ndarray Z) :=
  match rev (shape p) with
  | [] => Raise ShapeError
  | n :: rb =>
      if Nat.eqb n 0 then Raise ShapeError
      else Ok (build (rev rb) (categorical_sample seed p))
  end.

(** Lines 468-476 and 509-518: one decoding step up to the choice of the
    next token. *)
Definition next_tokens (i : nat) (decoder_input : ndarray Z)
    (temperature : F) (deterministic : bool) : run (ndarray Z) :=
  do* decoder_output := call_decoder decoder_input in
  do* last_token_logits := run_lift (take_last_axis1 (of_Z 0) decoder_output) in
  let scaled_logits := amap (fun v => fdiv v temperature) last_token_logits in
  do* next_token_probabilities := run_lift (softmax scaled_logits) in
  if deterministic
  then run_lift (argmax next_token_probabilities)
  else run_lift (categorical (clock i) next_token_probabilities).

Fixpoint generate_loop (self : GPT4) (fuel i : nat) (decoder_input : ndarray Z)
    (output_sequence : list Z) (temperature : F) (deterministic : bool)
    : run (list Z) :=
  match fuel with
  | 0 => run_ret output_sequence
  | S fuel' =>
      do* next_token := next_tokens i decoder_input temperature deterministic in
      do* next_token := run_lift (take_first 0%Z next_token) in
      do* tok := run_lift (item next_token) in
      let output_sequence := output_sequence ++ [tok] in
      do* decoder_input :=
        run_lift (concatenate_axis1 0%Z decoder_input
                    (mk_ndarray (1 :: 1 :: shape next_token) (data next_token))) in
      if Z.eqb tok (end_token self)
      then run_ret output_sequence
      else generate_loop self fuel' (S i) decoder_input output_sequence
             temperature deterministic
  end.

Definition generate (self : GPT4) (x : option (ndarray Z)) (temperature : F)
    (deterministic : bool) : run (list Z) :=
  do* _ := run_lift
    match x with
    | Some x =>
        let* b := shape_at x 0 in
        if Nat.eqb b 1 then Ok tt
        else Raise (AssertionError "Batch size must be 1, else use generate_batch()")
    | None => Ok tt
    end in
  let decoder_input :=
    match x with
    | Some x => x
    | None => mk_ndarray [1; 1] [start_token self]
    end in
  generate_loop self (max_length self) 0 decoder_input [] temperature deterministic.

(** [jnp.all(next_token == self.end_token)] *)
Definition all_equal (v : ndarray Z) (t : Z) : bool :=
  forallb (fun z => Z.eqb z t) (data v).

Fixpoint generate_batch_loop (self : GPT4) (fuel i : nat)
    (decoder_input output_sequences : ndarray Z)
    (temperature : F) (deterministic : bool) : run (ndarray Z) :=
  match fuel with
  | 0 => run_ret output_sequences
  | S fuel' =>
      do* next_token := next_tokens i decoder_input temperature deterministic in
      do* output_sequences := run_lift (set_column 0%Z output_sequences i next_token) in
      do* column := run_lift (expand_axis1 next_token) in
      do* decoder_input := run_lift (concatenate_axis1 0%Z decoder_input column) in
      if all_equal next_token (end_token self)
      then run_ret output_sequences
      else generate_batch_loop self fuel' (S i) decoder_input output_sequences
             temperature deterministic
  end.

Definition generate_batch (self : GPT4) (x : option (ndarray Z)) (temperature : F)
    (deterministic : bool) : run (ndarray Z) :=
  do* batch_size := run_lift
    match x with
    | Some x => shape_at x 0
    | None => Ok 1
    end in
  let decoder_input :=
    match x with
    | Some x => x
    | None => build [batch_size; 1] (fun _ => start_token self)
    end in
  let output_sequences := build [batch_size; max_length self] (fun _ => 0%Z) in
  generate_batch_loop self (max_length self) 0 decoder_input output_sequences
    temperature deterministic.

End Generation.

Arguments GPT4 F : clear implicits.

(** ** GPT4DataParallelTrainer *)

Section Trainer.
Context {F : Type} `{Scalar F}.

(** The parameter tree, the replicated train state and the bytes of a
    pickle file are opaque to the trainer's control flow. *)
Variables (Params TrainState Blob : Type).
Variable params : TrainState -> Params.               (* state.params *)
Variable pickle_dump : Params -> Blob.
Variable pickle_load : Blob -> result Params.
(** The two pmap-compiled steps; both return one loss per device. *)
Variable train_step :
  TrainState -> ndarray Z -> ndarray Z -> result (TrainState * ndarray F).
Variable evaluation_step :
  TrainState -> ndarray Z -> ndarray Z -> result (ndarray F).

Record Trainer : Type := mk_trainer {
  state : TrainState;
  best_val_loss : option F;        (* [None] is float("inf") *)
  weights_filename : string;
  num_devices : nat
}.

Inductive event : Type :=
| PrintTrainLoss (epoch : nat) (loss : F)
| PrintValLoss (epoch : nat) (loss : F)
| PrintNewBest
| FileWrite (filename : string) (content : Blob)
| FileTorn (filename : string) (content : Blob).

(** What the trainer's methods read and change: the object itself, the
    files, and what has been printed or written, oldest first. *)
Record Machine : Type := mk_machine {
  self : Trainer;
  files : gmap string Blob;
  events : list event
}.

(** What [with open(name, 'wb') as f: pickle.dump(obj, f)] does to the file
    [name]: the bytes are written; or [open] raises (an empty name, a missing
    directory, a directory, no permission) and the file is as it was; or the
    file is opened, hence truncated, and the write raises part way. *)
Inductive write_outcome : Type :=
| Written
| Refused (e : exn)
| Torn (e : exn) (partial : Blob).

(** The answer of the file system in the current state of the machine. *)
Variable fs_write : Machine -> string -> Blob -> write_outcome.

Definition prog (A : Type) : Type := Machine -> result A * Machine.

Definition pret {A} (a : A) : prog A := fun m => (Ok a, m).
Definition praise {A} (e : exn) : prog A := fun m => (Raise e, m).
Definition plift {A} (r : result A) : prog A := fun m => (r, m).
Definition pbind {A B} (c : prog A) (k : A -> prog B) : prog B :=
  fun m => match c m with
           | (Ok a, m') => k a m'
           | (Raise e, m') => (Raise e, m')
           end.

Notation "'io*' x ':=' e 'in' k" := (pbind e (fun x => k))
  (at level 10, x pattern, e at level 100, k at level 200).

Definition get_self : prog Trainer := fun m => (Ok (self m), m).
Definition set_state (s : TrainState) : prog unit :=
  fun m => (Ok tt, {| self := {| state := s;
                                 best_val_loss := best_val_loss (self m);
                                 weights_filename := weights_filename (self m);
                                 num_devices := num_devices (self m) |};
                      files := files m; events := events m |}).
Definition set_best_val_loss (v : F) : prog unit :=
  fun m => (Ok tt, {| self := {| state := state (self m);
                                 best_val_loss := Some v;
                                 weights_filename := weights_filename (self m);
                                 num_devices := num_devices (self m) |};
                      files := files m; events := events m |}).
Definition emit (e : event) : prog unit :=
  fun m => (Ok tt, {| self := self m; files := files m;
                      events := events m ++ [e] |}).
Definition write_file (name : string) (content : Blob) : prog unit :=
  fun m =>
    match fs_write m name content with
    | Written =>
        (Ok tt, {| self := self m; files := <[name := content]> (files m);
                   events := events m ++ [FileWrite name content] |})
    | Refused e => (Raise e, m)
    | Torn e partial =>
        (Raise e, {| self := self m; files := <[name := partial]> (files m);
                     events := events m ++ [FileTorn name partial] |})
    end.

(** [a.reshape((n, k, -1))]: jax computes the missing extent as
    [size // (n * k)], a division by zero when [n * k = 0]. *)
Definition reshape_infer {A} (a : ndarray A) (n k : nat) : result (ndarray A) :=
  let size := size_of (shape a) in
  if Nat.eqb (n * k) 0 then Raise ZeroDivisionError
  else if negb (Nat.eqb (size mod (n * k)) 0) then Raise ShapeError
  else reshape a [n; k; size / (n * k)].

(** Lines 627-630 and 679-682. *)
Definition shard (devices : nat) (batch : ndarray Z * ndarray Z)
    : result (ndarray Z * ndarray Z) :=
  let '(inputs, targets) := batch in
  let* batch_size := shape_at inputs 0 in
  let* batch_size_per_device := floordiv batch_size devices in
  let* inputs := reshape_infer inputs devices batch_size_per_device in
  let* targets := reshape_infer targets devices batch_size_per_device in
  Ok (inputs, targets).

(** [total_loss / count], where [total_loss] is the Python float 0.0 as
    long as [count] is 0. *)
Definition mean_of (total_loss : F) (count : nat) : result F :=
  if Nat.eqb count 0 then Raise ZeroDivisionError
  else Ok (fdiv total_loss (of_nat count)).

Fixpoint train_batches (loader : list (ndarray Z * ndarray Z))
    (total_loss : F) (count : nat) : prog (F * nat) :=
  match loader with
  | [] => pret (total_loss, count)
  | batch :: rest =>
      io* me := get_self in
      io* sh := plift (shard (num_devices me) batch) in
      let '(inputs, targets) := sh in
      io* sl := plift (train_step (state me) inputs targets) in
      let '(st, loss) := sl in
      io* _ := set_state st in
      train_batches rest (fadd total_loss (fmean (data loss))) (S count)
  end.

Fixpoint evaluate_batches (loader : list (ndarray Z * ndarray Z))
    (total_loss : F) (count : nat) : prog (F * nat) :=
  match loader with
  | [] => pret (total_loss, count)
  | batch :: rest =>
      io* me := get_self in
      io* sh := plift (shard (num_devices me) batch) in
      let '(inputs, targets) := sh in
      io* loss := plift (evaluation_step (state me) inputs targets) in
      evaluate_batches rest (fadd total_loss (fmean (data loss))) (S count)
  end.

Definition evaluate (test_loader : list (ndarray Z * ndarray Z)) : prog F :=
  io* tc := evaluate_batches test_loader (of_Z 0) 0 in
  let '(total_loss, count) := tc in
  plift (mean_of total_loss count).

Definition save_params : prog unit :=
  io* me := get_self in
  write_file (weights_filename me) (pickle_dump (params (state me))).

Definition load_params (filename : string) : prog Params :=
  fun m => match files m !! filename with
           | Some b => (pickle_load b, m)
           | None => (Raise FileNotFoundError, m)
           end.

(** [val_loss < self.best_val_loss] *)
Definition improves (val_loss : F) (best : option F) : bool :=
  match best with
  | None => true
  | Some b => fltb val_loss b
  end.

(** Lines 640-646. *)
Definition validate (epoch : nat) (val_loader : option (list (ndarray Z * ndarray Z)))
    : prog unit :=
  match val_loader with
  | None => pret tt
  | Some loader =>
      io* val_loss := evaluate loader in
      io* _ := emit (PrintValLoss (epoch + 1) val_loss) in
      io* me := get_self in
      io* _ := (if improves val_loss (best_val_loss me)
                then set_best_val_loss val_loss else pret tt) in
      io* _ := emit PrintNewBest in
      save_params
  end.

(** One iteration of the epoch loop, lines 624-646. *)
Definition train_epoch (train_loader : list (ndarray Z * ndarray Z))
    (val_loader : option (list (ndarray Z * ndarray Z))) (epoch : nat)
    : prog unit :=
  io* tc := train_batches train_loader (of_Z 0) 0 in
  let '(total_loss, count) := tc in
  io* mean_loss := plift (mean_of total_loss count) in
  io* _ := emit (PrintTrainLoss (epoch + 1) mean_loss) in
  validate epoch val_loader.

Fixpoint train_from (train_loader : list (ndarray Z * ndarray Z))
    (val_loader : option (list (ndarray Z * ndarray Z)))
    (epoch remaining : nat) : prog unit :=
  match remaining with
  | 0 => pret tt
  | S remaining' =>
      io* _ := train_epoch train_loader val_loader epoch in
      train_from train_loader val_loader (S epoch) remaining'
  end.

Definition train (train_loader : list (ndarray Z * ndarray Z)) (num_epochs : nat)
    (val_loader : option (list (ndarray Z * ndarray Z))) : prog unit :=
  train_from train_loader val_loader 0 num_epochs.

End Trainer.

Arguments Trainer : clear implicits.
Arguments event : clear implicits.
Arguments Machine : clear implicits.
Arguments PrintTrainLoss {F Blob} epoch loss.
Arguments PrintValLoss {F Blob} epoch loss.
Arguments PrintNewBest {F Blob}.
Arguments FileWrite {F Blob} filename content.
Arguments FileTorn {F Blob} filename content.
Arguments write_outcome : clear implicits.
Arguments Written {Blob}.
Arguments Refused {Blob} e.
Arguments Torn {Blob} e partial.

(** ** GPT4Decoder and GPT4.__call__ *)

(** [jnp.array(arrays)] for a list of arrays: the arrays stacked along a new
    leading axis; the empty list gives an array of shape (0,). *)
Definition stack_axis0 {A : Type} (d : A) (arrays : list (ndarray A))
    : result (ndarray A) :=
  match arrays with
  | [] => Ok (mk_ndarray [0] [])
  | a0 :: _ =>
      if forallb (fun a => shape_eqb (shape a) (shape a0)) arrays
      then Ok (build (length arrays :: shape a0)
                 (fun idx =>
                    match idx with
                    | i :: r => get d (nth i arrays a0) r
                    | [] => d
                    end))
      else Raise ShapeError
  end.

Section Decoder.
Context {F : Type} `{Scalar F}.

(** What [jnp.take] returns at a token id outside [0, num_embeddings): the
    entry [k] of the row it reads or makes up for the id. *)
Variable take_out_of_range : ndarray F -> Z -> nat -> F.
(** The dropout masks of the block with the given number. *)
Variable bernoulli : nat -> string -> F -> list nat -> ndarray bool.

(** [nn.Embed(num_embeddings, features)(inputs)]: row [inputs[idx]] of the
    table at every position [idx]. *)
Definition embed (num_embeddings features : nat) (table : ndarray F)
    (inputs : ndarray Z) : result (ndarray F) :=
  if negb (shape_eqb (shape table) [num_embeddings; features])
  then Raise ShapeError
  else
    Ok (build (shape inputs ++ [features])
          (fun idx =>
             let tok := get 0%Z inputs (removelast idx) in
             let k := List.last idx 0%nat in
             if (0 <=? tok)%Z && (tok <? Z.of_nat num_embeddings)%Z
             then get (of_Z 0) table [Z.to_nat tok; k]
             else take_out_of_range table tok k)).

Record GPT4Decoder : Type := mk_decoder {
  d_num_layers : nat;
  d_hidden_dim : nat;
  d_num_heads : nat;
  d_feedforward_dim : nat;
  d_dropout : F;
  d_vocab_size : nat;
  d_embed_dim : nat;
  d_num_experts : nat
}.

Record DecoderParams : Type := mk_decoder_params {
  p_embedding : ndarray F;
  p_layers : list (BlockParams F);
  p_outputs : DenseParams F
}.

(** The blocks that [setup] creates are all built from the same five
    fields. *)
Definition decoder_block (self : GPT4Decoder) : GPT4Block F :=
  mk_block (d_hidden_dim self) (d_num_heads self) (d_feedforward_dim self)
    (d_dropout self) (d_num_experts self).

(** The loop over [self.layers], lines 380-383, from layer [i] on. *)
Fixpoint decoder_layers (self : GPT4Decoder) (layers : list (BlockParams F))
    (remaining i : nat) (x : ndarray F) (mask : option (ndarray Z))
    (training : bool) (attention_maps cross_attention_maps : list (ndarray F))
    : result (ndarray F * list (ndarray F) * list (ndarray F)) :=
  match remaining with
  | 0 => Ok (x, attention_maps, cross_attention_maps)
  | S remaining' =>
      match nth_error layers i with
      | None => Raise ShapeError
      | Some p =>
          let* r := GPT4Block_call (bernoulli i) (decoder_block self) p x mask
                      training in
          let '(x, attention, cross_attention) := r in
          decoder_layers self layers remaining' (S i) x mask training
            (attention_maps ++ [attention])
            (cross_attention_maps ++ [cross_attention])
      end
  end.

Definition GPT4Decoder_call (self : GPT4Decoder) (p : DecoderParams)
    (x : ndarray Z) (mask : option (ndarray Z)) (training : bool)
    (drop_last_layer : bool)
    : result (ndarray F * ndarray F * ndarray F) :=
  let* x := embed (d_vocab_size self) (d_embed_dim self) (p_embedding p) x in
  let* r := decoder_layers self (p_layers p) (d_num_layers self) 0 x mask
              training [] [] in
  let '(x, attention_maps, cross_attention_maps) := r in
  let* x := if negb drop_last_layer
            then dense (d_vocab_size self) (p_outputs p) x
            else Ok x in
  let* attention_maps := stack_axis0 (of_Z 0) attention_maps in
  let* cross_attention_maps := stack_axis0 (of_Z 0) cross_attention_maps in
  Ok (x, attention_maps, cross_attention_maps).

(** [GPT4.setup] *)
Definition GPT4_decoder (self : GPT4 F) : GPT4Decoder :=
  mk_decoder (g_num_layers self) (g_hidden_dim self) (g_num_heads self)
    (g_feedforward_dim self) (g_dropout self) (g_vocab_size self)
    (g_embed_dim self) (g_num_experts self).

(** [GPT4.__call__] *)
Definition GPT4_call (self : GPT4 F) (p : DecoderParams) (x : ndarray Z)
    (training : bool) (drop_last_layer : bool) : result (ndarray F) :=
  let* r := GPT4Decoder_call (GPT4_decoder self) p x None training
              drop_last_layer in
  Ok (fst (fst r)).

(** [self.decoder(x, training=False)[0]] as the generation methods call
    it. *)
Definition GPT4_decode (self : GPT4 F) (p : DecoderParams) (x : ndarray Z)
    : result (ndarray F) :=
  let* r := GPT4Decoder_call (GPT4_decoder self) p x None false false in
  Ok (fst (fst r)).

End Decoder.

Arguments GPT4Decoder F : clear implicits.
Arguments DecoderParams F : clear implicits.

(** * Notions used to state the properties *)

(** The denominator of the softmax at [idx]: the sum of the exponentials
    along the last axis of [x]. *)
Definition row_sum_exp (x : ndarray R) (idx : list nat) : R :=
  fsum (map (fun j => exp (get 0%R x (removelast idx ++ [j])))
            (seq 0 (List.last (shape x) 0))).

(** The three pre-normalization layers of a decoder block. *)
Definition block_norms {F : Type} (m : BlockModules F) : list (LayerNorm F) :=
  [norm1 m; norm2 m; norm3 m].

(** A decoder is total over single sequences when, for an input of shape
    (1, L), it returns logits of shape (1, L, V). *)
Definition decoder_total {F : Type} (decoder : ndarray Z -> result (ndarray F))
    (V : nat) : Prop :=
  forall (x : ndarray Z) (L : nat),
    shape x = [1; L] ->
    exists y : ndarray F, decoder x = Ok y /\ shape y = [1; L; V].

(** The token a decoding step chooses from the probabilities of the last
    position of a single sequence, over a vocabulary of [V] tokens. *)
Definition chosen {F : Type} `{Scalar F}
    (categorical_sample : Z -> ndarray F -> list nat -> Z) (clock : nat -> Z)
    (V : nat) (deterministic : bool) (i : nat) (probs : ndarray F) : Z :=
  if deterministic then Z.of_nat (argmax_list (row_of probs [0] V))
  else categorical_sample (clock i) probs [0].

(** Counting the events of a run. *)
Definition is_write {F Blob : Type} (e : event F Blob) : bool :=
  match e with
  | FileWrite _ _ => true
  | _ => false
  end.

Definition is_validation {F Blob : Type} (e : event F Blob) : bool :=
  match e with
  | PrintValLoss _ _ => true
  | _ => false
  end.

Definition count {E : Type} (p : E -> bool) (es : list E) : nat :=
  length (filter p es).

(** The machine when a validation pass that measured [val_loss] reaches
    [save_params]: best_val_loss is replaced when the loss improves on it, and
    in either case the two messages are printed. *)
Definition validated {F : Type} `{Scalar F} {TrainState Blob : Type}
    (epoch : nat) (val_loss : F) (m : Machine F TrainState Blob)
    : Machine F TrainState Blob :=
  {| self :=
       if improves val_loss (best_val_loss (self m))
       then {| state := state (self m);
               best_val_loss := Some val_loss;
               weights_filename := weights_filename (self m);
               num_devices := num_devices (self m) |}
       else self m;
     files := files m;
     events := events m ++ [PrintValLoss (epoch + 1) val_loss; PrintNewBest] |}.

(** The validation losses printed in a stretch of events, oldest first. *)
Definition val_losses {F Blob : Type} (es : list (event F Blob)) : list F :=
  flat_map (fun e => match e with
                     | PrintValLoss _ v => [v]
                     | _ => []
                     end) es.

(** The recorded best validation loss is a number, at most [v]. *)
Definition best_le (best : option R) (v : R) : Prop :=
  exists b : R, best = Some b /\ (b <= v)%R.

(** What a stretch [new] of events says about the best validation loss
    [best'] recorded after it, when [best] was recorded before it: [best'] is
    at most every validation loss printed and at most [best], and it is one
    of these values. *)
Definition least_seen {Blob : Type} (best best' : option R)
    (new : list (event R Blob)) : Prop :=
  (forall v, In v (val_losses new) -> best_le best' v)
  /\ (forall b0, best = Some b0 -> best_le best' b0)
  /\ (best' = best \/ exists v, In v (val_losses new) /\ best' = Some v).

(** A call returns an array of shape [s]. *)
Definition returns {A : Type} (r : result (ndarray A)) (s : list nat) : Prop :=
  exists a : ndarray A, r = Ok a /\ shape a = s.

(** *** Parameter trees of the shapes that [model.init] creates *)

Definition dense_shaped {F : Type} (p : DenseParams F) (n_in n_out : nat) : Prop :=
  shape (kernel p) = [n_in; n_out] /\ shape (bias p) = [n_out].

Definition attention_shaped {F : Type} (p : AttentionParams F) (n_in hidden : nat)
    : Prop :=
  dense_shaped (projection p) n_in (3 * hidden)
  /\ dense_shaped (output p) hidden hidden.

Definition norm_shaped {F : Type} (p : LayerNormParams F) (n : nat) : Prop :=
  shape (ln_scale p) = [n] /\ shape (ln_bias p) = [n].

Definition moe_shaped {F : Type} (p : MoEParams F) (m : MixtureOfExperts) : Prop :=
  length (experts p) = moe_num_experts m
  /\ Forall (fun e => dense_shaped e (moe_num_outputs m) (moe_num_hiddens m))
       (experts p)
  /\ dense_shaped (gate p) (moe_num_outputs m) (moe_num_experts m)
  /\ dense_shaped (activation p) (moe_num_hiddens m) (moe_num_hiddens m * 2)
  /\ dense_shaped (dense_final p) (moe_num_hiddens m) (moe_num_outputs m).

Definition block_shaped {F : Type} (p : BlockParams F) (self : GPT4Block F) : Prop :=
  attention_shaped (p_attention1 p) (hidden_dim self) (hidden_dim self)
  /\ attention_shaped (p_attention2 p) (hidden_dim self) (hidden_dim self)
  /\ moe_shaped (p_feed_forward p)
       (mk_moe (num_experts self) (feedforward_dim self) (hidden_dim self))
  /\ norm_shaped (p_norm1 p) (hidden_dim self)
  /\ norm_shaped (p_norm2 p) (hidden_dim self)
  /\ norm_shaped (p_norm3 p) (hidden_dim self).

(** A block configuration whose forward pass is well defined: a positive
    number of heads dividing the width, and at least one expert. *)
Definition block_valid {F : Type} (self : GPT4Block F) : Prop :=
  num_heads self <> 0
  /\ Nat.modulo (hidden_dim self) (num_heads self) = 0
  /\ num_experts self <> 0.

Definition decoder_shaped {F : Type} (p : DecoderParams F) (self : GPT4Decoder F)
    : Prop :=
  shape (p_embedding p) = [d_vocab_size self; d_embed_dim self]
  /\ length (p_layers p) = d_num_layers self
  /\ Forall (fun bp => block_shaped bp (decoder_block self)) (p_layers p)
  /\ dense_shaped (p_outputs p) (d_hidden_dim self) (d_vocab_size self).

(** A decoder configuration whose forward pass is well defined: valid
    blocks, fed with embeddings of the blocks' width. *)
Definition decoder_valid {F : Type} (self : GPT4Decoder F) : Prop :=
  block_valid (decoder_block self) /\ d_embed_dim self = d_hidden_dim self.

(** The shape of the stacked attention maps of [n] layers. *)
Definition maps_shape (n B heads L : nat) : list nat :=
  match n with
  | 0 => [0]
  | S _ => [n; B; heads; L; L]
  end.

(** A decoder is total over batches when, for an input of shape (B, L), it
    returns logits of shape (B, L, V). *)
Definition decoder_total_batch {F : Type}
    (decoder : ndarray Z -> result (ndarray F)) (V : nat) : Prop :=
  forall (x : ndarray Z) (B L : nat),
    shape x = [B; L] -> returns (decoder x) [B; L; V].

(** * Concrete inputs *)

(** One batch, one position, width 4, every entry 1. *)
Definition ones_1_1_4 : ndarray R := mk_ndarray [1; 1; 4] [1%R; 1%R; 1%R; 1%R].

(** A two-position input of width 2 with one head, under the causal mask
    of the decoder block: the entry (0, 1) is masked. *)
Definition eye_1_2_2 : ndarray R := mk_ndarray [1; 2; 2] [1%R; 0%R; 0%R; 1%R].
Definition causal_1_1_2_2 : ndarray Z := mk_ndarray [1; 1; 2; 2] [1%Z; 0%Z; 1%Z; 1%Z].
Definition masked_position : list nat := [0; 0; 0; 1].

(** One row [3, 5] normalized by the first norm of a block whose dropout
    is 1/10, with unit scale and zero bias. *)
Definition row_3_5 : ndarray R := mk_ndarray [1; 1; 2] [3%R; 5%R].
Definition unit_norm_params : LayerNormParams R :=
  mk_ln_params (mk_ndarray [2] [1%R; 1%R]) (mk_ndarray [2] [0%R; 0%R]).
Definition block_tenth : GPT4Block R := mk_block 2 1 2 (1 / 10)%R 1.
Definition first_entry : list nat := [0; 0; 0].

(** A block of width 1 with one head and one expert; all kernels are zero,
    the output bias of the first attention is 1 and that of the second 2. *)
Definition zero_dense (n_in n_out : nat) (b : R) : DenseParams R :=
  mk_dense (build [n_in; n_out] (fun _ => 0%R)) (build [n_out] (fun _ => b)).

Definition biased_attention (b : R) : AttentionParams R :=
  mk_att_params (zero_dense 1 3 0%R) (zero_dense 1 1 b).

Definition trivial_norm : LayerNormParams R :=
  mk_ln_params (mk_ndarray [1] [1%R]) (mk_ndarray [1] [0%R]).

Definition zero_moe : MoEParams R :=
  mk_moe_params [zero_dense 1 1 0%R] (zero_dense 1 1 0%R) (zero_dense 1 1 0%R)
    (zero_dense 1 2 0%R).

Definition params_1_2 : BlockParams R :=
  mk_block_params (biased_attention 1%R) (biased_attention 2%R) zero_moe
    trivial_norm trivial_norm trivial_norm.

Definition block_width_1 : GPT4Block R := mk_block 1 1 1 (1 / 10)%R 1.

Definition keep_all (_ : string) (_ : R) (s : list nat) : ndarray bool :=
  build s (fun _ => true).

Definition x_seven : ndarray R := mk_ndarray [1; 1; 1] [7%R].

Definition scalar_cube (v : R) : ndarray R := mk_ndarray [1; 1; 1] [v].

Definition trace_width_1 : BlockTrace R :=
  {| t_mask := mk_ndarray [1; 1; 1; 1] [1%Z];
     t_normed1 := scalar_cube 0%R;
     t_attended1 := scalar_cube 1%R;
     t_attention1 := mk_ndarray [1; 1; 1; 1] [1%R];
     t_dropped1 := scalar_cube 0%R;
     t_x1 := scalar_cube 1%R;
     t_normed2 := scalar_cube 0%R;
     t_attended2 := scalar_cube 2%R;
     t_attention2 := mk_ndarray [1; 1; 1; 1] [1%R];
     t_dropped2 := scalar_cube 0%R;
     t_x2 := scalar_cube 2%R;
     t_normed3 := scalar_cube 0%R;
     t_output := scalar_cube 0%R;
     t_dropped3 := scalar_cube 0%R;
     t_x3 := scalar_cube 2%R |}.

(** The two prompts of the module's usage example, as one batch of two. *)
Definition start_tokens_2 : ndarray Z :=
  mk_ndarray [2; 2] [123%Z; 456%Z; 145%Z; 656%Z].

Definition prefix_123_456 : ndarray Z := mk_ndarray [1; 2] [123%Z; 456%Z].

(** The configuration of the usage example. *)
Definition example_config : GPT4 R :=
  {| g_num_layers := 1; g_hidden_dim := 256; g_num_heads := 2;
     g_feedforward_dim := 256; g_dropout := (1 / 10)%R; g_vocab_size := 1000;
     g_embed_dim := 256; max_length := 51; start_token := 0; end_token := 50;
     g_num_experts := 10 |}.

(** A decoder whose logits are all zero, over a vocabulary of [V] tokens. *)
Definition flat_decoder (V : nat) (x : ndarray Z) : result (ndarray R) :=
  match shape x with
  | [b; l] => Ok (build [b; l; V] (fun _ => 0%R))
  | _ => Raise ShapeError
  end.

Definition sample_zero (_ : Z) (_ : ndarray R) (_ : list nat) : Z := 0%Z.
Definition clock_zero (_ : nat) : Z := 0%Z.

(** A run on the two prompts of the usage example, with sampling: at step
    0 the first row draws the end token and the second draws 7, at step 1
    both draw the end token. *)
Definition tiny_config : GPT4 R :=
  {| g_num_layers := 1; g_hidden_dim := 2; g_num_heads := 1;
     g_feedforward_dim := 2; g_dropout := (1 / 10)%R; g_vocab_size := 2;
     g_embed_dim := 2; max_length := 3; start_token := 0; end_token := 50;
     g_num_experts := 1 |}.

Definition sample_staggered (seed : Z) (_ : ndarray R) (idx : list nat) : Z :=
  if Z.eqb seed 0
  then match idx with
       | [0] => 50%Z
       | _ => 7%Z
       end
  else 50%Z.

Definition step_clock (i : nat) : Z := Z.of_nat i.

Definition staggered_output : ndarray Z :=
  mk_ndarray [2; 3] [50%Z; 50%Z; 0%Z; 7%Z; 50%Z; 0%Z].

(** *** A one-weight trainer *)

(** The parameter tree is one real weight, pickled as itself; a train step
    adds 1 to the weight, and both steps report the loss 1 on one device. *)
Definition toy_train_step (st : R) (_ _ : ndarray Z) : result (R * ndarray R) :=
  Ok ((st + 1)%R, mk_ndarray [1] [1%R]).

Definition toy_evaluation_step (_ : R) (_ _ : ndarray Z) : result (ndarray R) :=
  Ok (mk_ndarray [1] [1%R]).

Definition toy_loader : list (ndarray Z * ndarray Z) :=
  [(mk_ndarray [1; 2] [1%Z; 2%Z], mk_ndarray [1; 2] [2%Z; 3%Z])].

Definition toy_machine : Machine R R R :=
  {| self := {| state := 0%R; best_val_loss := None;
                weights_filename := "params.pkl"; num_devices := 1 |};
     files := ∅;
     events := [] |}.

(** A file system that accepts every write, and one on which the weights
    file cannot be opened. *)
Definition always_written (_ : Machine R R R) (_ : string) (_ : R)
    : write_outcome R := Written.
Definition never_opened (_ : Machine R R R) (_ : string) (_ : R)
    : write_outcome R := Refused FileNotFoundError.

Definition toy_train (num_epochs : nat) : prog R R unit :=
  train (fun st : R => st) (fun p : R => p) toy_train_step toy_evaluation_step
    always_written toy_loader num_epochs (Some toy_loader).


(** *** Inputs of the further properties *)

Definition first_weight : list nat := [0; 0; 0; 0].

(** Two positions of width 4: the rows [1 2 3 4] and [5 6 7 8]. *)
Definition rows_1_2_4 : ndarray R :=
  mk_ndarray [1; 2; 4] [1%R; 2%R; 3%R; 4%R; 5%R; 6%R; 7%R; 8%R].

(** Two positions of width 3, which two heads cannot split. *)
Definition rows_1_2_3 : ndarray R :=
  mk_ndarray [1; 2; 3] [1%R; 2%R; 3%R; 4%R; 5%R; 6%R].

(** Head 1, position 0, feature 0 of the split, and the entry of the
    input that it holds: position 1, feature 0. *)
Definition head_1_pos_0 : list nat := [0; 1; 0; 0].
Definition pos_1_feature_0 : list nat := [0; 1; 0].

(** Two positions of width 1 for the block of width 1. *)
Definition x_pair : ndarray R := mk_ndarray [1; 2; 1] [7%R; 9%R].

(** A block like [block_width_1] but without experts. *)
Definition block_no_experts : GPT4Block R := mk_block 1 1 1 (1 / 10)%R 0.

(** A model of one block of width 1 over a vocabulary of 3 tokens, with
    token 2 ending a sequence and at most 3 generated tokens. *)
Definition gpt4_width_1 : GPT4 R :=
  {| g_num_layers := 1; g_hidden_dim := 1; g_num_heads := 1;
     g_feedforward_dim := 1; g_dropout := (1 / 10)%R; g_vocab_size := 3;
     g_embed_dim := 1; max_length := 3; start_token := 0; end_token := 2;
     g_num_experts := 1 |}.

Definition decoder_params_1 : DecoderParams R :=
  mk_decoder_params (build [3; 1] (fun _ => 0%R)) [params_1_2]
    (zero_dense 1 3 0%R).

Definition take_zero (_ : ndarray R) (_ : Z) (_ : nat) : R := 0%R.

Definition keep_all_layers (_ : nat) : string -> R -> list nat -> ndarray bool :=
  keep_all.

Definition drop_all_layers (_ : nat) (_ : string) (_ : R) (s : list nat)
    : ndarray bool :=
  build s (fun _ => false).

Definition tokens_0_1 : ndarray Z := mk_ndarray [1; 2] [0%Z; 1%Z].

(** A prompt without tokens. *)
Definition empty_prefix : ndarray Z := mk_ndarray [1; 0] [].

(** The last column of the buffer of [staggered_output], past the two
    decoding steps of that run. *)
Definition row_1_col_2 : list nat := [1; 2].

(** A trainer that has already recorded the validation loss 5. *)
Definition seasoned_machine : Machine R R R :=
  {| self := {| state := 0%R; best_val_loss := Some 5%R;
                weights_filename := "params.pkl"; num_devices := 1 |};
     files := ∅;
     events := [] |}.

(** A batch of four sequences of length 2, with its targets. *)
Definition batch_4_2 : ndarray Z * ndarray Z :=
  (mk_ndarray [4; 2] [1; 2; 3; 4; 5; 6; 7; 8]%Z,
   mk_ndarray [4; 2] [2; 3; 4; 5; 6; 7; 8; 9]%Z).

(** A block of width 3 with two heads, which do not divide the width. *)
Definition block_3_wide_2_heads : GPT4Block R := mk_block 3 2 3 (1 / 10)%R 1.
Definition x_1_1_3 : ndarray R := mk_ndarray [1; 1; 3] [1%R; 2%R; 3%R].

(** A decoder that embeds tokens in 3 dimensions and runs blocks of
    width 2. *)
Definition decoder_3_into_2 : GPT4Decoder R :=
  mk_decoder 1 2 1 2 (1 / 10)%R 5 3 1.

(** A run on the two prompts in which the first row draws the end token
    at step 0 and goes on: at step 1 it draws 7 while the second row draws the
    end token, and at step 2 it draws the end token again. *)
Definition sample_resumed (seed : Z) (_ : ndarray R) (idx : list nat) : Z :=
  if Z.eqb seed 1
  then match idx with
       | [0] => 7%Z
       | _ => 50%Z
       end
  else match idx with
       | [0] => 50%Z
       | _ => 7%Z
       end.

Definition resumed_output : ndarray Z :=
  mk_ndarray [2; 3] [50%Z; 7%Z; 50%Z; 7%Z; 50%Z; 7%Z].

(** A batch of one sequence, which two devices cannot share. *)
Definition batch_1_2 : ndarray Z * ndarray Z :=
  (mk_ndarray [1; 2] [1; 2]%Z, mk_ndarray [1; 2] [2; 3]%Z).

(** * Properties *)

(** ** Arrays: indexing a tabulated array *)

Lemma nth_flat_map_blocks {A B : Type} (g : B -> list A) (k : nat) (l : list B)
    (i r : nat) (d : A) (db : B) :
  (forall x, length (g x) = k) -> i < length l -> r < k ->
  nth (i * k + r) (flat_map g l) d = nth r (g (nth i l db)) d.
Proof.
  intros Hk. revert i. induction l as [|x l IH]; intros i Hi Hr.
  - cbn in Hi. lia.
  - cbn [flat_map]. destruct i as [|i].
    + cbn [Nat.mul Nat.add nth]. rewrite app_nth1; [reflexivity|]. rewrite Hk. exact Hr.
    + rewrite app_nth2; rewrite Hk; [|lia].
      replace (S i * k + r - k) with (i * k + r) by lia.
      cbn [nth]. apply IH; [cbn in Hi; lia | exact Hr].
Qed.

Section ArrayFacts.
Context {A : Type}.

Lemma length_indices (s : list nat) : length (indices s) = size_of s.
Proof.
  induction s as [|d s IH]; [reflexivity|].
  cbn [indices size_of fold_right].
  change (fold_right Nat.mul 1 s) with (size_of s).
  rewrite <- IH. generalize 0 as o.
  induction d as [|d IHd]; intros o; [reflexivity|].
  cbn [seq flat_map]. rewrite length_app, length_map, IHd. lia.
Qed.

Lemma ravel_lt (s idx : list nat) : in_range s idx -> ravel s idx < size_of s.
Proof.
  unfold in_range. intros Hr. induction Hr as [|i d idx s Hid _ IH].
  - cbn. lia.
  - cbn [ravel size_of fold_right].
    change (fold_right Nat.mul 1 s) with (size_of s). nia.
Qed.

Lemma nth_ravel_indices (s idx : list nat) (d : list nat) :
  in_range s idx -> nth (ravel s idx) (indices s) d = idx.
Proof.
  unfold in_range. intros Hr. induction Hr as [|i n idx s Hin Hr IH].
  - reflexivity.
  - cbn [ravel indices].
    rewrite (nth_flat_map_blocks (fun i0 => map (cons i0) (indices s))
               (k := size_of s) (seq 0 n) d 0).
    + rewrite seq_nth by exact Hin. cbn [Nat.add].
      rewrite (nth_indep _ d (i :: d)).
      * rewrite (map_nth (cons i)). now rewrite IH.
      * rewrite length_map, length_indices. now apply ravel_lt.
    + intros x. now rewrite length_map, length_indices.
    + now rewrite length_seq.
    + now apply ravel_lt.
Qed.

(** Reading a tabulated array inside its shape returns the tabulated
    function at that index. *)
Lemma get_build (d : A) (s idx : list nat) (f : list nat -> A) :
  in_range s idx -> get d (build s f) idx = f idx.
Proof.
  intros Hr. unfold get, build. cbn [shape data].
  rewrite (nth_indep _ d (f idx)).
  - rewrite (map_nth f). now rewrite nth_ravel_indices.
  - rewrite length_map, length_indices. now apply ravel_lt.
Qed.

Lemma build_well_formed (s : list nat) (f : list nat -> A) :
  well_formed (build s f).
Proof. unfold well_formed, build. cbn. now rewrite length_map, length_indices. Qed.

Lemma get_amap {B : Type} (g : A -> B) (d : A) (a : ndarray A) (idx : list nat) :
  get (g d) (amap g a) idx = g (get d a idx).
Proof. unfold get, amap. cbn [shape data]. apply map_nth. Qed.

End ArrayFacts.

(** ** The attention engine *)

Ltac eval_real :=
  cbv -[Rplus Rminus Rmult Rdiv Rinv Ropp sqrt exp tanh IZR Rltb Reqb].

Lemma sqrt_4 : sqrt 4 = 2%R.
Proof.
  replace 4%R with (2 * 2)%R by lra. apply sqrt_square. lra.
Qed.

(** C1.  With hidden_dim = 4 and num_heads = 4 the per-head dimension is
    1, so the specification's scores are q.k / sqrt 1 = 1; the code divides
    by sqrt(key.shape[-1]) = sqrt 4 and returns 1/2 in every head. *)
Theorem attention_scores_divide_by_sqrt_of_full_width :
  attention_scores 4 ones_1_1_4 ones_1_1_4 ones_1_1_4
    = Ok (mk_ndarray [1; 4; 1; 1] [(1/2)%R; (1/2)%R; (1/2)%R; (1/2)%R])
  /\ spec_attention_scores 4 ones_1_1_4 ones_1_1_4 ones_1_1_4
    = Ok (mk_ndarray [1; 4; 1; 1] [1%R; 1%R; 1%R; 1%R])
  /\ attention_scores 4 ones_1_1_4 ones_1_1_4 ones_1_1_4
    <> spec_attention_scores 4 ones_1_1_4 ones_1_1_4 ones_1_1_4.
Proof.
  assert (Hc : attention_scores 4 ones_1_1_4 ones_1_1_4 ones_1_1_4
               = Ok (mk_ndarray [1; 4; 1; 1] [(1/2)%R; (1/2)%R; (1/2)%R; (1/2)%R])).
  { eval_real. rewrite sqrt_4.
    replace ((1 * 1 + 0) / 2)%R with (1 / 2)%R by lra. reflexivity. }
  assert (Hs : spec_attention_scores 4 ones_1_1_4 ones_1_1_4 ones_1_1_4
               = Ok (mk_ndarray [1; 4; 1; 1] [1%R; 1%R; 1%R; 1%R])).
  { eval_real. rewrite sqrt_1.
    replace ((1 * 1 + 0) / 1)%R with 1%R by lra. reflexivity. }
  repeat split; [exact Hc | exact Hs |].
  rewrite Hc, Hs. intros Heq. injection Heq as Heq. lra.
Qed.

Lemma rbind_Ok {A B : Type} (r : result A) (k : A -> result B) (b : B) :
  rbind r k = Ok b -> exists a, r = Ok a /\ k a = Ok b.
Proof.
  destruct r as [a|e]; cbn; intros Hk; [|discriminate].
  exists a. split; [reflexivity | exact Hk].
Qed.

Ltac inv_bind H :=
  let a := fresh "v" in
  let Ha := fresh "E" in
  apply rbind_Ok in H; destruct H as (a & Ha & H).

(** Inverts every bind of a hypothesis [H : (let* x := e in ...) = Ok v],
    splitting the pairs that are bound on the way. *)
Ltac inv_binds H :=
  repeat first
    [ inv_bind H
    | match type of H with
      | (let '(_, _) := ?r in _) = _ => destruct r as [? ?]
      end ].

Lemma in_range_app_inv (s idx : list nat) (n : nat) :
  in_range (s ++ [n]) idx ->
  exists bi j, idx = bi ++ [j] /\ in_range s bi /\ j < n.
Proof.
  unfold in_range. intros Hr.
  apply Forall2_app_inv_r in Hr.
  destruct Hr as (bi & tl & Hbi & Htl & ->).
  inversion Htl as [|j n' tl' s' Hj Hnil]; subst.
  inversion Hnil; subst.
  exists bi, j. repeat split; assumption.
Qed.

Lemma shape_rev_cons (s rb : list nat) (n : nat) :
  rev s = n :: rb -> s = rev rb ++ [n].
Proof.
  intros Hrev. rewrite <- (rev_involutive s), Hrev. reflexivity.
Qed.

Lemma fsum_cons_R (a : R) (l : list R) : fsum (a :: l) = (a + fsum l)%R.
Proof. reflexivity. Qed.

Lemma fsum_nil_R : fsum (F := R) [] = 0%R.
Proof. reflexivity. Qed.

Lemma fsum_exp_nonneg (g : nat -> R) (l : list nat) :
  (0 <= fsum (map (fun j => exp (g j)) l))%R.
Proof.
  induction l as [|a l IH].
  - cbn [map]. rewrite fsum_nil_R. lra.
  - cbn [map]. rewrite fsum_cons_R. pose proof (exp_pos (g a)). lra.
Qed.

Lemma fsum_exp_pos (g : nat -> R) (l : list nat) :
  l <> [] -> (0 < fsum (map (fun j => exp (g j)) l))%R.
Proof.
  destruct l as [|a l]; [congruence|]. intros _.
  cbn [map]. rewrite fsum_cons_R.
  pose proof (exp_pos (g a)). pose proof (fsum_exp_nonneg g l). lra.
Qed.

(** Entries of a softmax: the exponential of the entry over the sum of the
    exponentials along the last axis. *)
Lemma get_softmax (x w : ndarray R) (idx : list nat) :
  softmax x = Ok w -> in_range (shape x) idx ->
  shape w = shape x /\
  get 0%R w idx = (exp (get 0%R x idx) / row_sum_exp x idx)%R
  /\ (0 < get 0%R w idx)%R.
Proof.
  unfold softmax, row_sum_exp. intros Hs Hr.
  destruct (rev (shape x)) as [|n rb] eqn:Hrev; [discriminate|].
  injection Hs as <-.
  apply shape_rev_cons in Hrev.
  assert (Hlast : List.last (shape x) 0 = n).
  { rewrite Hrev. apply last_last. }
  rewrite Hlast.
  split; [reflexivity|].
  rewrite get_build by exact Hr. cbn [fexp fdiv R_Scalar of_Z].
  split; [reflexivity|].
  rewrite Hrev in Hr. apply in_range_app_inv in Hr.
  destruct Hr as (bi & j & -> & _ & Hj).
  apply Rdiv_lt_0_compat; [apply exp_pos|].
  apply (fsum_exp_pos (fun j0 => get 0%R x (removelast (bi ++ [j]) ++ [j0]))).
  destruct n; [lia | discriminate].
Qed.

Lemma broadcast2_shape {A B C : Type} (da : A) (db : B) (f : A -> B -> C)
    (a : ndarray A) (b : ndarray B) (c : ndarray C) :
  broadcast2 da db f a b = Ok c ->
  broadcast_shapes (shape a) (shape b) = Ok (shape c).
Proof.
  unfold broadcast2. intros Hb. inv_bind Hb. injection Hb as <-. exact E.
Qed.

Lemma get_broadcast2 {A B C : Type} (da : A) (db : B) (dc : C) (f : A -> B -> C)
    (a : ndarray A) (b : ndarray B) (c : ndarray C) (idx : list nat) :
  broadcast2 da db f a b = Ok c -> in_range (shape c) idx ->
  broadcast_shapes (shape a) (shape b) = Ok (shape c) /\
  get dc c idx = f (get da a (project (shape a) idx))
                   (get db b (project (shape b) idx)).
Proof.
  unfold broadcast2. intros Hb Hr. inv_bind Hb. injection Hb as <-.
  cbn [shape build] in *. split; [exact E|].
  now rewrite get_build.
Qed.

(** C5.  Whenever the attention engine is given a mask, the weights it
    returns are the softmax, along the key axis, of the raw scores
    multiplied entry by entry (with broadcasting) by the mask.  A masked
    entry (mask 0) has its score replaced by 0, not by minus infinity: its
    weight is exp 0 over the row sum and therefore strictly positive. *)
Theorem mask_multiplies_scores_before_softmax :
  forall (num_heads : nat) (query key value : ndarray R) (mask : ndarray Z)
         (attended weights : ndarray R),
    attention_function num_heads query key value (Some mask)
      = Ok (attended, weights) ->
    exists raw masked : ndarray R,
      attention_scores num_heads query key value = Ok raw
      /\ broadcast_shapes (shape raw) (shape mask) = Ok (shape masked)
      /\ softmax masked = Ok weights
      /\ forall idx : list nat, in_range (shape masked) idx ->
           let bit := get 0%Z mask (project (shape mask) idx) in
           get 0%R masked idx
             = (get 0%R raw (project (shape raw) idx) * IZR bit)%R
           /\ get 0%R weights idx
             = (exp (get 0%R masked idx) / row_sum_exp masked idx)%R
           /\ (bit = 0%Z ->
               get 0%R masked idx = 0%R
               /\ get 0%R weights idx = (1 / row_sum_exp masked idx)%R
               /\ (0 < get 0%R weights idx)%R).
Proof.
  intros nh q k v mask attended weights Hcall.
  unfold attention_function in Hcall.
  inv_bind Hcall. rename v0 into h, E into Hsplit.
  inv_bind Hcall. rename v0 into raw, E into Hraw.
  inv_bind Hcall. rename v0 into masked, E into Hmask.
  inv_bind Hcall. rename v0 into w, E into Hsoft.
  do 4 inv_bind Hcall. injection Hcall as _ <-.
  cbn [apply_mask] in Hmask.
  pose proof (broadcast2_shape _ _ _ _ _ Hmask) as Hshape.
  exists raw, masked.
  split; [unfold attention_scores; rewrite Hsplit; exact Hraw|].
  split; [exact Hshape|]. split; [exact Hsoft|].
  intros idx Hidx. cbv zeta.
  destruct (get_broadcast2 0%R 0%Z 0%R _ _ _ Hmask Hidx) as [_ Hentry].
  destruct (get_softmax _ Hsoft Hidx) as (_ & Hweight & Hpos).
  cbn [fmul of_Z R_Scalar] in Hentry.
  split; [exact Hentry|]. split; [exact Hweight|].
  intros Hbit. split; [|split].
  - rewrite Hentry, Hbit. apply Rmult_0_r.
  - rewrite Hweight, Hentry, Hbit, Rmult_0_r, exp_0. reflexivity.
  - exact Hpos.
Qed.

Lemma mask_multiplies_scores_before_softmax_witness :
  exists attended weights raw masked : ndarray R,
    attention_function 1 eye_1_2_2 eye_1_2_2 eye_1_2_2 (Some causal_1_1_2_2)
      = Ok (attended, weights)
    /\ attention_scores 1 eye_1_2_2 eye_1_2_2 eye_1_2_2 = Ok raw
    /\ softmax masked = Ok weights
    /\ get 0%R masked masked_position = 0%R
    /\ (0 < get 0%R weights masked_position)%R.
Proof.
  assert (Hcall : { aw : ndarray R * ndarray R |
            attention_function 1 eye_1_2_2 eye_1_2_2 eye_1_2_2 (Some causal_1_1_2_2)
              = Ok aw }).
  { eexists. eval_real. reflexivity. }
  destruct Hcall as [[attended weights] Hcall].
  destruct (mask_multiplies_scores_before_softmax _ _ _ _ _ Hcall)
    as (raw & masked & Hraw & Hshape & Hsoft & Hidx).
  assert (Hs : shape masked = [1; 1; 2; 2]).
  { assert (Hr : raw = raw) by reflexivity.
    revert Hshape. revert Hraw. eval_real. intros Hraw. injection Hraw as <-.
    cbn. intros Hshape. now injection Hshape as <-. }
  assert (Hin : in_range (shape masked) masked_position).
  { rewrite Hs. unfold in_range. repeat constructor. }
  destruct (Hidx _ Hin) as (_ & _ & Hbit).
  destruct Hbit as (Hzero & _ & Hpos); [reflexivity|].
  exists attended, weights, raw, masked. repeat split; assumption.
Defined.

(** ** The causal mask *)

Lemma broadcast_dim_refl (d : nat) : broadcast_dim d d = Ok d.
Proof. unfold broadcast_dim. now rewrite Nat.eqb_refl. Qed.

Lemma broadcast_dim_1_l (d : nat) : broadcast_dim 1 d = Ok d.
Proof.
  unfold broadcast_dim. destruct (Nat.eqb_spec 1 d) as [<-|_]; reflexivity.
Qed.

Lemma shape_eqb_refl (s : list nat) : shape_eqb s s = true.
Proof.
  induction s as [|d s IH]; [reflexivity|].
  cbn. now rewrite Nat.eqb_refl, IH.
Qed.

Lemma get_indep {A : Type} (d d' : A) (a : ndarray A) (idx : list nat) :
  well_formed a -> in_range (shape a) idx -> get d a idx = get d' a idx.
Proof.
  unfold well_formed, get. intros Hwf Hr. apply nth_indep.
  rewrite Hwf. now apply ravel_lt.
Qed.

Lemma unit_axis_index (d i : nat) : i < d -> (if Nat.eqb d 1 then 0 else i) = i.
Proof.
  intros Hi. destruct (Nat.eqb_spec d 1) as [->|_]; [lia | reflexivity].
Qed.

Lemma wrap32_small (z : Z) : (- 2 ^ 31 <= z < 2 ^ 31)%Z -> wrap32 z = z.
Proof.
  intros Hz. unfold wrap32.
  rewrite Z.mod_small; lia.
Qed.

Lemma get_arange (n i : nat) : i < n -> get 0%Z (arange n) [i] = Z.of_nat i.
Proof.
  intros Hi. unfold arange. rewrite get_build; [reflexivity|].
  unfold in_range. now repeat constructor.
Qed.

(** The mask before it is broadcast over batch and heads, lines 283-286. *)
Lemma causal_mask_core (D S i j : nat) :
  (Z.of_nat D < 2 ^ 31)%Z -> (Z.of_nat S < 2 ^ 31)%Z -> i < D -> j < S ->
  Z.geb (get 0%Z (mk_ndarray [D; 1] (data (arange D))) [i; 0])
        (get 0%Z (amap (fun j0 => wrap32 (wrap32 (j0 - Z.of_nat S) + Z.of_nat D))
                       (arange S)) [j])
  = (Z.of_nat i >=? Z.of_nat j - Z.of_nat S + Z.of_nat D)%Z.
Proof.
  intros HD HS Hi Hj.
  assert (H1 : get 0%Z (mk_ndarray [D; 1] (data (arange D))) [i; 0] = Z.of_nat i).
  { rewrite <- (get_arange Hi). unfold get. cbn [shape data ravel size_of fold_right].
    f_equal; lia. }
  rewrite H1.
  rewrite (get_indep 0%Z
             (wrap32 (wrap32 (0 - Z.of_nat S) + Z.of_nat D))).
  - rewrite (get_amap (fun j0 => wrap32 (wrap32 (j0 - Z.of_nat S) + Z.of_nat D))).
    rewrite (get_arange Hj).
    rewrite (wrap32_small (z := Z.of_nat j - Z.of_nat S)) by lia.
    rewrite wrap32_small by lia. reflexivity.
  - unfold well_formed, amap, arange, build. cbn [shape data].
    now rewrite !length_map, length_indices.
  - unfold in_range. cbn [shape amap arange build]. now repeat constructor.
Qed.

(** C6.  For lengths that fit jax's int32 indices, the causal mask has
    shape (batch, num_heads, D, S) and its entry (i, j), in every batch
    element and head, is 1 when i >= j - S + D and 0 otherwise; for S = D
    every entry with i < j is 0. *)
Theorem causal_mask_entries :
  forall (F : Type) (self : GPT4Block F) (batch_size D S : nat),
    (Z.of_nat D < 2 ^ 31)%Z -> (Z.of_nat S < 2 ^ 31)%Z ->
    exists mask : ndarray Z,
      causal_mask self batch_size D S = Ok mask
      /\ shape mask = [batch_size; num_heads self; D; S]
      /\ well_formed mask
      /\ forall b h i j : nat,
           b < batch_size -> h < num_heads self -> i < D -> j < S ->
           get 0%Z mask [b; h; i; j]
             = (if (Z.of_nat i >=? Z.of_nat j - Z.of_nat S + Z.of_nat D)%Z
                then 1%Z else 0%Z)
           /\ (S = D -> i < j -> get 0%Z mask [b; h; i; j] = 0%Z).
Proof.
  intros F self B D S HD HS.
  unfold causal_mask.
  assert (Hr1 : reshape (arange D) [D; 1] = Ok (mk_ndarray [D; 1] (data (arange D)))).
  { unfold reshape. cbn [shape arange build size_of fold_right].
    replace (D * (1 * 1)) with (D * 1) by lia. now rewrite Nat.eqb_refl. }
  rewrite Hr1. cbn [rbind].
  unfold broadcast2. cbn [shape amap arange build].
  unfold broadcast_shapes. cbn [rev app broadcast_rev].
  rewrite broadcast_dim_1_l. cbn [rbind rmap rev app].
  unfold reshape. cbn [shape amap build size_of fold_right].
  replace (Nat.eqb (D * (S * 1)) (1 * (1 * (D * (S * 1))))) with true
    by (symmetry; apply Nat.eqb_eq; lia).
  cbn [rbind].
  unfold broadcast_to. cbn [shape]. unfold broadcast_shapes.
  cbn [rev app broadcast_rev].
  rewrite !broadcast_dim_refl, !broadcast_dim_1_l. cbn [rbind rmap rev app].
  rewrite shape_eqb_refl.
  eexists. split; [reflexivity|]. split; [reflexivity|].
  split; [apply build_well_formed|].
  intros b h i j Hb Hh Hi Hj.
  assert (Hentry :
    get 0%Z
      (build [B; num_heads self; D; S]
         (fun idx => get 0%Z
            (mk_ndarray [1; 1; D; S]
               (data (amap (fun b0 : bool => if b0 then 1%Z else 0%Z)
                  (build [D; S]
                     (fun idx0 =>
                        Z.geb
                          (get 0%Z (mk_ndarray [D; 1] (data (arange D)))
                             (project [D; 1] idx0))
                          (get 0%Z
                             (amap (fun j0 => wrap32 (wrap32 (j0 - Z.of_nat S)
                                                      + Z.of_nat D))
                                   (arange S))
                             (project [S] idx0)))))))
            (project [1; 1; D; S] idx)))
      [b; h; i; j]
    = (if (Z.of_nat i >=? Z.of_nat j - Z.of_nat S + Z.of_nat D)%Z
       then 1%Z else 0%Z)).
  { rewrite get_build by (unfold in_range; now repeat constructor).
    unfold project. cbn [rev app project_rev]. cbn [Nat.eqb].
    rewrite (unit_axis_index Hi), (unit_axis_index Hj).
    transitivity
      (get 0%Z
         (amap (fun b0 : bool => if b0 then 1%Z else 0%Z)
            (build [D; S]
               (fun idx0 =>
                  Z.geb
                    (get 0%Z (mk_ndarray [D; 1] (data (arange D)))
                       (rev (project_rev [1; D] (rev idx0))))
                    (get 0%Z
                       (amap (fun j0 => wrap32 (wrap32 (j0 - Z.of_nat S)
                                                + Z.of_nat D))
                             (arange S))
                       (rev (project_rev [S] (rev idx0)))))))
         [i; j]).
    { unfold get. cbn [shape data amap build ravel size_of fold_right].
      f_equal; lia. }
    rewrite (get_amap (fun b0 : bool => if b0 then 1%Z else 0%Z) false).
    rewrite get_build by (unfold in_range; now repeat constructor).
    cbn [rev app project_rev]. cbn [Nat.eqb].
    rewrite (unit_axis_index Hi), (unit_axis_index Hj).
    now rewrite causal_mask_core. }
  split; [exact Hentry|].
  intros -> Hlt. rewrite Hentry.
  destruct (Z.geb_spec (Z.of_nat i) (Z.of_nat j - Z.of_nat D + Z.of_nat D));
    [lia | reflexivity].
Qed.

Lemma causal_mask_entries_witness :
  exists mask : ndarray Z,
    causal_mask (mk_block 4 2 4 (1 / 10)%R 1) 1 3 3 = Ok mask
    /\ shape mask = [1; 2; 3; 3]
    /\ get 0%Z mask [0; 1; 0; 2] = 0%Z
    /\ get 0%Z mask [0; 1; 2; 0] = 1%Z.
Proof.
  destruct (@causal_mask_entries R (mk_block 4 2 4 (1 / 10)%R 1) 1 3 3)
    as (mask & Hm & Hs & _ & He); [cbn; lia | cbn; lia |].
  exists mask. split; [exact Hm|]. split; [exact Hs|].
  split.
  - apply (He 0 1 0 2); cbn; lia.
  - apply (He 0 1 2 0); cbn; lia.
Defined.

(** ** Layer normalization in the decoder block *)

Section BlockNorms.
Context {F : Type} `{Scalar F}.

Lemma get_layer_norm (ln : LayerNorm F) (p : LayerNormParams F)
    (x y : ndarray F) (idx : list nat) :
  use_scale ln = true -> use_bias ln = true ->
  layer_norm ln p x = Ok y -> in_range (shape x) idx ->
  shape y = shape x /\
  get (of_Z 0) y idx
    = let row := row_of x (removelast idx) (List.last (shape x) 0) in
      fadd (fmul (fsub (get (of_Z 0) x idx) (fmean row))
                 (fmul (fdiv (of_Z 1) (fsqrt (fadd (variance row) (epsilon ln))))
                       (get (of_Z 0) (ln_scale p) [List.last idx 0])))
           (get (of_Z 0) (ln_bias p) [List.last idx 0]).
Proof.
  intros Hscale Hbias Hln Hr. unfold layer_norm in Hln.
  inv_bind Hln. rewrite Hscale, Hbias in Hln.
  destruct (negb _); [discriminate|]. injection Hln as <-.
  split; [reflexivity|].
  rewrite get_build by exact Hr. unfold norm_divisor.
  unfold shape_last in E. destruct (rev (shape x)) as [|n rb] eqn:Hrev; [discriminate|].
  injection E as ->. apply shape_rev_cons in Hrev.
  replace (List.last (shape x) 0) with v; [reflexivity|].
  rewrite Hrev. symmetry. apply last_last.
Qed.

End BlockNorms.

(** The three normalizations of a call of the block are those of the
    layers that [setup] creates, applied to the input, to the stream after
    the first residual and to the stream after the second. *)
Lemma block_trace_normalizations (F : Type) (SF : Scalar F)
    (bernoulli : string -> F -> list nat -> ndarray bool)
    (self : GPT4Block F) (p : BlockParams F) (x : ndarray F)
    (mask : option (ndarray Z)) (training : bool) (t : BlockTrace F) :
  GPT4Block_trace bernoulli self p x mask training = Ok t ->
  layer_norm (norm1 (GPT4Block_setup self)) (p_norm1 p) x = Ok (t_normed1 t)
  /\ layer_norm (norm2 (GPT4Block_setup self)) (p_norm2 p) (t_x1 t)
     = Ok (t_normed2 t)
  /\ layer_norm (norm3 (GPT4Block_setup self)) (p_norm3 p) (t_x2 t)
     = Ok (t_normed3 t).
Proof.
  intros Hcall. unfold GPT4Block_trace in Hcall. cbv zeta in Hcall.
  inv_binds Hcall. injection Hcall as <-.
  cbn [t_normed1 t_normed2 t_normed3 t_x1 t_x2]. repeat split; assumption.
Qed.

(** C7.  [setup] passes the dropout probability as the single positional
    argument of each of the three LayerNorm layers, which binds epsilon:
    every normalization of the block subtracts the row mean and divides by
    sqrt(variance + dropout) before the learned scale and bias apply. *)
Theorem layer_norm_epsilon_is_dropout :
  forall (F : Type) (SF : Scalar F) (self : GPT4Block F) (ln : LayerNorm F),
    In ln (block_norms (GPT4Block_setup self)) ->
    epsilon ln = dropout self
    /\ (forall row : list F,
          norm_divisor ln row = fsqrt (fadd (variance row) (dropout self)))
    /\ forall (p : LayerNormParams F) (x y : ndarray F) (idx : list nat),
         layer_norm ln p x = Ok y -> in_range (shape x) idx ->
         get (of_Z 0) y idx
           = let row := row_of x (removelast idx) (List.last (shape x) 0) in
             fadd (fmul (fsub (get (of_Z 0) x idx) (fmean row))
                        (fmul (fdiv (of_Z 1)
                                    (fsqrt (fadd (variance row) (dropout self))))
                              (get (of_Z 0) (ln_scale p) [List.last idx 0])))
                  (get (of_Z 0) (ln_bias p) [List.last idx 0]).
Proof.
  intros F SF self ln Hin.
  assert (Hln : ln = nn_LayerNorm (dropout self)).
  { cbn in Hin. destruct Hin as [<-|[<-|[<-|[]]]]; reflexivity. }
  subst ln. split; [reflexivity|]. split; [reflexivity|].
  intros p x y idx Hcall Hr.
  exact (proj2 (@get_layer_norm F SF (nn_LayerNorm (dropout self)) p x y idx
                  eq_refl eq_refl Hcall Hr)).
Qed.

Lemma layer_norm_epsilon_is_dropout_witness :
  exists y : ndarray R,
    layer_norm (norm1 (GPT4Block_setup block_tenth)) unit_norm_params row_3_5 = Ok y
    /\ get 0%R y first_entry
       = ((3 - 4) * (1 / sqrt (1 + 1 / 10) * 1) + 0)%R.
Proof.
  assert (Hcall : { y : ndarray R |
            layer_norm (norm1 (GPT4Block_setup block_tenth)) unit_norm_params row_3_5
              = Ok y }).
  { eexists. eval_real. reflexivity. }
  destruct Hcall as [y Hcall]. exists y. split; [exact Hcall|].
  assert (Hin : In (norm1 (GPT4Block_setup block_tenth))
                   (block_norms (GPT4Block_setup block_tenth))) by (left; reflexivity).
  destruct (@layer_norm_epsilon_is_dropout R R_Scalar block_tenth _ Hin)
    as (_ & _ & Hentry).
  assert (Hr : in_range (shape row_3_5) first_entry)
    by (unfold in_range; repeat constructor).
  etransitivity; [exact (Hentry _ _ _ _ Hcall Hr)|].
  eval_real.
  replace ((3 + (5 + 0)) / 2)%R with 4%R by lra.
  replace (((3 - 4) * (3 - 4) + ((5 - 4) * (5 - 4) + 0)) / 2)%R with 1%R by lra.
  reflexivity.
Defined.

(** ** Residual wiring of the decoder block *)

Lemma dropout_apply_deterministic {F : Type} `{Scalar F}
    (bernoulli : string -> F -> list nat -> ndarray bool)
    (name : string) (dr : Dropout F) (x : ndarray F) :
  dropout_apply bernoulli name dr x true = x.
Proof. unfold dropout_apply. now rewrite orb_true_r. Qed.

(** C2 (as the code has it).  In every call of the decoder block that
    returns, the residual addition closing the second self-attention
    sub-layer adds the output of the second attention, computed on the
    re-normalized stream, to the dropped-out stream; the first attention's
    output is what the first residual addition adds. *)
Theorem second_residual_adds_second_attention :
  forall (F : Type) (SF : Scalar F)
         (bernoulli : string -> F -> list nat -> ndarray bool)
         (self : GPT4Block F) (p : BlockParams F) (x : ndarray F)
         (mask : option (ndarray Z)) (training : bool) (t : BlockTrace F),
    GPT4Block_trace bernoulli self p x mask training = Ok t ->
    add_arrays (t_dropped1 t) (t_attended1 t) = Ok (t_x1 t)
    /\ SelfMultiHeadAttention_call (attention2 (GPT4Block_setup self))
         (p_attention2 p) (t_normed2 t) (Some (t_mask t))
       = Ok (t_attended2 t, t_attention2 t)
    /\ t_dropped2 t
       = dropout_apply bernoulli "dropout2" (dropout2 (GPT4Block_setup self))
           (t_normed2 t) (negb training)
    /\ add_arrays (t_dropped2 t) (t_attended2 t) = Ok (t_x2 t).
Proof.
  intros F SF bernoulli self p x mask training t Hcall.
  unfold GPT4Block_trace in Hcall. cbv zeta in Hcall.
  inv_binds Hcall.
  injection Hcall as <-. cbn [t_dropped1 t_attended1 t_x1 t_normed2 t_mask
                               t_attended2 t_attention2 t_dropped2 t_x2].
  repeat split; assumption.
Qed.

Lemma Rdiv_1_1 : (1 / 1 = 1)%R.
Proof. lra. Qed.

Create Rewrite HintDb real_simpl.
#[local] Hint Rewrite Rmult_0_r Rmult_0_l Rplus_0_r Rplus_0_l Rdiv_1_r Rmult_1_r
  Rmult_1_l Rminus_diag Rdiv_0_l exp_0 sqrt_1 Rdiv_1_1 : real_simpl.

(** Runs a chain of binds on closed real-valued arguments one call at a
    time, simplifying the numbers after each call. *)
Ltac step_bind :=
  first
  [ rewrite dropout_apply_deterministic
  | match goal with
    | |- rbind (Ok ?a) ?k = _ => change (rbind (Ok a) k) with (k a); cbv beta
    | |- rbind ?e ?k = _ =>
        let e' := eval cbv -[Rplus Rminus Rmult Rdiv Rinv Ropp sqrt exp tanh
                              IZR Rltb Reqb] in e in
        change (rbind e k) with (rbind e' k); autorewrite with real_simpl
    | |- (let x := _ in _) = _ => cbv zeta
    | |- (let '(a, b) := _ in _) = _ => cbv beta iota
    end ].

Lemma block_width_1_trace :
  GPT4Block_trace keep_all block_width_1 params_1_2 x_seven None false
    = Ok trace_width_1.
Proof.
  unfold GPT4Block_trace. cbn [negb]. repeat step_bind. reflexivity.
Qed.

(** C2 (as the specification words it) fails: on the block above the
    stream after the second residual is 0 + 2, the dropped-out stream plus
    the second attention's output, while adding the first attention's
    output would give 0 + 1. *)
Lemma second_residual_does_not_add_first_attention :
  ~ (forall (F : Type) (SF : Scalar F)
            (bernoulli : string -> F -> list nat -> ndarray bool)
            (self : GPT4Block F) (p : BlockParams F) (x : ndarray F)
            (mask : option (ndarray Z)) (training : bool) (t : BlockTrace F),
       GPT4Block_trace bernoulli self p x mask training = Ok t ->
       add_arrays (t_dropped2 t) (t_attended1 t) = Ok (t_x2 t)).
Proof.
  intros Hclaim.
  specialize (Hclaim R R_Scalar keep_all block_width_1 params_1_2 x_seven None
                false trace_width_1 block_width_1_trace).
  revert Hclaim. eval_real. intros Heq. injection Heq as Heq. lra.
Qed.

Lemma second_residual_adds_second_attention_witness :
  add_arrays (t_dropped1 trace_width_1) (t_attended1 trace_width_1)
    = Ok (t_x1 trace_width_1)
  /\ SelfMultiHeadAttention_call (attention2 (GPT4Block_setup block_width_1))
       (p_attention2 params_1_2) (t_normed2 trace_width_1)
       (Some (t_mask trace_width_1))
     = Ok (t_attended2 trace_width_1, t_attention2 trace_width_1)
  /\ t_dropped2 trace_width_1
     = dropout_apply keep_all "dropout2" (dropout2 (GPT4Block_setup block_width_1))
         (t_normed2 trace_width_1) (negb false)
  /\ add_arrays (t_dropped2 trace_width_1) (t_attended2 trace_width_1)
     = Ok (t_x2 trace_width_1).
Proof.
  exact (@second_residual_adds_second_attention R R_Scalar keep_all block_width_1
           params_1_2 x_seven None false trace_width_1 block_width_1_trace).
Defined.

(** ** Generation *)

Lemma run_bind_ret {A B : Type} (a : A) (k : A -> run B) :
  run_bind (0, Ok a) k = k a.
Proof. unfold run_bind. now destruct (k a). Qed.

Lemma run_bind_raise {A B : Type} (n : nat) (e : exn) (k : A -> run B) :
  run_bind (n, Raise e) k = (n, Raise e).
Proof. reflexivity. Qed.

Lemma steps_run_bind {A B : Type} (c : run A) (k : A -> run B) :
  steps c <= steps (run_bind c k).
Proof.
  destruct c as [n [a|e]]; unfold run_bind, steps; cbn [fst].
  - destruct (k a) as [m r]. cbn. lia.
  - cbn. lia.
Qed.

Section GenerationFacts.
Context {F : Type} `{Scalar F}.
Variable decoder : ndarray Z -> result (ndarray F).
Variable categorical_sample : Z -> ndarray F -> list nat -> Z.
Variable clock : nat -> Z.

Lemma steps_next_tokens (i : nat) (x : ndarray Z) (temperature : F)
    (deterministic : bool) :
  1 <= steps (next_tokens decoder categorical_sample clock i x temperature
                deterministic).
Proof.
  unfold next_tokens.
  eapply Nat.le_trans; [|apply steps_run_bind]. unfold call_decoder, steps. cbn. lia.
Qed.

Lemma steps_generate_loop (self : GPT4 F) (fuel i : nat) (x : ndarray Z)
    (out : list Z) (temperature : F) (deterministic : bool) :
  0 < fuel ->
  1 <= steps (generate_loop decoder categorical_sample clock self fuel i x out
                temperature deterministic).
Proof.
  destruct fuel as [|fuel]; [lia|]. intros _. cbn [generate_loop].
  eapply Nat.le_trans; [apply steps_next_tokens|apply steps_run_bind].
Qed.

Lemma generate_batch_1 (self : GPT4 F) (x : ndarray Z) (temperature : F)
    (deterministic : bool) :
  shape_at x 0 = Ok 1 ->
  generate decoder categorical_sample clock self (Some x) temperature
    deterministic
  = generate_loop decoder categorical_sample clock self (max_length self)
      0 x [] temperature deterministic.
Proof.
  intros Hb. unfold generate. rewrite Hb. cbn [rbind Nat.eqb].
  unfold run_lift, run_bind.
  now destruct (generate_loop _ _ _ _ _ _ _ _ _ _).
Qed.

End GenerationFacts.

(** C10.  When the input of [generate] has a leading dimension other
    than 1, in particular greater than 1, the call raises the assertion
    error without having started a decoding step.  With leading dimension 1,
    or without input, the assertion passes: the call is the decoding loop on
    the input (or on the start token), which starts at least one decoding
    step when max_length is positive. *)
Theorem generate_asserts_batch_size_1 :
  forall (F : Type) (SF : Scalar F)
         (decoder : ndarray Z -> result (ndarray F))
         (categorical_sample : Z -> ndarray F -> list nat -> Z)
         (clock : nat -> Z) (self : GPT4 F) (temperature : F)
         (deterministic : bool),
    (forall (x : ndarray Z) (b : nat),
       shape_at x 0 = Ok b -> b <> 1 ->
       generate decoder categorical_sample clock self (Some x) temperature
         deterministic
       = (0, Raise (AssertionError "Batch size must be 1, else use generate_batch()")))
    /\ (forall x : ndarray Z,
          shape_at x 0 = Ok 1 ->
          generate decoder categorical_sample clock self (Some x) temperature
            deterministic
          = generate_loop decoder categorical_sample clock self (max_length self)
              0 x [] temperature deterministic)
    /\ generate decoder categorical_sample clock self None temperature
         deterministic
       = generate_loop decoder categorical_sample clock self (max_length self)
           0 (mk_ndarray [1; 1] [start_token self]) [] temperature deterministic
    /\ (forall fuel i x out,
          0 < fuel ->
          1 <= steps (generate_loop decoder categorical_sample clock self fuel
                        i x out temperature deterministic)).
Proof.
  intros F SF decoder sample clock self temperature deterministic.
  split; [|split; [|split]].
  - intros x b Hb Hne. unfold generate. rewrite Hb. cbn [rbind].
    destruct (Nat.eqb_spec b 1) as [->|_]; [congruence|]. reflexivity.
  - intros x Hb. now apply generate_batch_1.
  - unfold generate, run_lift, run_bind.
    now destruct (generate_loop _ _ _ _ _ _ _ _ _ _).
  - intros fuel i x out Hfuel. now apply steps_generate_loop.
Qed.

Lemma generate_asserts_batch_size_1_witness :
  generate (flat_decoder 1000) sample_zero clock_zero example_config
    (Some start_tokens_2) 1%R true
  = (0, Raise (AssertionError "Batch size must be 1, else use generate_batch()"))
  /\ generate (flat_decoder 1000) sample_zero clock_zero example_config
       (Some prefix_123_456) 1%R true
     = generate_loop (flat_decoder 1000) sample_zero clock_zero example_config
         51 0 prefix_123_456 [] 1%R true
  /\ 1 <= steps (generate_loop (flat_decoder 1000) sample_zero clock_zero
                   example_config 51 0 prefix_123_456 [] 1%R true).
Proof.
  destruct (@generate_asserts_batch_size_1 R R_Scalar (flat_decoder 1000)
              sample_zero clock_zero example_config 1%R true)
    as (Hfail & Hpass & _ & Hsteps).
  split; [|split].
  - apply (Hfail start_tokens_2 2); [reflexivity | lia].
  - apply (Hpass prefix_123_456). reflexivity.
  - apply Hsteps. lia.
Defined.

Lemma run_bind_ok {A B : Type} (n : nat) (a : A) (k : A -> run B) :
  run_bind (n, Ok a) k = (n + steps (k a), outcome (k a)).
Proof. unfold run_bind, steps, outcome. now destruct (k a). Qed.

Lemma run_bind_lift_ok {A B : Type} (a : A) (k : A -> run B) :
  run_bind (run_lift (Ok a)) k = k a.
Proof. apply run_bind_ret. Qed.

Section SingleSequence.
Context {F : Type} `{Scalar F}.
Variable decoder : ndarray Z -> result (ndarray F).
Variable categorical_sample : Z -> ndarray F -> list nat -> Z.
Variable clock : nat -> Z.
Variable self : GPT4 F.
Variable V : nat.
Hypothesis V_pos : 0 < V.
Hypothesis decoder_ok : decoder_total decoder V.

Lemma next_tokens_single (i L : nat) (x : ndarray Z) (temperature : F)
    (deterministic : bool) :
  shape x = [1; L] -> 1 <= L ->
  exists y probs : ndarray F,
    decoder x = Ok y /\ shape y = [1; L; V]
    /\ (let* last_token_logits := take_last_axis1 (of_Z 0) y in
        softmax (amap (fun v => fdiv v temperature) last_token_logits))
       = Ok probs
    /\ shape probs = [1; V]
    /\ next_tokens decoder categorical_sample clock i x temperature deterministic
       = (1, Ok (mk_ndarray [1] [chosen categorical_sample clock V deterministic i probs])).
Proof.
  intros Hx HL. destruct (decoder_ok x Hx) as (y & Hy & Hsy).
  assert (HV : Nat.eqb V 0 = false) by (apply Nat.eqb_neq; lia).
  assert (HL0 : Nat.eqb L 0 = false) by (apply Nat.eqb_neq; lia).
  exists y. eexists. split; [exact Hy|]. split; [exact Hsy|].
  split; [|split].
  - unfold take_last_axis1. rewrite Hsy, HL0. cbn [rbind].
    unfold softmax. cbn [shape amap build rev app]. reflexivity.
  - reflexivity.
  - unfold next_tokens, call_decoder. rewrite Hy.
    rewrite run_bind_ok. cbv beta.
    unfold take_last_axis1. rewrite Hsy, HL0.
    rewrite !run_bind_lift_ok.
    unfold softmax. cbn [shape amap build rev app].
    rewrite !run_bind_lift_ok.
    unfold chosen. destruct deterministic.
    + unfold argmax. cbn [shape build rev app]. rewrite HV.
      unfold run_lift, steps, outcome. cbn [fst snd]. reflexivity.
    + unfold categorical. cbn [shape build rev app]. rewrite HV.
      unfold run_lift, steps, outcome. cbn [fst snd]. reflexivity.
Qed.

(** One iteration of the loop of [generate]. *)
Lemma generate_loop_step (fuel i L : nat) (x : ndarray Z) (out : list Z)
    (temperature : F) (deterministic : bool) :
  shape x = [1; L] -> 1 <= L ->
  exists (y probs : ndarray F) (x' : ndarray Z),
    decoder x = Ok y /\ shape y = [1; L; V]
    /\ (let* last_token_logits := take_last_axis1 (of_Z 0) y in
        softmax (amap (fun v => fdiv v temperature) last_token_logits))
       = Ok probs
    /\ shape x' = [1; L + 1]
    /\ generate_loop decoder categorical_sample clock self (S fuel) i x out
         temperature deterministic
       = let tok := chosen categorical_sample clock V deterministic i probs in
         if Z.eqb tok (end_token self) then (1, Ok (out ++ [tok]))
         else
           let r := generate_loop decoder categorical_sample clock self fuel
                      (S i) x' (out ++ [tok]) temperature deterministic in
           (1 + steps r, outcome r).
Proof.
  intros Hx HL.
  destruct (next_tokens_single i x temperature deterministic Hx HL)
    as (y & probs & Hy & Hsy & Hp & _ & Hnt).
  assert (Hc : exists x' : ndarray Z,
             concatenate_axis1 0%Z x
               (mk_ndarray [1; 1] [chosen categorical_sample clock V deterministic i probs]) = Ok x'
             /\ shape x' = [1; L + 1]).
  { unfold concatenate_axis1. rewrite Hx. cbn [shape Nat.eqb shape_eqb andb].
    eexists. split; reflexivity. }
  destruct Hc as (x' & Hc & Hx').
  exists y, probs, x'. split; [exact Hy|]. split; [exact Hsy|].
  split; [exact Hp|]. split; [exact Hx'|].
  cbn [generate_loop]. rewrite Hnt. rewrite run_bind_ok.
  unfold take_first. cbn [shape Nat.eqb].
  rewrite !run_bind_lift_ok. unfold item. cbn [build data indices map].
  rewrite !run_bind_lift_ok. cbn [shape data build].
  assert (Htok : get 0%Z (mk_ndarray [1] [chosen categorical_sample clock V deterministic i probs]) [0]
                 = chosen categorical_sample clock V deterministic i probs) by reflexivity.
  rewrite Htok. rewrite Hc.
  rewrite !run_bind_lift_ok. cbv zeta.
  destruct (Z.eqb _ _).
  - unfold run_ret, steps, outcome. cbn [fst snd]. reflexivity.
  - reflexivity.
Qed.

(** The loop of [generate] returns: it emits one token per decoding step,
    at most [fuel] of them; the end token can only be the last one, and is
    the last one whenever the loop stops early. *)
Lemma generate_loop_returns (fuel : nat) :
  forall (i L : nat) (x : ndarray Z) (out : list Z) (temperature : F)
         (deterministic : bool),
    shape x = [1; L] -> 1 <= L ->
    exists (n : nat) (toks : list Z),
      generate_loop decoder categorical_sample clock self fuel i x out
        temperature deterministic = (n, Ok (out ++ toks))
      /\ length toks = n /\ n <= fuel
      /\ (forall j, j + 1 < n -> nth j toks 0%Z <> end_token self)
      /\ (n < fuel -> 1 <= n /\ nth (n - 1) toks 0%Z = end_token self).
Proof.
  induction fuel as [|fuel IH]; intros i L x out temperature deterministic Hx HL.
  - exists 0, []. cbn [generate_loop]. rewrite app_nil_r.
    repeat split; try reflexivity; try lia.
  - destruct (generate_loop_step fuel i x out temperature deterministic Hx HL)
      as (y & probs & x' & _ & _ & _ & Hx' & Hstep).
    rewrite Hstep. cbv zeta.
    set (tok := chosen categorical_sample clock V deterministic i probs).
    destruct (Z.eqb_spec tok (end_token self)) as [Hend|Hne].
    + exists 1, [tok]. repeat split; try reflexivity; try lia.
      cbn. exact Hend.
    + destruct (IH (S i) (L + 1) x' (out ++ [tok]) temperature deterministic
                  Hx' ltac:(lia))
        as (n & toks & Hloop & Hlen & Hle & Hmid & Hlast).
      rewrite Hloop. unfold steps, outcome. cbn [fst snd].
      exists (1 + n), (tok :: toks).
      rewrite <- app_assoc. cbn [app].
      split; [reflexivity|]. split; [cbn; lia|]. split; [lia|]. split.
      * intros [|j] Hj; cbn [nth]; [exact Hne|]. apply Hmid. lia.
      * intros Hlt. split; [lia|].
        destruct (Hlast ltac:(lia)) as [Hn1 Hn].
        replace (1 + n - 1) with (S (n - 1)) by lia. cbn [nth]. exact Hn.
Qed.

End SingleSequence.

(** C4 (as the code has it).  Under the configuration of the usage
    example (max_length = 51, end_token = 50), with a decoder that is total
    over single sequences, greedy generation from the prefix [[123, 456]]
    returns: it emits one token per decoding step and at most 51 of them
    (the prefix does not count against the bound); token 50 can only be the
    last token emitted, and it is the last one whenever fewer than 51 tokens
    are returned. *)
Theorem generate_emits_at_most_max_length :
  forall (F : Type) (SF : Scalar F)
         (decoder : ndarray Z -> result (ndarray F))
         (categorical_sample : Z -> ndarray F -> list nat -> Z)
         (clock : nat -> Z) (self : GPT4 F) (temperature : F) (V : nat),
    max_length self = 51 -> end_token self = 50%Z ->
    0 < V -> decoder_total decoder V ->
    exists (n : nat) (out : list Z),
      generate decoder categorical_sample clock self (Some prefix_123_456)
        temperature true = (n, Ok out)
      /\ length out = n /\ n <= 51
      /\ (forall j, j + 1 < n -> nth j out 0%Z <> 50%Z)
      /\ (n < 51 -> 1 <= n /\ nth (n - 1) out 0%Z = 50%Z).
Proof.
  intros F SF decoder sample clock self temperature V Hmax Hend HV Hdec.
  rewrite (generate_batch_1 decoder sample clock self prefix_123_456
             temperature true eq_refl).
  destruct (generate_loop_returns sample clock self HV Hdec (max_length self) 0
              prefix_123_456 [] temperature true (L := 2) eq_refl ltac:(lia))
    as (n & toks & Hloop & Hlen & Hle & Hmid & Hlast).
  rewrite Hend, Hmax in *. exists n, toks.
  split; [exact Hloop|]. repeat split; try assumption; now apply Hlast.
Qed.

(** *** A decoder that never emits the end token *)

Lemma Rltb_irrefl (c : R) : Rltb c c = false.
Proof. unfold Rltb. destruct (Rlt_dec c c); [lra | reflexivity]. Qed.

Lemma argmax_from_repeat (c : R) (n best_i i : nat) :
  argmax_from best_i c i (repeat c n) = best_i.
Proof.
  revert i. induction n as [|n IH]; intros i; [reflexivity|].
  cbn [repeat argmax_from fltb R_Scalar]. rewrite Rltb_irrefl. apply IH.
Qed.

Lemma argmax_list_constant (f : nat -> R) (c : R) (n : nat) :
  (forall t, t < n -> f t = c) -> argmax_list (map f (seq 0 n)) = 0.
Proof.
  intros Hf.
  assert (Hrep : map f (seq 0 n) = repeat c n).
  { apply (nth_ext _ _ c c).
    - now rewrite length_map, length_seq, repeat_length.
    - intros t Ht. rewrite length_map, length_seq in Ht.
      rewrite nth_repeat.
      rewrite (nth_indep _ c (f 0)) by now rewrite length_map, length_seq.
      rewrite (map_nth f), seq_nth by exact Ht. now apply Hf. }
  rewrite Hrep. destruct n as [|n]; [reflexivity|].
  cbn [repeat argmax_list]. apply argmax_from_repeat.
Qed.

Lemma flat_decoder_total (V : nat) : decoder_total (flat_decoder V) V.
Proof.
  intros x L Hx. unfold flat_decoder. rewrite Hx.
  eexists. split; reflexivity.
Qed.

(** With all logits equal, the probabilities of the last position are all
    equal and the greedy choice is token 0. *)
Lemma flat_decoder_chooses_0 (V L i : nat) (temperature : R) (probs : ndarray R) :
  0 < V -> 1 <= L ->
  (let* last_token_logits :=
     take_last_axis1 0%R (build [1; L; V] (fun _ => 0%R)) in
   softmax (amap (fun v => (v / temperature)%R) last_token_logits)) = Ok probs ->
  chosen sample_zero clock_zero V true i probs = 0%Z.
Proof.
  intros HV HL Hp. unfold chosen.
  unfold take_last_axis1 in Hp. cbn [shape build] in Hp.
  replace (Nat.eqb L 0) with false in Hp by (symmetry; apply Nat.eqb_neq; lia).
  cbn [rbind] in Hp.
  set (logits := build [1; V] _) in Hp.
  set (scaled := amap _ logits) in Hp.
  assert (Hscaled : forall t, t < V -> get 0%R scaled [0; t] = (0 / temperature)%R).
  { intros t Ht. subst scaled.
    rewrite (get_indep 0%R (0 / temperature)%R).
    - rewrite (get_amap (fun v => (v / temperature)%R)). f_equal.
      subst logits. rewrite get_build by (unfold in_range; repeat constructor; lia).
      rewrite get_build by (unfold in_range; repeat constructor; lia).
      reflexivity.
    - unfold well_formed, amap. cbn [shape data]. rewrite length_map.
      apply build_well_formed.
    - unfold in_range. cbn [shape amap]. repeat constructor; lia. }
  unfold row_of.
  rewrite (@argmax_list_constant
             (fun t => get (of_Z 0) probs ([0] ++ [t]))
             (exp (0 / temperature) / row_sum_exp scaled [0%nat; 0%nat])%R V);
    [reflexivity|].
  intros t Ht.
  assert (Hr : in_range (shape scaled) [0; t])
    by (unfold in_range; cbn [shape amap]; repeat constructor; lia).
  destruct (get_softmax _ Hp Hr) as (_ & Hg & _).
  cbn [app]. etransitivity; [exact Hg|].
  rewrite (Hscaled t Ht). reflexivity.
Qed.

Lemma flat_decoder_never_stops (V : nat) (self : GPT4 R) (temperature : R) :
  0 < V -> end_token self <> 0%Z ->
  forall (fuel i L : nat) (x : ndarray Z) (out : list Z),
    shape x = [1; L] -> 1 <= L ->
    generate_loop (flat_decoder V) sample_zero clock_zero self fuel i x out
      temperature true
    = (fuel, Ok (out ++ repeat 0%Z fuel)).
Proof.
  intros HV Hend fuel.
  induction fuel as [|fuel IH]; intros i L x out Hx HL.
  - cbn [generate_loop repeat]. now rewrite app_nil_r.
  - destruct (generate_loop_step sample_zero clock_zero self HV
                (flat_decoder_total V) fuel i x out temperature true Hx HL)
      as (y & probs & x' & Hy & _ & Hp & Hx' & Hstep).
    rewrite Hstep. cbv zeta.
    unfold flat_decoder in Hy. rewrite Hx in Hy. injection Hy as <-.
    rewrite (flat_decoder_chooses_0 i temperature HV HL Hp).
    destruct (Z.eqb_spec 0 (end_token self)) as [Heq|_]; [congruence|].
    rewrite (IH (S i) (L + 1) x' (out ++ [0%Z]) Hx' ltac:(lia)).
    unfold steps, outcome. cbn [fst snd repeat].
    now rewrite <- app_assoc.
Qed.

(** C4 (as the specification words it) fails: with the flat decoder, which
    never emits token 50, the call returns 51 tokens, more than 49. *)
Lemma generate_can_emit_51_tokens :
  exists out : list Z,
    generate (flat_decoder 1000) sample_zero clock_zero example_config
      (Some prefix_123_456) 1%R true = (51, Ok out)
    /\ length out = 51
    /\ ~ length out <= 49.
Proof.
  exists (repeat 0%Z 51).
  rewrite (generate_batch_1 (flat_decoder 1000) sample_zero clock_zero
             example_config prefix_123_456 1%R true eq_refl).
  split; [|split].
  - apply (flat_decoder_never_stops (V := 1000) example_config 1%R
             ltac:(lia) ltac:(discriminate) 51 0 (L := 2) prefix_123_456 []
             eq_refl ltac:(lia)).
  - now rewrite repeat_length.
  - rewrite repeat_length. lia.
Qed.

Lemma generate_emits_at_most_max_length_witness :
  exists (n : nat) (out : list Z),
    generate (flat_decoder 1000) sample_zero clock_zero example_config
      (Some prefix_123_456) 1%R true = (n, Ok out)
    /\ length out = n /\ n <= 51.
Proof.
  destruct (@generate_emits_at_most_max_length R R_Scalar (flat_decoder 1000)
              sample_zero clock_zero example_config 1%R 1000
              eq_refl eq_refl ltac:(lia) (flat_decoder_total 1000))
    as (n & out & Hgen & Hlen & Hle & _).
  exists n, out. repeat split; assumption.
Defined.

(** *** Batched generation *)

Lemma run_bind_inv {A B : Type} (c : run A) (k : A -> run B) (n : nat) (b : B) :
  run_bind c k = (n, Ok b) ->
  exists (n1 n2 : nat) (a : A),
    c = (n1, Ok a) /\ k a = (n2, Ok b) /\ n = n1 + n2.
Proof.
  destruct c as [n1 [a|e]]; cbn [run_bind]; [|discriminate].
  destruct (k a) as [n2 r] eqn:Hk. intros Heq. injection Heq as <- ->.
  exists n1, n2, a. repeat split; assumption.
Qed.

Lemma run_lift_inv {A : Type} (r : result A) (n : nat) (a : A) :
  run_lift r = (n, Ok a) -> r = Ok a /\ n = 0.
Proof. unfold run_lift. intros Heq. now injection Heq as -> <-. Qed.

(** [inv_run H as a Ha]: from [H : (do* x := c in k x) = (n, Ok b)], a value
    [a] with [Ha : c = (_, Ok a)], leaving [H : k a = (_, Ok b)];
    [inv_lift H as a Ha] does the same when [c] is a lifted result and
    leaves [Ha : r = Ok a]. *)
Tactic Notation "inv_run" hyp(H) "as" ident(a) ident(Ha) :=
  let n1 := fresh "n" in
  let n2 := fresh "n" in
  let Hn := fresh "N" in
  apply run_bind_inv in H; destruct H as (n1 & n2 & a & Ha & H & Hn).

Tactic Notation "inv_lift" hyp(H) "as" ident(a) ident(Ha) :=
  let Hz := fresh "N" in
  inv_run H as a Ha; apply run_lift_inv in Ha; destruct Ha as [Ha Hz].

Lemma forallb_false_exists {A : Type} (p : A -> bool) (l : list A) :
  forallb p l = false -> exists x, In x l /\ p x = false.
Proof.
  induction l as [|a l IH]; [discriminate|]. cbn [forallb].
  destruct (p a) eqn:Hp; cbn [andb].
  - intros Hl. destruct (IH Hl) as (x & Hin & Hx). exists x. split; [now right | exact Hx].
  - intros _. exists a. split; [now left | exact Hp].
Qed.

Lemma broadcast_rev_length (r1 r2 r : list nat) :
  broadcast_rev r1 r2 = Ok r -> length r = Nat.max (length r1) (length r2).
Proof.
  revert r2 r. induction r1 as [|d1 r1 IH]; intros r2 r Hb.
  - cbn in Hb. injection Hb as <-. reflexivity.
  - destruct r2 as [|d2 r2].
    + cbn in Hb. injection Hb as <-. reflexivity.
    + cbn [broadcast_rev] in Hb. inv_bind Hb. inv_bind Hb. injection Hb as <-.
      cbn [length]. rewrite (IH _ _ E0). lia.
Qed.

Lemma broadcast_shapes_length (s1 s2 s : list nat) :
  broadcast_shapes s1 s2 = Ok s -> length s = Nat.max (length s1) (length s2).
Proof.
  unfold broadcast_shapes, rmap. intros Hb. inv_bind Hb. injection Hb as <-.
  rewrite length_rev, (broadcast_rev_length _ _ E), !length_rev. reflexivity.
Qed.

Lemma shape_eqb_eq (s1 s2 : list nat) : shape_eqb s1 s2 = true -> s1 = s2.
Proof.
  revert s2. induction s1 as [|d1 s1 IH]; intros [|d2 s2] Heq;
    try discriminate; [reflexivity|].
  cbn in Heq. apply andb_true_iff in Heq. destruct Heq as [Hd Hs].
  apply Nat.eqb_eq in Hd. subst. f_equal. now apply IH.
Qed.

(** Broadcasting a vector of [B] tokens to shape (B,) reads it as it is. *)
Lemma broadcast_to_vector (B : nat) (f : list nat -> Z) (v : ndarray Z) :
  broadcast_to 0%Z (build [B] f) [B] = Ok v ->
  forall r, r < B -> get 0%Z v [r] = f [r].
Proof.
  unfold broadcast_to. cbn [shape build]. unfold broadcast_shapes.
  cbn [rev app broadcast_rev]. rewrite broadcast_dim_refl. cbn [rbind rmap rev app].
  rewrite shape_eqb_refl. intros Hv r Hr. injection Hv as <-.
  rewrite get_build by (unfold in_range; now repeat constructor).
  unfold project. cbn [rev app project_rev]. rewrite (unit_axis_index Hr).
  rewrite get_build by (unfold in_range; now repeat constructor). reflexivity.
Qed.

Lemma set_column_inv (out out1 nt : ndarray Z) (i B M : nat) :
  shape out = [B; M] -> set_column 0%Z out i nt = Ok out1 ->
  shape out1 = [B; M]
  /\ exists v : ndarray Z,
       broadcast_to 0%Z nt [B] = Ok v
       /\ forall r c, r < B -> c < M ->
            get 0%Z out1 [r; c]
              = if Nat.eqb c i then get 0%Z v [r] else get 0%Z out [r; c].
Proof.
  intros Hs Hset. unfold set_column in Hset. rewrite Hs in Hset.
  inv_bind Hset. injection Hset as <-. split; [reflexivity|].
  exists v. split; [exact E|]. intros r c Hr Hc.
  rewrite get_build by (unfold in_range; now repeat constructor). reflexivity.
Qed.

Lemma in_indices_vector (B : nat) (idx : list nat) :
  In idx (indices [B]) -> exists r, r < B /\ idx = [r].
Proof.
  cbn [indices]. intros Hin. apply in_flat_map in Hin.
  destruct Hin as (r & Hr & Hidx). apply in_seq in Hr.
  cbn in Hidx. destruct Hidx as [<-|[]]. exists r. split; [lia | reflexivity].
Qed.

Lemma all_equal_true (B : nat) (f : list nat -> Z) (t : Z) :
  all_equal (build [B] f) t = true -> forall r, r < B -> f [r] = t.
Proof.
  unfold all_equal. cbn [data build]. intros Hall r Hr.
  rewrite forallb_forall in Hall. apply Z.eqb_eq. apply Hall.
  apply in_map. rewrite <- (nth_ravel_indices (s := [B]) (idx := [r]) [])
    by (unfold in_range; now repeat constructor).
  apply nth_In. rewrite length_indices.
  apply ravel_lt. unfold in_range. now repeat constructor.
Qed.

Lemma all_equal_false (B : nat) (f : list nat -> Z) (t : Z) :
  all_equal (build [B] f) t = false -> exists r, r < B /\ f [r] <> t.
Proof.
  unfold all_equal. cbn [data build]. intros Hall.
  destruct (forallb_false_exists _ _ Hall) as (z & Hin & Hz).
  apply in_map_iff in Hin. destruct Hin as (idx & <- & Hidx).
  apply in_indices_vector in Hidx. destruct Hidx as (r & Hr & ->).
  exists r. split; [exact Hr|]. now apply Z.eqb_neq.
Qed.

Section Batch.
Context {F : Type} `{Scalar F}.
Variable decoder : ndarray Z -> result (ndarray F).
Variable categorical_sample : Z -> ndarray F -> list nat -> Z.
Variable clock : nat -> Z.
Variable self : GPT4 F.

(** A decoding step that returns has called the decoder once and its
    tokens are a tabulated array. *)
Lemma next_tokens_inv (i n : nat) (x nt : ndarray Z) (temperature : F)
    (deterministic : bool) :
  next_tokens decoder categorical_sample clock i x temperature deterministic
    = (n, Ok nt) ->
  n = 1 /\ exists (sb : list nat) (f : list nat -> Z), nt = build sb f.
Proof.
  unfold next_tokens, call_decoder. intros Hnt.
  inv_run Hnt as y Hy. injection Hy as <- _.
  inv_lift Hnt as logits Hlogits. inv_lift Hnt as probs Hprobs. subst.
  destruct deterministic; apply run_lift_inv in Hnt; destruct Hnt as [Hnt ->];
    (split; [reflexivity|]).
  - unfold argmax in Hnt. destruct (rev (shape probs)) as [|m rb]; [discriminate|].
    destruct (Nat.eqb m 0); [discriminate|]. injection Hnt as <-.
    eexists _, _. reflexivity.
  - unfold categorical in Hnt. destruct (rev (shape probs)) as [|m rb]; [discriminate|].
    destruct (Nat.eqb m 0); [discriminate|]. injection Hnt as <-.
    eexists _, _. reflexivity.
Qed.

(** What one iteration of the loop of [generate_batch] does when the
    run returns: the chosen tokens are a vector with one entry per row,
    written to column [i] of the buffer. *)
Lemma batch_step_inv (i B M : nat) (input input' out0 out1 nt column : ndarray Z)
    (rest : list nat) :
  shape out0 = [B; M] -> i < M -> shape input = B :: rest ->
  (exists (sb : list nat) (f : list nat -> Z), nt = build sb f) ->
  set_column 0%Z out0 i nt = Ok out1 ->
  expand_axis1 nt = Ok column ->
  concatenate_axis1 0%Z input column = Ok input' ->
  exists f : list nat -> Z,
    nt = build [B] f
    /\ shape out1 = [B; M]
    /\ (exists rest', shape input' = B :: rest')
    /\ forall r c, r < B -> c < M ->
         get 0%Z out1 [r; c] = if Nat.eqb c i then f [r] else get 0%Z out0 [r; c].
Proof.
  intros Hout Hi Hin (sb & f & ->) Hset Hexp Hcat.
  destruct (@set_column_inv _ _ _ _ _ _ Hout Hset) as (Hout1 & v & Hv & Hget).
  unfold expand_axis1 in Hexp. cbn [shape build] in Hexp.
  destruct sb as [|d0 sb']; [discriminate|].
  unfold reshape in Hexp. cbn [shape build data] in Hexp.
  destruct (Nat.eqb _ _); [|discriminate]. injection Hexp as <-.
  unfold concatenate_axis1 in Hcat. rewrite Hin in Hcat. cbn [shape] in Hcat.
  destruct rest as [|a1 ra]; [discriminate|].
  destruct (Nat.eqb B d0 && shape_eqb ra sb') eqn:Hchk; [|discriminate].
  apply andb_true_iff in Hchk. destruct Hchk as [Hd _].
  apply Nat.eqb_eq in Hd. subst d0. injection Hcat as <-.
  assert (Hsb : sb' = []).
  { unfold broadcast_to in Hv. inv_bind Hv.
    destruct (shape_eqb v0 [B]) eqn:Hs; [|discriminate].
    apply shape_eqb_eq in Hs. subst v0.
    apply broadcast_shapes_length in E. cbn [shape build length] in E.
    destruct sb'; [reflexivity | cbn in E; lia]. }
  subst sb'. exists f. split; [reflexivity|]. split; [exact Hout1|].
  split; [eexists; reflexivity|].
  intros r c Hr Hc. rewrite (Hget r c Hr Hc).
  destruct (Nat.eqb c i); [|reflexivity].
  now apply (@broadcast_to_vector _ _ _ Hv).
Qed.

Lemma generate_batch_loop_inv (temperature : F) (deterministic : bool)
    (B M : nat) (fuel : nat) :
  forall (i n : nat) (input out0 out : ndarray Z),
    shape out0 = [B; M] -> i + fuel <= M ->
    (exists rest, shape input = B :: rest) ->
    generate_batch_loop decoder categorical_sample clock self fuel i input out0
      temperature deterministic = (n, Ok out) ->
    shape out = [B; M] /\ n <= fuel
    /\ (forall r c, r < B -> c < i -> get 0%Z out [r; c] = get 0%Z out0 [r; c])
    /\ (forall s, s + 1 < n ->
          exists r, r < B /\ get 0%Z out [r; i + s] <> end_token self)
    /\ (n < fuel ->
        1 <= n /\ forall r, r < B -> get 0%Z out [r; i + n - 1] = end_token self).
Proof.
  induction fuel as [|fuel IH]; intros i n input out0 out Hout Hfuel [rest Hin] Hloop.
  - cbn [generate_batch_loop] in Hloop. injection Hloop as <- <-.
    repeat split; try assumption; try lia; intros; lia.
  - cbn [generate_batch_loop] in Hloop.
    inv_run Hloop as nt Hnt. apply next_tokens_inv in Hnt. destruct Hnt as [-> Hbuild].
    inv_lift Hloop as out1 Hset. inv_lift Hloop as column Hexp.
    inv_lift Hloop as input' Hcat. subst.
    assert (HiM : i < M) by lia.
    destruct (@batch_step_inv i B M input input' out0 out1 _ column rest
                Hout HiM Hin Hbuild Hset Hexp Hcat)
      as (f & -> & Hout1 & Hin' & Hget).
    destruct (all_equal (build [B] f) (end_token self)) eqn:Hall.
    + injection Hloop as <- <-.
      split; [exact Hout1|]. split; [lia|]. split.
      * intros r c Hr Hc. rewrite (Hget r c Hr ltac:(lia)).
        destruct (Nat.eqb_spec c i); [lia | reflexivity].
      * split; [intros s Hs; lia|]. intros _. split; [lia|].
        intros r Hr. replace (i + (1 + (0 + (0 + (0 + 0)))) - 1) with i by lia.
        rewrite (Hget r i Hr ltac:(lia)), Nat.eqb_refl.
        now apply (@all_equal_true _ _ _ Hall).
    + assert (Hfuel' : S i + fuel <= M) by lia.
      destruct (IH (S i) _ input' out1 out Hout1 Hfuel' Hin' Hloop)
        as (Hs & Hle & Hkeep & Hmid & Hlast).
      assert (Hcol : forall r, r < B -> get 0%Z out [r; i] = f [r]).
      { intros r Hr. rewrite (Hkeep r i Hr ltac:(lia)).
        now rewrite (Hget r i Hr ltac:(lia)), Nat.eqb_refl. }
      split; [exact Hs|]. split; [lia|]. split; [|split].
      * intros r c Hr Hc. rewrite (Hkeep r c Hr ltac:(lia)).
        rewrite (Hget r c Hr ltac:(lia)).
        destruct (Nat.eqb_spec c i); [lia | reflexivity].
      * intros [|s] Hs1.
        -- destruct (@all_equal_false _ _ _ Hall) as (r & Hr & Hne).
           exists r. split; [exact Hr|]. rewrite Nat.add_0_r.
           now rewrite (Hcol r Hr).
        -- destruct (Hmid s ltac:(lia)) as (r & Hr & Hne).
           exists r. split; [exact Hr|].
           replace (i + S s) with (S i + s) by lia. exact Hne.
      * intros Hlt. destruct (Hlast ltac:(lia)) as [Hn1 Hend].
        split; [lia|]. intros r Hr.
        specialize (Hend r Hr).
        match type of Hend with
        | get _ _ [_; ?c'] = _ =>
            match goal with
            | |- get _ _ [_; ?c] = _ => replace c with c' by lia
            end
        end.
        exact Hend.
Qed.

(** The loop of [generate_batch], step by step: the tokens of step [s] are
    the ones [next_tokens] chooses on the input grown by all the tokens of the
    earlier steps, and they are what column [s] of the result holds, in every
    row. *)
Lemma generate_batch_loop_trace (temperature : F) (deterministic : bool)
    (B M : nat) (fuel : nat) :
  forall (i n : nat) (input out0 out : ndarray Z),
    shape out0 = [B; M] -> i + fuel <= M ->
    (exists rest, shape input = B :: rest) ->
    generate_batch_loop decoder categorical_sample clock self fuel i input out0
      temperature deterministic = (n, Ok out) ->
    exists inputs tokens : nat -> ndarray Z,
      inputs 0 = input
      /\ forall s, s < n ->
           next_tokens decoder categorical_sample clock (i + s) (inputs s)
             temperature deterministic = (1, Ok (tokens s))
           /\ (exists column : ndarray Z,
                 expand_axis1 (tokens s) = Ok column
                 /\ concatenate_axis1 0%Z (inputs s) column = Ok (inputs (S s)))
           /\ forall r, r < B -> get 0%Z out [r; i + s] = get 0%Z (tokens s) [r].
Proof.
  induction fuel as [|fuel IH]; intros i n input out0 out Hout Hfuel [rest Hin] Hloop.
  - cbn [generate_batch_loop] in Hloop. injection Hloop as <- <-.
    exists (fun _ => input), (fun _ => out0). split; [reflexivity|].
    intros s Hs. lia.
  - cbn [generate_batch_loop] in Hloop.
    inv_run Hloop as nt Hnt. pose proof Hnt as Hstep.
    apply next_tokens_inv in Hnt. destruct Hnt as [-> Hbuild].
    inv_lift Hloop as out1 Hset. inv_lift Hloop as column Hexp.
    inv_lift Hloop as input' Hcat. subst.
    assert (HiM : i < M) by lia.
    destruct (@batch_step_inv i B M input input' out0 out1 _ column rest
                Hout HiM Hin Hbuild Hset Hexp Hcat)
      as (f & -> & Hout1 & Hin' & Hget).
    assert (Hnow : forall r, r < B ->
              get 0%Z out1 [r; i] = get 0%Z (build [B] f) [r]).
    { intros r Hr. rewrite (Hget r i Hr HiM), Nat.eqb_refl.
      rewrite get_build by (unfold in_range; now repeat constructor).
      reflexivity. }
    destruct (all_equal (build [B] f) (end_token self)) eqn:Hall.
    + injection Hloop as <- <-.
      exists (fun s => match s with 0 => input | S _ => input' end),
             (fun _ => build [B] f).
      split; [reflexivity|]. intros s Hs.
      assert (s = 0) by lia. subst s. rewrite Nat.add_0_r.
      split; [exact Hstep|]. split; [|exact Hnow].
      exists column. split; [exact Hexp | exact Hcat].
    + assert (Hfuel' : S i + fuel <= M) by lia.
      destruct (@generate_batch_loop_inv temperature deterministic B M fuel
                  (S i) _ input' out1 out Hout1 Hfuel' Hin' Hloop)
        as (_ & _ & Hkeep & _).
      destruct (IH (S i) _ input' out1 out Hout1 Hfuel' Hin' Hloop)
        as (inputs' & tokens' & Hin0 & Hsteps).
      exists (fun s => match s with 0 => input | S s' => inputs' s' end),
             (fun s => match s with 0 => build [B] f | S s' => tokens' s' end).
      split; [reflexivity|]. intros [|s'] Hs.
      * rewrite Nat.add_0_r. split; [exact Hstep|]. split.
        -- exists column. split; [exact Hexp|]. rewrite Hin0. exact Hcat.
        -- intros r Hr. rewrite (Hkeep r i Hr ltac:(lia)). now apply Hnow.
      * replace (i + S s') with (S i + s') by lia.
        apply Hsteps. lia.
Qed.

End Batch.

(** C3.  In every run of [generate_batch] that returns, after [n] decoding
    steps: the tokens of each step are the ones chosen from the decoder's
    output on the prompts grown by the tokens of all earlier steps, and
    column [s] of the result holds the tokens of step [s] in every row,
    whether or not that row has emitted the end token before; each step before
    the last left some row whose token at that step is not the end token,
    whatever the other rows emitted; and if the loop stopped before max_length
    steps, the last step wrote the end token in every row.  The loop has one
    step count for the whole batch: no row stops on its own. *)
Theorem generate_batch_stops_only_when_all_rows_end :
  forall (F : Type) (SF : Scalar F)
         (decoder : ndarray Z -> result (ndarray F))
         (categorical_sample : Z -> ndarray F -> list nat -> Z)
         (clock : nat -> Z) (self : GPT4 F) (x : option (ndarray Z))
         (temperature : F) (deterministic : bool) (n : nat) (out : ndarray Z),
    generate_batch decoder categorical_sample clock self x temperature
      deterministic = (n, Ok out) ->
    exists (B : nat) (inputs tokens : nat -> ndarray Z),
      shape out = [B; max_length self]
      /\ n <= max_length self
      /\ inputs 0 = match x with
                    | Some x0 => x0
                    | None => build [B; 1] (fun _ => start_token self)
                    end
      /\ (forall s, s < n ->
            next_tokens decoder categorical_sample clock s (inputs s)
              temperature deterministic = (1, Ok (tokens s))
            /\ (exists column : ndarray Z,
                  expand_axis1 (tokens s) = Ok column
                  /\ concatenate_axis1 0%Z (inputs s) column
                     = Ok (inputs (S s)))
            /\ forall r, r < B -> get 0%Z out [r; s] = get 0%Z (tokens s) [r])
      /\ (forall s, s + 1 < n ->
            exists r, r < B /\ get 0%Z out [r; s] <> end_token self)
      /\ (n < max_length self ->
          1 <= n /\ forall r, r < B -> get 0%Z out [r; n - 1] = end_token self).
Proof.
  intros F SF decoder sample clock self x temperature deterministic n out Hgen.
  unfold generate_batch in Hgen. inv_lift Hgen as B HB. subst.
  assert (Hin : exists rest,
            shape match x with
                  | Some x0 => x0
                  | None => build [B; 1] (fun _ => start_token self)
                  end = B :: rest).
  { destruct x as [x|].
    - unfold shape_at in HB. destruct (shape x) as [|d rest]; [discriminate|].
      cbn in HB. injection HB as <-. now exists rest.
    - now exists [1]. }
  assert (Hfuel : 0 + max_length self <= max_length self) by lia.
  destruct (@generate_batch_loop_inv F SF decoder sample clock self temperature
              deterministic B (max_length self) (max_length self)
              0 _ _ (build [B; max_length self] (fun _ => 0%Z)) _
              eq_refl Hfuel Hin Hgen)
    as (Hs & Hle & _ & Hmid & Hlast).
  destruct (@generate_batch_loop_trace F SF decoder sample clock self temperature
              deterministic B (max_length self) (max_length self)
              0 _ _ (build [B; max_length self] (fun _ => 0%Z)) _
              eq_refl Hfuel Hin Hgen)
    as (inputs & tokens & Hin0 & Hsteps).
  exists B, inputs, tokens. split; [exact Hs|]. split; [lia|].
  split; [exact Hin0|]. split; [|split].
  - intros s Hs0. apply (Hsteps s). lia.
  - intros s Hs1. apply (Hmid s Hs1).
  - intros Hlt. destruct (Hlast ltac:(lia)) as [Hn1 Hend]. split; [lia|].
    intros r Hr. cbn [Nat.add] in Hend |- *. now apply Hend.
Qed.

Lemma staggered_run :
  generate_batch (flat_decoder 2) sample_staggered step_clock tiny_config
    (Some start_tokens_2) 1%R false
  = (2, Ok staggered_output).
Proof. eval_real. reflexivity. Qed.

Lemma resumed_run :
  generate_batch (flat_decoder 2) sample_resumed step_clock tiny_config
    (Some start_tokens_2) 1%R false
  = (3, Ok resumed_output).
Proof. eval_real. reflexivity. Qed.

Lemma generate_batch_stops_only_when_all_rows_end_witness :
  exists inputs tokens : nat -> ndarray Z,
    next_tokens (flat_decoder 2) sample_resumed step_clock 1 (inputs 1) 1%R false
      = (1, Ok (tokens 1))
    /\ get 0%Z resumed_output [0; 0] = end_token tiny_config
    /\ get 0%Z resumed_output [0; 1] = get 0%Z (tokens 1) [0]
    /\ get 0%Z resumed_output [0; 1] = 7%Z
    /\ exists r, r < 2 /\ get 0%Z resumed_output [r; 0] <> end_token tiny_config.
Proof.
  destruct (@generate_batch_stops_only_when_all_rows_end R R_Scalar
              (flat_decoder 2) sample_resumed step_clock tiny_config
              (Some start_tokens_2) 1%R false 3 resumed_output resumed_run)
    as (B & inputs & tokens & Hs & _ & _ & Hsteps & Hmid & _).
  cbn in Hs. injection Hs as <-.
  exists inputs, tokens.
  destruct (Hsteps 1 ltac:(lia)) as (Hnt & _ & Hcol).
  split; [exact Hnt|]. split; [reflexivity|].
  split; [apply Hcol; lia|]. split; [reflexivity|].
  apply (Hmid 0). lia.
Defined.

(** ** The trainer *)

Section TrainerFacts.
Context {F : Type} `{Scalar F}.
Variables (Params TrainState Blob : Type).
Variable params : TrainState -> Params.
Variable pickle_dump : Params -> Blob.
Variable pickle_load : Blob -> result Params.
Variable train_step :
  TrainState -> ndarray Z -> ndarray Z -> result (TrainState * ndarray F).
Variable evaluation_step :
  TrainState -> ndarray Z -> ndarray Z -> result (ndarray F).
Variable fs_write :
  Machine F TrainState Blob -> string -> Blob -> write_outcome Blob.

#[local] Abbreviation machine := (Machine F TrainState Blob).
#[local] Abbreviation evaluate' := (evaluate evaluation_step).
#[local] Abbreviation save_params' := (save_params params pickle_dump fs_write).
#[local] Abbreviation load_params' := (load_params pickle_load).
#[local] Abbreviation validate' :=
  (validate params pickle_dump evaluation_step fs_write).
#[local] Abbreviation train' :=
  (train params pickle_dump train_step evaluation_step fs_write).

Lemma count_app (p : event F Blob -> bool) (es1 es2 : list (event F Blob)) :
  count p (es1 ++ es2) = count p es1 + count p es2.
Proof. unfold count. now rewrite filter_app, length_app. Qed.

Lemma evaluate_batches_pure (loader : list (ndarray Z * ndarray Z)) :
  forall (total : F) (count : nat) (m : machine),
    snd (evaluate_batches evaluation_step loader total count m) = m.
Proof.
  induction loader as [|batch rest IH]; intros total cnt m; [reflexivity|].
  cbn [evaluate_batches]. unfold pbind, get_self, plift.
  destruct (shard (num_devices (self m)) batch) as [[inputs targets]|e];
    [|reflexivity].
  destruct (evaluation_step (state (self m)) inputs targets) as [loss|e];
    [|reflexivity].
  apply IH.
Qed.

Lemma evaluate_pure (loader : list (ndarray Z * ndarray Z)) (m : machine) :
  snd (evaluate' loader m) = m.
Proof.
  unfold evaluate, pbind.
  pose proof (evaluate_batches_pure loader (of_Z 0) 0 m) as Hpure.
  destruct (evaluate_batches evaluation_step loader (of_Z 0) 0 m) as [[[t c]|e] m'];
    cbn [snd] in Hpure; subst m'; [|reflexivity].
  unfold plift. reflexivity.
Qed.

(** A validation pass that measures a loss prints it, updates the best
    loss if it improved, and hands over to [save_params]. *)
Lemma validate_eq (epoch : nat) (loader : list (ndarray Z * ndarray Z))
    (m : machine) :
  validate' epoch (Some loader) m
  = match fst (evaluate' loader m) with
    | Ok val_loss => save_params' (validated epoch val_loss m)
    | Raise e => (Raise e, m)
    end.
Proof.
  cbn [validate]. unfold pbind at 1.
  pose proof (evaluate_pure loader m) as Hpure.
  destruct (evaluate evaluation_step loader m) as [[v|e] m']; cbn [fst snd] in *; subst m';
    [|reflexivity].
  unfold pbind, emit, get_self, set_best_val_loss, pret, validated.
  cbn [self files events state best_val_loss weights_filename num_devices].
  destruct (improves v (best_val_loss (self m)));
    cbn [self files events state best_val_loss weights_filename num_devices];
    rewrite <- !app_assoc; reflexivity.
Qed.

(** What [save_params] does, by the answer of the file system. *)
Lemma save_params_eq (m : machine) :
  save_params' m
  = match fs_write m (weights_filename (self m))
            (pickle_dump (params (state (self m)))) with
    | Written =>
        (Ok tt,
         {| self := self m;
            files := <[weights_filename (self m)
                       := pickle_dump (params (state (self m)))]> (files m);
            events := events m ++ [FileWrite (weights_filename (self m))
                                     (pickle_dump (params (state (self m))))] |})
    | Refused e => (Raise e, m)
    | Torn e partial =>
        (Raise e,
         {| self := self m;
            files := <[weights_filename (self m) := partial]> (files m);
            events := events m ++ [FileTorn (weights_filename (self m)) partial] |})
    end.
Proof. reflexivity. Qed.

(** A save that returns has written the parameters of the state to the
    weights file, and changed nothing else. *)
Lemma save_params_ok (m m' : machine) :
  save_params' m = (Ok tt, m') ->
  files m' = <[weights_filename (self m)
               := pickle_dump (params (state (self m)))]> (files m)
  /\ self m' = self m
  /\ events m' = events m ++ [FileWrite (weights_filename (self m))
                                (pickle_dump (params (state (self m))))].
Proof.
  rewrite save_params_eq.
  destruct (fs_write m _ _) as [|e|e partial]; intros Heq;
    try discriminate.
  injection Heq as <-. repeat split.
Qed.

(** A save leaves the trainer as it is, whatever the file system does. *)
Lemma save_params_self (m m' : machine) (r : result unit) :
  save_params' m = (r, m') -> self m' = self m.
Proof.
  rewrite save_params_eq.
  destruct (fs_write m _ _) as [|e|e partial]; intros Heq;
    injection Heq as <- <-; reflexivity.
Qed.

(** A save adds at most one event, a write exactly when it returns. *)
Lemma save_params_events (m m' : machine) (r : result unit) :
  save_params' m = (r, m') ->
  exists new : list (event F Blob),
    events m' = events m ++ new
    /\ count is_validation new = 0
    /\ count is_write new = match r with Ok _ => 1 | Raise _ => 0 end
    /\ val_losses new = [].
Proof.
  rewrite save_params_eq.
  destruct (fs_write m _ _) as [|e|e partial]; intros Heq;
    injection Heq as <- <-; cbn [events].
  - eexists. split; [reflexivity|]. repeat split.
  - exists []. rewrite app_nil_r. repeat split.
  - eexists. split; [reflexivity|]. repeat split.
Qed.

Lemma train_batches_quiet (loader : list (ndarray Z * ndarray Z)) :
  forall (total : F) (cnt : nat) (m : machine),
    let m' := snd (train_batches train_step loader total cnt m) in
    events m' = events m /\ files m' = files m
    /\ weights_filename (self m') = weights_filename (self m).
Proof.
  induction loader as [|batch rest IH]; intros total cnt m; [now cbn|].
  cbn [train_batches]. unfold pbind, get_self, plift.
  destruct (shard (num_devices (self m)) batch) as [[inputs targets]|e];
    [|now cbn].
  destruct (train_step (state (self m)) inputs targets) as [[st loss]|e];
    [|now cbn].
  unfold set_state.
  match goal with
  | |- context [train_batches _ rest ?t ?c ?m1] =>
      destruct (IH t c m1) as (He & Hf & Hw)
  end.
  cbv zeta. rewrite He, Hf, Hw. now cbn.
Qed.

(** The events of a validation pass: one validation loss when a loss is
    measured, and one write when the pass returns. *)
Lemma validate_events (epoch : nat)
    (val_loader : option (list (ndarray Z * ndarray Z)))
    (m m' : machine) (r : result unit) :
  validate' epoch val_loader m = (r, m') ->
  exists new : list (event F Blob),
    events m' = events m ++ new
    /\ count is_write new <= count is_validation new
    /\ count is_validation new <= S (count is_write new)
    /\ (r = Ok tt ->
        count is_validation new
        = match val_loader with Some _ => 1 | None => 0 end
        /\ count is_write new = count is_validation new).
Proof.
  destruct val_loader as [loader|].
  - rewrite validate_eq.
    destruct (fst (evaluate evaluation_step loader m)) as [v|e].
    + intros Hsave.
      destruct (save_params_events _ Hsave) as (new & He & Hv & Hw & _).
      exists ([PrintValLoss (epoch + 1) v; PrintNewBest] ++ new).
      rewrite He. cbn [validated events]. rewrite <- app_assoc.
      split; [reflexivity|]. rewrite !count_app, Hv, Hw.
      change (count is_write [PrintValLoss (epoch + 1) v; @PrintNewBest F Blob])
        with 0.
      change (count is_validation [PrintValLoss (epoch + 1) v; @PrintNewBest F Blob])
        with 1.
      destruct r as [[]|e]; repeat split; try lia; discriminate.
    + intros Heq. injection Heq as <- <-. exists []. rewrite app_nil_r.
      repeat split; try (cbn; lia); discriminate.
  - cbn [validate pret]. intros Heq. injection Heq as <- <-.
    exists []. rewrite app_nil_r. repeat split; cbn; lia.
Qed.

(** The events of one iteration of the epoch loop, whether it completes
    or raises. *)
Lemma train_epoch_events (train_loader : list (ndarray Z * ndarray Z))
    (val_loader : option (list (ndarray Z * ndarray Z))) (epoch : nat)
    (m m' : machine) (r : result unit) :
  train_epoch params pickle_dump train_step evaluation_step fs_write
    train_loader val_loader epoch m = (r, m') ->
  exists new : list (event F Blob),
    events m' = events m ++ new
    /\ count is_write new <= count is_validation new
    /\ count is_validation new <= S (count is_write new)
    /\ (r = Ok tt ->
        count is_validation new
        = match val_loader with Some _ => 1 | None => 0 end
        /\ count is_write new = count is_validation new).
Proof.
  unfold train_epoch, pbind.
  destruct (train_batches_quiet train_loader (of_Z 0) 0 m) as (He & _ & _).
  destruct (train_batches train_step train_loader (of_Z 0) 0 m)
    as [[[total cnt]|e] m1]; cbn [snd] in He.
  - unfold plift. destruct (mean_of total cnt) as [mean|e].
    + unfold emit. intros Hval.
      destruct (validate_events _ _ _ Hval) as (new & Hev & Hle & Hge & Hok).
      cbn [events] in Hev.
      exists ([PrintTrainLoss (epoch + 1) mean] ++ new).
      rewrite Hev, He, <- app_assoc. split; [reflexivity|].
      rewrite !count_app.
      change (count is_write [@PrintTrainLoss F Blob (epoch + 1) mean]) with 0.
      change (count is_validation [@PrintTrainLoss F Blob (epoch + 1) mean]) with 0.
      cbn [Nat.add]. repeat split; try assumption; now apply Hok.
    + intros Heq; injection Heq as <- <-. exists []. rewrite app_nil_r.
      split; [exact He|]. repeat split; try (cbn; lia); discriminate.
  - intros Heq; injection Heq as <- <-. exists []. rewrite app_nil_r.
    split; [exact He|]. repeat split; try (cbn; lia); discriminate.
Qed.

Lemma train_from_events (train_loader : list (ndarray Z * ndarray Z))
    (val_loader : option (list (ndarray Z * ndarray Z))) (remaining : nat) :
  forall (epoch : nat) (m m' : machine) (r : result unit),
    train_from params pickle_dump train_step evaluation_step fs_write
      train_loader val_loader epoch remaining m = (r, m') ->
    exists new : list (event F Blob),
      events m' = events m ++ new
      /\ count is_write new <= count is_validation new
      /\ count is_validation new <= S (count is_write new)
      /\ (r = Ok tt ->
          count is_validation new
          = match val_loader with Some _ => remaining | None => 0 end
          /\ count is_write new = count is_validation new).
Proof.
  induction remaining as [|remaining IH]; intros epoch m m' r Hrun.
  - cbn [train_from pret] in Hrun. injection Hrun as <- <-.
    exists []. rewrite app_nil_r.
    split; [reflexivity|]. repeat split; try (cbn; lia). now destruct val_loader.
  - cbn [train_from] in Hrun. unfold pbind in Hrun.
    destruct (train_epoch params pickle_dump train_step evaluation_step fs_write
                train_loader val_loader epoch m) as [r1 m1] eqn:Hepoch.
    destruct (train_epoch_events _ _ _ _ Hepoch)
      as (new1 & He1 & Hle1 & Hge1 & Hok1).
    destruct r1 as [[]|e].
    + destruct (IH (S epoch) m1 m' r Hrun) as (new2 & He2 & Hle2 & Hge2 & Hok2).
      destruct (Hok1 eq_refl) as [Hv1 Hw1].
      exists (new1 ++ new2). rewrite He2, He1, <- app_assoc.
      split; [reflexivity|]. rewrite !count_app.
      split; [lia|]. split; [lia|]. intros Hok.
      destruct (Hok2 Hok) as [Hv2 Hw2]. split; [|lia].
      rewrite Hv1, Hv2. now destruct val_loader.
    + injection Hrun as <- <-.
      exists new1. split; [exact He1|]. repeat split; try assumption; discriminate.
Qed.

(** After an epoch that completes with a validation loader, the weights
    file holds the parameters of the trainer's state. *)
Lemma train_epoch_checkpoint (train_loader loader : list (ndarray Z * ndarray Z))
    (epoch : nat) (m m1 : machine) :
  train_epoch params pickle_dump train_step evaluation_step fs_write
    train_loader (Some loader) epoch m = (Ok tt, m1) ->
  files m1 !! weights_filename (self m1)
    = Some (pickle_dump (params (state (self m1))))
  /\ weights_filename (self m1) = weights_filename (self m).
Proof.
  unfold train_epoch, pbind.
  destruct (train_batches_quiet train_loader (of_Z 0) 0 m) as (_ & _ & Hw).
  destruct (train_batches train_step train_loader (of_Z 0) 0 m)
    as [[[total cnt]|e] m0]; cbn [snd] in Hw; [|discriminate].
  unfold plift. destruct (mean_of total cnt) as [mean|e]; [|discriminate].
  unfold emit. rewrite validate_eq. cbn [fst snd].
  destruct (fst (evaluate evaluation_step loader _)) as [v|e]; [|discriminate].
  intros Hsave. destruct (save_params_ok _ Hsave) as (Hf & Hs & _).
  rewrite Hf, Hs. unfold validated. cbn [self files state weights_filename].
  destruct (improves v (best_val_loss (self m0)));
    cbn [self files state weights_filename];
    (split; [apply lookup_insert_eq | exact Hw]).
Qed.

Lemma train_from_checkpoint (train_loader loader : list (ndarray Z * ndarray Z))
    (remaining : nat) :
  forall (epoch : nat) (m m' : machine),
    train_from params pickle_dump train_step evaluation_step fs_write
      train_loader (Some loader) epoch remaining m = (Ok tt, m') ->
    weights_filename (self m') = weights_filename (self m)
    /\ (1 <= remaining ->
        files m' !! weights_filename (self m')
          = Some (pickle_dump (params (state (self m'))))).
Proof.
  induction remaining as [|remaining IH]; intros epoch m m' Hrun.
  - cbn [train_from pret] in Hrun. injection Hrun as <-.
    split; [reflexivity | lia].
  - cbn [train_from] in Hrun. unfold pbind in Hrun.
    destruct (train_epoch params pickle_dump train_step evaluation_step fs_write
                train_loader (Some loader) epoch m)
      as [[[]|e] m1] eqn:Hepoch; [|discriminate].
    apply train_epoch_checkpoint in Hepoch. destruct Hepoch as [Hfile Hw].
    destruct (IH (S epoch) m1 m' Hrun) as [Hw' Hfile'].
    split; [congruence|]. intros _.
    destruct remaining as [|remaining']; [|apply Hfile'; lia].
    cbn [train_from pret] in Hrun. injection Hrun as <-. exact Hfile.
Qed.

(** C8.  A validation pass that measures a loss goes on to [save_params]
    whether or not the loss improves on the recorded best: the comparison
    (strictly less than the best, with no best so far counting as infinity)
    decides only whether best_val_loss is replaced, and the pass returns
    exactly when the write of the checkpoint does, the weights file then
    holding the parameters of the state.  Over a whole call of [train] there
    is one checkpoint write per validation loss printed, except that a call
    cut short by an exception may have printed one loss more than it wrote;
    with a validation loader a complete call writes once per epoch. *)
Theorem validation_always_saves :
  (forall (epoch : nat) (loader : list (ndarray Z * ndarray Z)) (m : machine)
          (val_loss : F),
     fst (evaluate' loader m) = Ok val_loss ->
     validate' epoch (Some loader) m
     = save_params' (validated epoch val_loss m))
  /\ (forall (epoch : nat) (val_loss : F) (m : machine),
        best_val_loss (self (validated epoch val_loss m))
        = (if improves val_loss (best_val_loss (self m))
           then Some val_loss else best_val_loss (self m))
        /\ state (self (validated epoch val_loss m)) = state (self m)
        /\ weights_filename (self (validated epoch val_loss m))
           = weights_filename (self m)
        /\ files (validated epoch val_loss m) = files m)
  /\ (forall val_loss best : F,
        improves val_loss (Some best) = fltb val_loss best
        /\ improves val_loss None = true)
  /\ (forall (epoch : nat) (loader : list (ndarray Z * ndarray Z)) (m : machine)
             (val_loss : F),
        fst (evaluate' loader m) = Ok val_loss ->
        (fst (validate' epoch (Some loader) m) = Ok tt
         <-> fs_write (validated epoch val_loss m) (weights_filename (self m))
               (pickle_dump (params (state (self m)))) = Written)
        /\ (fst (validate' epoch (Some loader) m) = Ok tt ->
            files (snd (validate' epoch (Some loader) m))
              !! weights_filename (self m)
            = Some (pickle_dump (params (state (self m))))))
  /\ (forall (train_loader : list (ndarray Z * ndarray Z)) (num_epochs : nat)
             (val_loader : option (list (ndarray Z * ndarray Z))) (m : machine),
        exists new : list (event F Blob),
          events (snd (train' train_loader num_epochs val_loader m))
            = events m ++ new
          /\ count is_write new <= count is_validation new
          /\ count is_validation new <= S (count is_write new)
          /\ (fst (train' train_loader num_epochs val_loader m) = Ok tt ->
              count is_write new = count is_validation new
              /\ count is_write new
                 = match val_loader with Some _ => num_epochs | None => 0 end)).
Proof.
  assert (Hvalid : forall (epoch : nat) (v : F) (m : machine),
            best_val_loss (self (validated epoch v m))
            = (if improves v (best_val_loss (self m))
               then Some v else best_val_loss (self m))
            /\ state (self (validated epoch v m)) = state (self m)
            /\ weights_filename (self (validated epoch v m))
               = weights_filename (self m)
            /\ files (validated epoch v m) = files m).
  { intros epoch v m. unfold validated. cbn [files self].
    destruct (improves v (best_val_loss (self m))); now cbn. }
  split; [|split; [exact Hvalid|split; [|split]]].
  - intros epoch loader m v Hv. now rewrite validate_eq, Hv.
  - intros v b. split; reflexivity.
  - intros epoch loader m v Hv. rewrite validate_eq, Hv.
    destruct (Hvalid epoch v m) as (_ & Hst & Hwf & _).
    rewrite save_params_eq, Hst, Hwf.
    destruct (fs_write (validated epoch v m) _ _) as [|e|e partial];
      cbn [fst snd files].
    + split; [split; reflexivity|]. intros _. apply lookup_insert_eq.
    + split; [split; discriminate | discriminate].
    + split; [split; discriminate | discriminate].
  - intros train_loader num_epochs val_loader m.
    destruct (train' train_loader num_epochs val_loader m) as [r m'] eqn:Hrun.
    destruct (train_from_events _ _ _ _ _ Hrun) as (new & He & Hle & Hge & Hok).
    exists new. cbn [fst snd]. repeat split; try assumption.
    + now apply Hok.
    + destruct (Hok H0) as [Hv Hw]. now rewrite Hw, Hv.
Qed.

End TrainerFacts.

Section Checkpoint.
Context {F : Type} `{Scalar F}.
Variables (Params TrainState Blob : Type).
Variable params : TrainState -> Params.
Variable pickle_dump : Params -> Blob.
Variable pickle_load : Blob -> result Params.
Variable train_step :
  TrainState -> ndarray Z -> ndarray Z -> result (TrainState * ndarray F).
Variable evaluation_step :
  TrainState -> ndarray Z -> ndarray Z -> result (ndarray F).
Variable fs_write :
  Machine F TrainState Blob -> string -> Blob -> write_outcome Blob.

(** The contract of the pickle module: loading what was dumped gives the
    object back. *)
Hypothesis pickle_roundtrip : forall p : Params, pickle_load (pickle_dump p) = Ok p.

(** C9.  After a [save_params] that returns, [load_params] on the
    trainer's weights file returns the parameter tree that was saved, so any
    forward pass computed from the loaded tree agrees with the one computed
    from the original tree on every input; the save has changed neither the
    trainer nor any other file.  A save that cannot open the weights file
    raises and leaves everything as it was.  The same round trip holds for
    the checkpoint that a complete call of [train] with a validation loader
    leaves behind: loading it gives the parameters of the final state. *)
Theorem save_then_load_roundtrip :
  forall (m : Machine F TrainState Blob),
    (fst (save_params params pickle_dump fs_write m) = Ok tt ->
     fst (load_params pickle_load (weights_filename (self m))
            (snd (save_params params pickle_dump fs_write m)))
     = Ok (params (state (self m)))
     /\ snd (load_params pickle_load (weights_filename (self m))
               (snd (save_params params pickle_dump fs_write m)))
        = snd (save_params params pickle_dump fs_write m)
     /\ self (snd (save_params params pickle_dump fs_write m)) = self m
     /\ (forall name : string,
           name <> weights_filename (self m) ->
           files (snd (save_params params pickle_dump fs_write m)) !! name
           = files m !! name)
     /\ forall (Out : Type) (forward : Params -> ndarray Z -> Out)
               (x : ndarray Z) (loaded : Params),
          fst (load_params pickle_load (weights_filename (self m))
                 (snd (save_params params pickle_dump fs_write m))) = Ok loaded ->
          forward loaded x = forward (params (state (self m))) x)
    /\ (forall e : exn,
          fs_write m (weights_filename (self m))
            (pickle_dump (params (state (self m)))) = Refused e ->
          save_params params pickle_dump fs_write m = (Raise e, m))
    /\ (forall (train_loader loader : list (ndarray Z * ndarray Z)) (n : nat),
          fst (train params pickle_dump train_step evaluation_step fs_write
                 train_loader (S n) (Some loader) m) = Ok tt ->
          fst (load_params pickle_load (weights_filename (self m))
                 (snd (train params pickle_dump train_step evaluation_step
                         fs_write train_loader (S n) (Some loader) m)))
          = Ok (params (state (self (snd
                  (train params pickle_dump train_step evaluation_step
                     fs_write train_loader (S n) (Some loader) m)))))).
Proof.
  intros m. split; [|split].
  - intros Hok.
    destruct (save_params params pickle_dump fs_write m) as [r m'] eqn:Hsave.
    cbn [fst snd] in *. subst r.
    apply save_params_ok in Hsave. destruct Hsave as (Hf & Hs & _).
    assert (Hload : load_params pickle_load (weights_filename (self m)) m'
                    = (Ok (params (state (self m))), m')).
    { unfold load_params. rewrite Hf, lookup_insert_eq.
      now rewrite pickle_roundtrip. }
    rewrite Hload. cbn [fst snd].
    split; [reflexivity|]. split; [reflexivity|]. split; [exact Hs|]. split.
    + intros name Hname. rewrite Hf. now apply lookup_insert_ne.
    + intros Out forward x loaded Hloaded. injection Hloaded as <-. reflexivity.
  - intros e He. rewrite save_params_eq, He. reflexivity.
  - intros train_loader loader n Hok. unfold train in *.
    destruct (train_from params pickle_dump train_step evaluation_step fs_write
                train_loader (Some loader) 0 (S n) m) as [r m'] eqn:Hrun.
    cbn [fst snd] in *. subst r.
    apply train_from_checkpoint in Hrun. destruct Hrun as [Hw Hfile].
    unfold load_params. rewrite <- Hw, Hfile by lia. cbn [fst].
    apply pickle_roundtrip.
Qed.

End Checkpoint.

(** Two epochs: the second validation loss equals the first, so it is no
    improvement, and the run completes. *)
Lemma toy_train_completes : fst (toy_train 2 toy_machine) = Ok tt.
Proof.
  unfold toy_train, toy_machine. eval_real.
  match goal with
  | |- context [Rltb ?a ?b] =>
      replace (Rltb a b) with false
        by (symmetry; unfold Rltb; destruct (Rlt_dec a b); [lra | reflexivity])
  end.
  reflexivity.
Qed.

Lemma validation_always_saves_witness :
  exists new : list (event R R),
    events (snd (toy_train 2 toy_machine)) = [] ++ new
    /\ count (@is_write R R) new = 2.
Proof.
  destruct (@validation_always_saves R R_Scalar R R R (fun st : R => st)
              (fun p : R => p) toy_train_step toy_evaluation_step always_written)
    as (_ & _ & _ & _ & Hrun).
  destruct (Hrun toy_loader 2 (Some toy_loader) toy_machine)
    as (new & Hev & _ & _ & Hok).
  exists new. split; [exact Hev|]. apply Hok. exact toy_train_completes.
Defined.

Lemma save_then_load_roundtrip_witness :
  fst (load_params (fun b : R => Ok b) "params.pkl"
         (snd (save_params (fun st : R => st) (fun p : R => p) always_written
                 toy_machine)))
  = Ok 0%R.
Proof.
  destruct (@save_then_load_roundtrip R R_Scalar R R R (fun st : R => st)
              (fun p : R => p) (fun b : R => Ok b) toy_train_step
              toy_evaluation_step always_written (fun p => eq_refl) toy_machine)
    as (Hsave & _ & _).
  exact (proj1 (Hsave eq_refl)).
Defined.

(** ** Shapes: which calls return, and with what shape *)

Unset Implicit Arguments.

Lemma broadcast_rev_refl (r : list nat) : broadcast_rev r r = Ok r.
Proof.
  induction r as [|d r IH]; [reflexivity|].
  cbn [broadcast_rev]. rewrite broadcast_dim_refl. cbn [rbind]. now rewrite IH.
Qed.

Lemma broadcast_shapes_refl (s : list nat) : broadcast_shapes s s = Ok s.
Proof.
  unfold broadcast_shapes, rmap. rewrite broadcast_rev_refl. cbn [rbind].
  now rewrite rev_involutive.
Qed.

(** Uses [returns e s] for the call at the head of a chain of binds. *)
Ltac use_returns Hr y Hy Hs :=
  destruct Hr as (y & Hy & Hs); rewrite Hy; cbn [rbind].

Section ShapeFacts.
Context {F : Type} `{Scalar F}.

Lemma broadcast2_same_shape {A B C : Type} (da : A) (db : B) (f : A -> B -> C)
    (a : ndarray A) (b : ndarray B) (s : list nat) :
  shape a = s -> shape b = s -> returns (broadcast2 da db f a b) s.
Proof.
  intros Ha Hb. unfold broadcast2. rewrite Ha, Hb, broadcast_shapes_refl.
  cbn [rbind]. eexists. split; reflexivity.
Qed.

Lemma add_arrays_returns (a b : ndarray F) (s : list nat) :
  shape a = s -> shape b = s -> returns (add_arrays a b) s.
Proof. apply broadcast2_same_shape. Qed.

Lemma mul_arrays_returns (a b : ndarray F) (s : list nat) :
  shape a = s -> shape b = s -> returns (mul_arrays a b) s.
Proof. apply broadcast2_same_shape. Qed.

Lemma shape_dropout_apply (bernoulli : string -> F -> list nat -> ndarray bool)
    (name : string) (dr : Dropout F) (x : ndarray F) (deterministic : bool) :
  shape (dropout_apply bernoulli name dr x deterministic) = shape x.
Proof.
  unfold dropout_apply.
  destruct (feqb (rate dr) (of_Z 0) || deterministic); [reflexivity|].
  destruct (feqb (rate dr) (of_Z 1)); reflexivity.
Qed.

Lemma layer_norm_returns (ln : LayerNorm F) (p : LayerNormParams F)
    (x : ndarray F) (B L n : nat) :
  shape x = [B; L; n] -> shape (ln_scale p) = [n] -> shape (ln_bias p) = [n] ->
  returns (layer_norm ln p x) [B; L; n].
Proof.
  intros Hx Hs Hb. unfold layer_norm, shape_last. rewrite Hx. cbn [rev app rbind].
  rewrite Hs, Hb, shape_eqb_refl.
  destruct (use_scale ln), (use_bias ln); cbn [negb andb];
    (eexists; split; reflexivity).
Qed.

Lemma dense_returns (features : nat) (p : DenseParams F) (x : ndarray F)
    (B L n : nat) :
  shape x = [B; L; n] -> shape (kernel p) = [n; features] ->
  shape (bias p) = [features] ->
  returns (dense features p x) [B; L; features].
Proof.
  intros Hx Hk Hb. unfold dense, shape_last. rewrite Hx. cbn [rev app rbind].
  rewrite Hk, Hb, !shape_eqb_refl. cbn [negb andb].
  eexists. split; reflexivity.
Qed.

Lemma slice_last_returns (lo hi : nat) (x : ndarray F) (B L n : nat) :
  shape x = [B; L; n] -> returns (slice_last lo hi x) [B; L; hi - lo].
Proof.
  intros Hx. unfold slice_last. rewrite Hx. cbn [rev app].
  eexists. split; reflexivity.
Qed.

Lemma array_split3_returns (x : ndarray F) (B L n : nat) :
  shape x = [B; L; 3 * n] ->
  exists q k v : ndarray F,
    array_split3 x = Ok (q, k, v)
    /\ shape q = [B; L; n] /\ shape k = [B; L; n] /\ shape v = [B; L; n].
Proof.
  intros Hx. unfold array_split3, shape_last. rewrite Hx. cbn [rev app rbind].
  replace (3 * n / 3) with n by (rewrite Nat.mul_comm, Nat.div_mul; lia).
  replace ((3 * n) mod 3) with 0 by (rewrite Nat.mul_comm, Nat.Div0.mod_mul; lia).
  cbn [Nat.ltb Nat.leb].
  destruct (slice_last_returns 0 (n + 0) x B L _ Hx) as (q & Hq & Hsq).
  destruct (slice_last_returns (n + 0) (n + 0 + n + 0) x B L _ Hx) as (k & Hk & Hsk).
  destruct (slice_last_returns (n + 0 + n + 0) (3 * n) x B L _ Hx) as (v & Hv & Hsv).
  rewrite Hq, Hk, Hv. cbn [rbind].
  exists q, k, v. split; [reflexivity|].
  rewrite Hsq, Hsk, Hsv. repeat split; do 2 f_equal; f_equal; lia.
Qed.

Lemma reshape_returns {A : Type} (a : ndarray A) (s : list nat) :
  size_of (shape a) = size_of s -> returns (reshape a s) s.
Proof.
  intros Hsz. unfold reshape. rewrite Hsz, Nat.eqb_refl.
  eexists. split; reflexivity.
Qed.

Lemma softmax_returns (x : ndarray F) (s : list nat) :
  shape x = s -> s <> [] -> returns (softmax x) s.
Proof.
  intros Hx Hs. unfold softmax. rewrite Hx.
  destruct (rev s) as [|n rb] eqn:Hrev.
  - apply (f_equal (@rev nat)) in Hrev. rewrite rev_involutive in Hrev. contradiction.
  - eexists. split; reflexivity.
Qed.

Lemma matmul_returns (a b : ndarray F) (B N m n p : nat) :
  shape a = [B; N; m; n] -> shape b = [B; N; n; p] ->
  returns (matmul a b) [B; N; m; p].
Proof.
  intros Ha Hb. unfold matmul, split_last2. rewrite Ha, Hb.
  cbn [rev app rbind]. rewrite Nat.eqb_refl. cbn [negb].
  rewrite broadcast_shapes_refl. cbn [rbind app].
  eexists. split; reflexivity.
Qed.

Lemma split_heads_returns (num_heads head : nat) (query key value : ndarray F)
    (B L : nat) :
  num_heads <> 0 ->
  shape query = [B; L; num_heads * head] ->
  shape key = [B; L; num_heads * head] ->
  shape value = [B; L; num_heads * head] ->
  exists h : Heads F,
    split_heads num_heads query key value = Ok h
    /\ input_length h = L /\ context_length h = L /\ head_dim h = head
    /\ dim_key h = num_heads * head
    /\ shape (query_heads h) = [B; num_heads; L; head]
    /\ shape (key_heads h) = [B; num_heads; L; head]
    /\ shape (value_heads h) = [B; num_heads; L; head].
Proof.
  intros Hnh Hq Hk Hv. unfold split_heads, shape_at, shape_last, floordiv.
  rewrite Hq, Hk, Hv. cbn [nth_error rev app rbind].
  replace (Nat.eqb num_heads 0) with false by (symmetry; now apply Nat.eqb_neq).
  cbn [rbind].
  replace (num_heads * head / num_heads) with head
    by (rewrite Nat.mul_comm, Nat.div_mul; [reflexivity | exact Hnh]).
  assert (Hsz : size_of [B; L; num_heads * head] = size_of [B; num_heads; L; head])
    by (cbn [size_of fold_right]; nia).
  unfold reshape. rewrite Hq, Hk, Hv, Hsz, Nat.eqb_refl. cbn [rbind].
  eexists. split; [reflexivity|]. cbn. repeat split; reflexivity.
Qed.

Lemma scaled_scores_returns (h : Heads F) (d B N L head : nat) :
  shape (query_heads h) = [B; N; L; head] ->
  shape (key_heads h) = [B; N; L; head] ->
  returns (scaled_scores h d) [B; N; L; L].
Proof.
  intros Hq Hk. unfold scaled_scores, swap_last2, split_last2.
  rewrite Hk. cbn [rev app rbind].
  assert (Hm : returns (matmul (query_heads h)
                 (build [B; N; head; L]
                    (fun idx =>
                       match skipn (length [B; N]) idx with
                       | [j; i] => get (of_Z 0) (key_heads h)
                                     (firstn (length [B; N]) idx ++ [i; j])
                       | _ => of_Z 0
                       end))) [B; N; L; L])
    by (eapply matmul_returns; [exact Hq | reflexivity]).
  destruct Hm as (qk & Hqk & Hs). rewrite Hqk. cbn [rbind].
  eexists. split; [reflexivity|]. exact Hs.
Qed.

(** Self-attention on three arrays of one shape returns, when the width is
    a multiple of the (positive) number of heads and the mask, if any, has
    the shape of the scores. *)
Lemma attention_function_returns (num_heads head : nat)
    (query key value : ndarray F) (mask : option (ndarray Z)) (B L : nat) :
  num_heads <> 0 ->
  shape query = [B; L; num_heads * head] ->
  shape key = [B; L; num_heads * head] ->
  shape value = [B; L; num_heads * head] ->
  (forall m, mask = Some m -> shape m = [B; num_heads; L; L]) ->
  exists attended weights : ndarray F,
    attention_function num_heads query key value mask = Ok (attended, weights)
    /\ shape attended = [B; L; num_heads * head]
    /\ shape weights = [B; num_heads; L; L].
Proof.
  intros Hnh Hq Hk Hv Hmask. unfold attention_function.
  destruct (split_heads_returns num_heads head query key value B L Hnh Hq Hk Hv)
    as (h & Hh & HL & _ & _ & Hd & Hqh & Hkh & Hvh).
  rewrite Hh. cbn [rbind].
  destruct (scaled_scores_returns h (dim_key h) _ _ _ _ Hqh Hkh)
    as (raw & Hraw & Hsraw).
  rewrite Hraw. cbn [rbind].
  assert (Hm : returns (apply_mask raw mask) [B; num_heads; L; L]).
  { destruct mask as [m|]; cbn [apply_mask].
    - apply broadcast2_same_shape; [exact Hsraw | now apply Hmask].
    - eexists. split; [reflexivity | exact Hsraw]. }
  destruct Hm as (masked & Hmasked & Hsm). rewrite Hmasked. cbn [rbind].
  destruct (softmax_returns masked _ Hsm ltac:(discriminate)) as (w & Hw & Hsw).
  rewrite Hw. cbn [rbind].
  destruct (matmul_returns w (value_heads h) _ _ _ _ _ Hsw Hvh)
    as (att & Hatt & Hsatt).
  rewrite Hatt. cbn [rbind]. unfold shape_at, shape_last. rewrite Hq.
  cbn [nth_error rev app rbind]. rewrite HL.
  assert (Hsz : size_of (shape att) = size_of [B; L; num_heads * head])
    by (rewrite Hsatt; cbn [size_of fold_right]; nia).
  destruct (reshape_returns att _ Hsz) as (out & Hout & Hsout).
  rewrite Hout. cbn [rbind].
  exists out, w. repeat split; assumption.
Qed.

Lemma SelfMultiHeadAttention_call_returns (num_heads head n_in : nat)
    (p : AttentionParams F) (inputs : ndarray F) (mask : option (ndarray Z))
    (B L : nat) :
  num_heads <> 0 ->
  attention_shaped p n_in (num_heads * head) ->
  shape inputs = [B; L; n_in] ->
  (forall m, mask = Some m -> shape m = [B; num_heads; L; L]) ->
  exists outputs attention : ndarray F,
    SelfMultiHeadAttention_call (mk_attention (num_heads * head) num_heads) p
      inputs mask = Ok (outputs, attention)
    /\ shape outputs = [B; L; num_heads * head]
    /\ shape attention = [B; num_heads; L; L].
Proof.
  intros Hnh [[Hpk Hpb] [Hok Hob]] Hx Hmask.
  unfold SelfMultiHeadAttention_call. cbn [att_hidden_dim att_num_heads].
  destruct (dense_returns _ (projection p) inputs B L n_in Hx Hpk Hpb)
    as (proj & Hproj & Hsproj).
  rewrite Hproj. cbn [rbind].
  destruct (array_split3_returns proj B L _ Hsproj)
    as (q & k & v & Hsplit & Hq & Hk & Hv).
  rewrite Hsplit. cbn [rbind].
  destruct (attention_function_returns num_heads head q k v mask B L
              Hnh Hq Hk Hv Hmask) as (ctx & w & Hatt & Hsctx & Hsw).
  rewrite Hatt. cbn [rbind].
  destruct (dense_returns _ (output p) ctx B L _ Hsctx Hok Hob)
    as (out & Hout & Hsout).
  rewrite Hout. cbn [rbind].
  exists out, w. repeat split; assumption.
Qed.

(** The causal mask is always built, whatever the sizes. *)
Lemma causal_mask_returns (self : GPT4Block F) (B D S : nat) :
  returns (causal_mask self B D S) [B; num_heads self; D; S].
Proof.
  unfold causal_mask.
  assert (Hr1 : reshape (arange D) [D; 1] = Ok (mk_ndarray [D; 1] (data (arange D)))).
  { unfold reshape. cbn [shape arange build size_of fold_right].
    replace (D * (1 * 1)) with (D * 1) by lia. now rewrite Nat.eqb_refl. }
  rewrite Hr1. cbn [rbind].
  unfold broadcast2. cbn [shape amap arange build].
  unfold broadcast_shapes. cbn [rev app broadcast_rev].
  rewrite broadcast_dim_1_l. cbn [rbind rmap rev app].
  unfold reshape. cbn [shape amap build size_of fold_right].
  replace (Nat.eqb (D * (S * 1)) (1 * (1 * (D * (S * 1))))) with true
    by (symmetry; apply Nat.eqb_eq; lia).
  cbn [rbind].
  unfold broadcast_to. cbn [shape]. unfold broadcast_shapes.
  cbn [rev app broadcast_rev].
  rewrite !broadcast_dim_refl, !broadcast_dim_1_l. cbn [rbind rmap rev app].
  rewrite shape_eqb_refl.
  eexists. split; reflexivity.
Qed.

(** *** The feed-forward stage *)

Lemma rmapM_dense_returns (features n_in : nat) (X : ndarray F) (B L : nat)
    (es : list (DenseParams F)) :
  shape X = [B; L; n_in] ->
  Forall (fun e => dense_shaped e n_in features) es ->
  exists outs : list (ndarray F),
    rmapM (fun e => dense features e X) es = Ok outs
    /\ length outs = length es
    /\ Forall (fun a => shape a = [B; L; features]) outs.
Proof.
  intros HX Hes. induction Hes as [|e es [Hk Hb] _ IH].
  - exists []. repeat split; constructor.
  - destruct IH as (outs & Houts & Hlen & Hall).
    destruct (dense_returns features e X B L n_in HX Hk Hb) as (y & Hy & Hsy).
    cbn [rmapM]. rewrite Hy. cbn [rbind]. rewrite Houts. cbn [rbind].
    exists (y :: outs). split; [reflexivity|]. split; [cbn; lia|].
    now constructor.
Qed.

Lemma stack_axis2_returns (arrays : list (ndarray F)) (B L n : nat) :
  arrays <> [] ->
  Forall (fun a => shape a = [B; L; n]) arrays ->
  returns (stack_axis2 arrays) [B; L; length arrays; n].
Proof.
  intros Hne Hall. unfold stack_axis2.
  destruct arrays as [|a0 rest]; [contradiction|].
  assert (Ha0 : shape a0 = [B; L; n]) by now inversion Hall.
  assert (Hchk : forallb (fun a => shape_eqb (shape a) (shape a0)) (a0 :: rest) = true).
  { apply forallb_forall. intros a Ha. rewrite List.Forall_forall in Hall.
    rewrite (Hall a Ha), Ha0. apply shape_eqb_refl. }
  rewrite Hchk, Ha0. cbn [length Nat.leb andb negb firstn skipn app].
  eexists. split; reflexivity.
Qed.

Lemma sum_axis2_returns (a : ndarray F) (B L E n : nat) :
  shape a = [B; L; E; n] -> returns (sum_axis2 a) [B; L; n].
Proof.
  intros Ha. unfold sum_axis2. rewrite Ha. cbn [nth_error firstn skipn app].
  eexists. split; reflexivity.
Qed.

Lemma mul_gating_returns (g e : ndarray F) (B L E n : nat) :
  shape g = [B; L; E; 1] -> shape e = [B; L; E; n] ->
  returns (mul_arrays g e) [B; L; E; n].
Proof.
  intros Hg He. unfold mul_arrays, broadcast2. rewrite Hg, He.
  unfold broadcast_shapes. cbn [rev app broadcast_rev].
  rewrite broadcast_dim_1_l, !broadcast_dim_refl. cbn [rbind rmap rev app].
  eexists. split; reflexivity.
Qed.

Lemma GEGLU_call_returns (output_dim : nat) (p : DenseParams F)
    (inputs : ndarray F) (B L n_in : nat) :
  shape inputs = [B; L; n_in] ->
  dense_shaped p n_in (output_dim * 2) ->
  returns (GEGLU_call output_dim p inputs) [B; L; output_dim].
Proof.
  intros Hx [Hk Hb]. unfold GEGLU_call.
  destruct (dense_returns _ p inputs B L n_in Hx Hk Hb) as (x & Hd & Hsx).
  rewrite Hd. cbn [rbind]. unfold shape_last. rewrite Hsx. cbn [rev app rbind].
  replace (Nat.min output_dim (output_dim * 2)) with output_dim by lia.
  destruct (slice_last_returns output_dim (output_dim * 2) x B L _ Hsx)
    as (g & Hg & Hsg).
  destruct (slice_last_returns 0 output_dim x B L _ Hsx) as (s & Hs & Hss).
  rewrite Hg. cbn [rbind]. rewrite Hs. cbn [rbind].
  replace (output_dim * 2 - output_dim) with output_dim in Hsg by lia.
  replace (output_dim - 0) with output_dim in Hss by lia.
  destruct (mul_arrays_returns
              (amap (fun v => fmul v (lit 5 10)) s) g [B; L; output_dim]
              Hss Hsg) as (xg & Hxg & Hsxg).
  rewrite Hxg. cbn [rbind].
  apply mul_arrays_returns; [exact Hsxg | exact Hsg].
Qed.

Lemma MixtureOfExperts_call_returns (m : MixtureOfExperts) (p : MoEParams F)
    (X : ndarray F) (B L : nat) :
  moe_num_experts m <> 0 ->
  moe_shaped p m ->
  shape X = [B; L; moe_num_outputs m] ->
  returns (MixtureOfExperts_call m p X) [B; L; moe_num_outputs m].
Proof.
  intros HE (Hlen & Hes & [Hgk Hgb] & Hact & [Hfk Hfb]) HX.
  unfold MixtureOfExperts_call. rewrite Hlen, Nat.eqb_refl. cbn [negb].
  destruct (dense_returns _ (gate p) X B L _ HX Hgk Hgb) as (g & Hg & Hsg).
  rewrite Hg. cbn [rbind].
  destruct (softmax_returns g _ Hsg ltac:(discriminate)) as (gw & Hgw & Hsgw).
  rewrite Hgw. cbn [rbind].
  destruct (rmapM_dense_returns (moe_num_hiddens m) _ X B L (experts p) HX Hes)
    as (outs & Houts & Hlo & Hall).
  rewrite Houts. cbn [rbind].
  assert (Hne : outs <> []).
  { intros ->. cbn in Hlo. lia. }
  destruct (stack_axis2_returns outs B L _ Hne Hall) as (eo & Heo & Hseo).
  rewrite Heo. cbn [rbind]. rewrite Hlo, Hlen in Hseo.
  assert (Hsz : size_of (shape gw) = size_of (shape gw ++ [1])).
  { rewrite Hsgw. cbn [app size_of fold_right]. lia. }
  destruct (reshape_returns gw _ Hsz) as (gw1 & Hgw1 & Hsgw1).
  rewrite Hgw1. cbn [rbind]. rewrite Hsgw in Hsgw1. cbn [app] in Hsgw1.
  destruct (mul_gating_returns gw1 eo B L _ _ Hsgw1 Hseo) as (w & Hw & Hsw).
  rewrite Hw. cbn [rbind].
  destruct (sum_axis2_returns w B L _ _ Hsw) as (mixed & Hmixed & Hsmixed).
  rewrite Hmixed. cbn [rbind].
  destruct (GEGLU_call_returns (moe_num_hiddens m) (activation p) mixed B L _
              Hsmixed Hact) as (act & Hactc & Hsact).
  rewrite Hactc. cbn [rbind].
  apply (dense_returns _ (dense_final p) act B L _ Hsact Hfk Hfb).
Qed.

(** *** The decoder block *)

Lemma GPT4Block_trace_returns
    (bernoulli : string -> F -> list nat -> ndarray bool)
    (self : GPT4Block F) (p : BlockParams F) (x : ndarray F)
    (mask : option (ndarray Z)) (training : bool) (B L : nat) :
  block_valid self -> block_shaped p self ->
  shape x = [B; L; hidden_dim self] ->
  exists t : BlockTrace F,
    GPT4Block_trace bernoulli self p x mask training = Ok t
    /\ shape (t_mask t) = [B; num_heads self; L; L]
    /\ shape (t_x1 t) = [B; L; hidden_dim self]
    /\ shape (t_x2 t) = [B; L; hidden_dim self]
    /\ shape (t_x3 t) = [B; L; hidden_dim self]
    /\ shape (t_attention1 t) = [B; num_heads self; L; L]
    /\ shape (t_attention2 t) = [B; num_heads self; L; L].
Proof.
  intros (Hnh & Hdiv & HE) (Ha1 & Ha2 & Hmoe & [Hn1s Hn1b] & [Hn2s Hn2b] & [Hn3s Hn3b]) Hx.
  destruct self as [hidden nh ff dr nE].
  cbn [hidden_dim num_heads feedforward_dim dropout num_experts] in *.
  assert (Hhead : hidden = nh * (hidden / nh)).
  { apply Nat.Div0.div_exact. exact Hdiv. }
  set (head := hidden / nh) in *. clearbody head. subst hidden.
  unfold GPT4Block_trace. cbv zeta. unfold shape_at. rewrite Hx.
  cbn [nth_error rbind].
  destruct (causal_mask_returns (mk_block (nh * head) nh ff dr nE) B L L)
    as (m & Hm & Hsm).
  rewrite Hm. cbn [rbind]. cbn [num_heads] in Hsm.
  cbn [GPT4Block_setup norm1 norm2 norm3 attention1 attention2 feed_forward
       dropout1 dropout2 dropout3 hidden_dim num_heads feedforward_dim dropout
       num_experts].
  destruct (layer_norm_returns (nn_LayerNorm dr) (p_norm1 p) x B L _ Hx Hn1s Hn1b)
    as (normed1 & Hnormed1 & Hsn1).
  rewrite Hnormed1. cbn [rbind].
  destruct (SelfMultiHeadAttention_call_returns nh head _ (p_attention1 p) normed1
              (Some m) B L Hnh Ha1 Hsn1)
    as (att1 & w1 & Hcall1 & Hsatt1 & Hsw1).
  { intros m' Hm'. injection Hm' as <-. exact Hsm. }
  rewrite Hcall1. cbn [rbind].
  destruct (add_arrays_returns
              (dropout_apply bernoulli "dropout1" (nn_Dropout dr) normed1
                 (negb training)) att1 [B; L; nh * head])
    as (x1 & Hx1 & Hsx1);
    [rewrite shape_dropout_apply; exact Hsn1 | exact Hsatt1 |].
  rewrite Hx1. cbn [rbind].
  destruct (layer_norm_returns (nn_LayerNorm dr) (p_norm2 p) x1 B L _ Hsx1 Hn2s Hn2b)
    as (normed2 & Hnormed2 & Hsn2).
  rewrite Hnormed2. cbn [rbind].
  destruct (SelfMultiHeadAttention_call_returns nh head _ (p_attention2 p) normed2
              (Some m) B L Hnh Ha2 Hsn2)
    as (att2 & w2 & Hcall2 & Hsatt2 & Hsw2).
  { intros m' Hm'. injection Hm' as <-. exact Hsm. }
  rewrite Hcall2. cbn [rbind].
  destruct (add_arrays_returns
              (dropout_apply bernoulli "dropout2" (nn_Dropout dr) normed2
                 (negb training)) att2 [B; L; nh * head])
    as (x2 & Hx2 & Hsx2);
    [rewrite shape_dropout_apply; exact Hsn2 | exact Hsatt2 |].
  rewrite Hx2. cbn [rbind].
  destruct (layer_norm_returns (nn_LayerNorm dr) (p_norm3 p) x2 B L _ Hsx2 Hn3s Hn3b)
    as (normed3 & Hnormed3 & Hsn3).
  rewrite Hnormed3. cbn [rbind].
  destruct (MixtureOfExperts_call_returns (mk_moe nE ff (nh * head))
              (p_feed_forward p) normed3 B L HE Hmoe Hsn3)
    as (out & Hout & Hsout).
  unfold PositionWiseFFNMoE_call.
  cbn [ffn_num_experts ffn_num_hiddens ffn_num_outputs].
  rewrite Hout. cbn [rbind]. cbn [moe_num_outputs] in Hsout.
  destruct (add_arrays_returns
              (dropout_apply bernoulli "dropout3" (nn_Dropout dr) out
                 (negb training)) att2 [B; L; nh * head])
    as (x3 & Hx3 & Hsx3);
    [rewrite shape_dropout_apply; exact Hsout | exact Hsatt2 |].
  rewrite Hx3. cbn [rbind].
  eexists. split; [reflexivity|].
  cbn [t_mask t_x1 t_x2 t_x3 t_attention1 t_attention2 num_heads hidden_dim].
  repeat split; assumption.
Qed.

(** *** The decoder stack *)

Lemma embed_returns (take_out_of_range : ndarray F -> Z -> nat -> F)
    (num_embeddings features : nat) (table : ndarray F) (inputs : ndarray Z)
    (B L : nat) :
  shape table = [num_embeddings; features] -> shape inputs = [B; L] ->
  returns (embed take_out_of_range num_embeddings features table inputs)
    [B; L; features].
Proof.
  intros Ht Hx. unfold embed. rewrite Ht, shape_eqb_refl, Hx. cbn [negb app].
  eexists. split; reflexivity.
Qed.

Lemma stack_axis0_returns (arrays : list (ndarray F)) (s : list nat) :
  arrays <> [] -> Forall (fun a => shape a = s) arrays ->
  returns (stack_axis0 (of_Z 0) arrays) (length arrays :: s).
Proof.
  intros Hne Hall. unfold stack_axis0.
  destruct arrays as [|a0 rest]; [contradiction|].
  assert (Ha0 : shape a0 = s) by now inversion Hall.
  assert (Hchk : forallb (fun a => shape_eqb (shape a) (shape a0)) (a0 :: rest) = true).
  { apply forallb_forall. intros a Ha. rewrite List.Forall_forall in Hall.
    rewrite (Hall a Ha), Ha0. apply shape_eqb_refl. }
  rewrite Hchk, Ha0. eexists. split; reflexivity.
Qed.

Lemma stack_maps_returns (maps : list (ndarray F)) (B N L : nat) :
  Forall (fun a => shape a = [B; N; L; L]) maps ->
  returns (stack_axis0 (of_Z 0) maps) (maps_shape (length maps) B N L).
Proof.
  intros Hall. destruct maps as [|a0 rest].
  - eexists. split; reflexivity.
  - apply (stack_axis0_returns (a0 :: rest) [B; N; L; L]);
      [discriminate | exact Hall].
Qed.

Lemma decoder_layers_returns
    (bernoulli : nat -> string -> F -> list nat -> ndarray bool)
    (self : GPT4Decoder F) (layers : list (BlockParams F))
    (mask : option (ndarray Z)) (training : bool) (B L : nat) (remaining : nat) :
  block_valid (decoder_block self) ->
  Forall (fun bp => block_shaped bp (decoder_block self)) layers ->
  forall (i : nat) (x : ndarray F) (maps cross : list (ndarray F)),
    i + remaining <= length layers ->
    shape x = [B; L; d_hidden_dim self] ->
    Forall (fun a => shape a = [B; d_num_heads self; L; L]) maps ->
    Forall (fun a => shape a = [B; d_num_heads self; L; L]) cross ->
    exists (y : ndarray F) (maps' cross' : list (ndarray F)),
      decoder_layers bernoulli self layers remaining i x mask training maps cross
        = Ok (y, maps', cross')
      /\ shape y = [B; L; d_hidden_dim self]
      /\ length maps' = length maps + remaining
      /\ length cross' = length cross + remaining
      /\ Forall (fun a => shape a = [B; d_num_heads self; L; L]) maps'
      /\ Forall (fun a => shape a = [B; d_num_heads self; L; L]) cross'.
Proof.
  intros Hvalid Hlayers.
  induction remaining as [|remaining IH]; intros i x maps cross Hi Hx Hmaps Hcross.
  - exists x, maps, cross. cbn [decoder_layers].
    repeat split; try assumption; lia.
  - cbn [decoder_layers].
    destruct (nth_error layers i) as [bp|] eqn:Hbp;
      [|apply nth_error_None in Hbp; lia].
    assert (Hshaped : block_shaped bp (decoder_block self)).
    { rewrite List.Forall_forall in Hlayers. apply Hlayers.
      eapply nth_error_In. exact Hbp. }
    destruct (GPT4Block_trace_returns (bernoulli i) (decoder_block self) bp x mask
                training B L Hvalid Hshaped Hx)
      as (t & Ht & _ & _ & _ & Hx3 & Hw1 & Hw2).
    unfold GPT4Block_call. rewrite Ht. cbn [rbind].
    destruct (IH (S i) (t_x3 t) (maps ++ [t_attention1 t]) (cross ++ [t_attention2 t]))
      as (y & maps' & cross' & Hrun & Hy & Hlm & Hlc & Hm' & Hc').
    + lia.
    + exact Hx3.
    + apply Forall_app. split; [exact Hmaps|]. constructor; [exact Hw1 | constructor].
    + apply Forall_app. split; [exact Hcross|]. constructor; [exact Hw2 | constructor].
    + exists y, maps', cross'. split; [exact Hrun|]. split; [exact Hy|].
      rewrite length_app in Hlm, Hlc. cbn [length] in Hlm, Hlc.
      repeat split; try assumption; lia.
Qed.

Lemma GPT4Decoder_call_returns
    (take_out_of_range : ndarray F -> Z -> nat -> F)
    (bernoulli : nat -> string -> F -> list nat -> ndarray bool)
    (self : GPT4Decoder F) (p : DecoderParams F) (x : ndarray Z)
    (mask : option (ndarray Z)) (training drop_last_layer : bool) (B L : nat) :
  decoder_valid self -> decoder_shaped p self -> shape x = [B; L] ->
  exists y attention_maps cross_attention_maps : ndarray F,
    GPT4Decoder_call take_out_of_range bernoulli self p x mask training
      drop_last_layer = Ok (y, attention_maps, cross_attention_maps)
    /\ shape y = [B; L; if drop_last_layer then d_hidden_dim self
                        else d_vocab_size self]
    /\ shape attention_maps
       = maps_shape (d_num_layers self) B (d_num_heads self) L
    /\ shape cross_attention_maps
       = maps_shape (d_num_layers self) B (d_num_heads self) L.
Proof.
  intros [Hvalid Hembed] (Htable & Hlen & Hlayers & [Hok Hob]) Hx.
  unfold GPT4Decoder_call.
  destruct (embed_returns take_out_of_range _ _ (p_embedding p) x B L Htable Hx)
    as (e & He & Hse).
  rewrite He. cbn [rbind]. rewrite Hembed in Hse.
  destruct (decoder_layers_returns bernoulli self (p_layers p) mask training B L
              (d_num_layers self) Hvalid Hlayers 0 e [] [])
    as (h & maps & cross & Hrun & Hsh & Hlm & Hlc & Hm & Hc);
    [lia | exact Hse | constructor | constructor |].
  rewrite Hrun. cbn [rbind]. cbn [length Nat.add] in Hlm, Hlc.
  destruct (stack_maps_returns maps B _ L Hm) as (am & Ham & Hsam).
  destruct (stack_maps_returns cross B _ L Hc) as (cm & Hcm & Hscm).
  rewrite Hlm in Hsam. rewrite Hlc in Hscm.
  destruct drop_last_layer; cbn [negb rbind].
  - rewrite Ham. cbn [rbind]. rewrite Hcm. cbn [rbind].
    exists h, am, cm. repeat split; assumption.
  - destruct (dense_returns _ (p_outputs p) h B L _ Hsh Hok Hob) as (y & Hy & Hsy).
    rewrite Hy. cbn [rbind]. rewrite Ham. cbn [rbind]. rewrite Hcm. cbn [rbind].
    exists y, am, cm. repeat split; assumption.
Qed.

End ShapeFacts.

(** ** Further properties of the attention engine *)

Lemma softmax_shape (x w : ndarray R) : softmax x = Ok w -> shape w = shape x.
Proof.
  unfold softmax. destruct (rev (shape x)); [discriminate|].
  intros Hw. now injection Hw as <-.
Qed.

Lemma fsum_div_R (f : nat -> R) (S : R) (l : list nat) :
  fsum (map (fun j => (f j / S)%R) l) = (fsum (map f l) / S)%R.
Proof.
  induction l as [|a l IH]; cbn [map].
  - rewrite fsum_nil_R. unfold Rdiv. now rewrite Rmult_0_l.
  - rewrite !fsum_cons_R, IH. unfold Rdiv. ring.
Qed.

Lemma removelast_snoc {A : Type} (l : list A) (a : A) : removelast (l ++ [a]) = l.
Proof. apply removelast_last. Qed.

(** The entries of a softmax along the last axis sum to 1. *)
Lemma softmax_row_sum (x w : ndarray R) (idx : list nat) :
  softmax x = Ok w -> in_range (shape x) idx ->
  fsum (map (fun j => get 0%R w (removelast idx ++ [j]))
            (seq 0 (List.last (shape x) 0))) = 1%R.
Proof.
  intros Hw Hr.
  destruct (rev (shape x)) as [|n rb] eqn:Hrev.
  { unfold softmax in Hw. rewrite Hrev in Hw. discriminate. }
  apply shape_rev_cons in Hrev.
  assert (Hlast : List.last (shape x) 0 = n) by (rewrite Hrev; apply last_last).
  rewrite Hlast.
  pose proof Hr as Hr'. rewrite Hrev in Hr'. apply in_range_app_inv in Hr'.
  destruct Hr' as (bi & j0 & -> & Hbi & Hj0).
  rewrite removelast_snoc.
  set (S := fsum (map (fun j => exp (get 0%R x (bi ++ [j]))) (seq 0 n))).
  assert (HS : (0 < S)%R).
  { apply (fsum_exp_pos (fun j => get 0%R x (bi ++ [j]))).
    destruct n; [lia | discriminate]. }
  transitivity (fsum (map (fun j => (exp (get 0%R x (bi ++ [j])) / S)%R) (seq 0 n))).
  - f_equal. apply map_ext_in. intros j Hj. apply in_seq in Hj.
    assert (Hrj : in_range (shape x) (bi ++ [j])).
    { rewrite Hrev. unfold in_range. apply Forall2_app; [exact Hbi|].
      constructor; [lia | constructor]. }
    destruct (get_softmax _ Hw Hrj) as (_ & Hg & _).
    rewrite Hg. unfold row_sum_exp. rewrite removelast_snoc, Hlast. reflexivity.
  - rewrite fsum_div_R. fold S. field. lra.
Qed.

Lemma attention_function_weights (num_heads : nat) (query key value : ndarray R)
    (mask : option (ndarray Z)) (attended weights : ndarray R) (idx : list nat) :
  attention_function num_heads query key value mask = Ok (attended, weights) ->
  in_range (shape weights) idx ->
  (0 < get 0%R weights idx)%R
  /\ fsum (map (fun j => get 0%R weights (removelast idx ++ [j]))
               (seq 0 (List.last (shape weights) 0))) = 1%R.
Proof.
  intros Hcall Hr.
  unfold attention_function in Hcall.
  inv_binds Hcall. injection Hcall as _ <-.
  match goal with
  | Hsoft : softmax _ = Ok _ |- _ =>
      pose proof (softmax_shape _ _ Hsoft) as Hs; rewrite Hs in Hr |- *;
      split; [apply (get_softmax _ Hsoft Hr) | apply (softmax_row_sum _ _ _ Hsoft Hr)]
  end.
Qed.

(** X1.  Whatever the mask, the weights that the attention engine returns
    are strictly positive and sum to 1 along the key axis: the mask is applied
    before the softmax and removes no probability mass. *)
Theorem attention_weights_are_row_stochastic :
  forall (num_heads : nat) (query key value : ndarray R)
         (mask : option (ndarray Z)) (attended weights : ndarray R)
         (idx : list nat),
    attention_function num_heads query key value mask = Ok (attended, weights) ->
    in_range (shape weights) idx ->
    (0 < get 0%R weights idx)%R
    /\ fsum (map (fun j => get 0%R weights (removelast idx ++ [j]))
                 (seq 0 (List.last (shape weights) 0))) = 1%R.
Proof.
  intros nh q k v mask attended weights idx Hcall Hr.
  exact (attention_function_weights nh q k v mask attended weights idx Hcall Hr).
Qed.

Lemma attention_weights_are_row_stochastic_witness :
  exists attended weights : ndarray R,
    attention_function 1 eye_1_2_2 eye_1_2_2 eye_1_2_2 (Some causal_1_1_2_2)
      = Ok (attended, weights)
    /\ (get 0%R weights first_weight + (get 0%R weights masked_position + 0) = 1)%R.
Proof.
  assert (Hcall : { aw : ndarray R * ndarray R |
            attention_function 1 eye_1_2_2 eye_1_2_2 eye_1_2_2 (Some causal_1_1_2_2)
              = Ok aw /\ shape (snd aw) = [1; 1; 2; 2] }).
  { eexists. split; [eval_real; reflexivity | reflexivity]. }
  destruct Hcall as [[attended weights] [Hcall Hs]]. cbn [snd] in Hs.
  exists attended, weights. split; [exact Hcall|].
  assert (Hr : in_range (shape weights) first_weight)
    by (rewrite Hs; unfold in_range; repeat constructor).
  destruct (attention_weights_are_row_stochastic 1 eye_1_2_2 eye_1_2_2 eye_1_2_2
              (Some causal_1_1_2_2) attended weights first_weight Hcall Hr)
    as [_ Hsum].
  rewrite Hs in Hsum. exact Hsum.
Defined.

(** X2.  With [num_heads = 0] the attention engine raises
    ZeroDivisionError on every input of rank at least 2: the head width
    [query.shape[-1] // num_heads] is computed before anything else that can
    fail. *)
Theorem attention_function_zero_heads :
  forall (query key value : ndarray R) (mask : option (ndarray Z))
         (B L E B' L' E' : nat),
    shape query = [B; L; E] -> shape key = [B'; L'; E'] ->
    attention_function 0 query key value mask = Raise ZeroDivisionError.
Proof.
  intros q k v mask B L E B' L' E' Hq Hk.
  unfold attention_function, split_heads, shape_at, shape_last, floordiv.
  rewrite Hq, Hk. reflexivity.
Qed.

Lemma attention_function_zero_heads_witness :
  attention_function 0 rows_1_2_4 rows_1_2_4 rows_1_2_4 None
    = Raise ZeroDivisionError.
Proof.
  apply (attention_function_zero_heads rows_1_2_4 rows_1_2_4 rows_1_2_4 None
           1 2 4 1 2 4); reflexivity.
Defined.

(** X3.  If the width of a non-empty query is not a multiple of the number
    of heads, the attention engine raises a shape error: the floor division
    loses entries and the reshape into heads is refused. *)
Theorem attention_function_indivisible_width :
  forall (num_heads : nat) (query key value : ndarray R)
         (mask : option (ndarray Z)) (B L E B' L' E' : nat),
    shape query = [B; L; E] -> shape key = [B'; L'; E'] ->
    num_heads <> 0 -> Nat.modulo E num_heads <> 0 -> B <> 0 -> L <> 0 ->
    attention_function num_heads query key value mask = Raise ShapeError.
Proof.
  intros nh q k v mask B L E B' L' E' Hq Hk Hnh Hmod HB HL.
  unfold attention_function, split_heads, shape_at, shape_last, floordiv.
  rewrite Hq, Hk. cbn [nth_error rev app rbind].
  replace (Nat.eqb nh 0) with false by (symmetry; now apply Nat.eqb_neq).
  cbn [rbind]. unfold reshape at 1. rewrite Hq.
  replace (Nat.eqb (size_of [B; L; E]) (size_of [B; nh; L; E / nh])) with false;
    [reflexivity|].
  symmetry. apply Nat.eqb_neq. cbn [size_of fold_right].
  pose proof (Nat.div_mod_eq E nh) as Hdm.
  set (qt := E / nh) in *. set (r := E mod nh) in *.
  assert (Hr : 0 < r) by lia.
  intros Heq.
  assert (Hlt : B * (nh * (L * (qt * 1))) < B * (L * (E * 1))).
  { apply Nat.mul_lt_mono_pos_l; [lia|].
    replace (nh * (L * (qt * 1))) with (L * (nh * qt)) by nia.
    apply Nat.mul_lt_mono_pos_l; lia. }
  lia.
Qed.

Lemma attention_function_indivisible_width_witness :
  attention_function 2 rows_1_2_3 rows_1_2_3 rows_1_2_3 None = Raise ShapeError.
Proof.
  apply (attention_function_indivisible_width 2 rows_1_2_3 rows_1_2_3 rows_1_2_3
           None 1 2 3 1 2 3); (reflexivity || discriminate).
Defined.

(** X4.  The split into heads is a reshape of the row-major buffer with no
    transposition: entry [d] of position [i] of head [h] is not feature
    [h * head_dim + d] of token [i], but the entry of token
    [(h * L + i) / num_heads] in the feature block [(h * L + i) mod num_heads]. *)
Theorem split_heads_reinterprets_buffer :
  forall (num_heads : nat) (query key value : ndarray R) (hs : Heads R)
         (B L head b h i d : nat),
    shape query = [B; L; num_heads * head] ->
    split_heads num_heads query key value = Ok hs ->
    h < num_heads -> i < L -> d < head ->
    get 0%R (query_heads hs) [b; h; i; d]
    = get 0%R query [b; (h * L + i) / num_heads;
                     ((h * L + i) mod num_heads) * head + d].
Proof.
  intros nh q k v hs B L head b h i d Hq Hs Hh Hi Hd.
  assert (Hnh : nh <> 0) by lia.
  unfold split_heads, shape_at, shape_last, floordiv in Hs.
  rewrite Hq in Hs. cbn [nth_error rev app rbind] in Hs.
  replace (Nat.eqb nh 0) with false in Hs by (symmetry; now apply Nat.eqb_neq).
  replace (nh * head / nh) with head in Hs
    by (rewrite Nat.mul_comm, Nat.div_mul; [reflexivity | exact Hnh]).
  cbn [rbind] in Hs. inv_binds Hs.
  injection Hs as <-. cbn [query_heads].
  match goal with
  | Hqh : reshape q _ = Ok _ |- _ =>
      unfold reshape in Hqh;
      destruct (Nat.eqb (size_of (shape q)) (size_of [B; nh; L; head]));
        [injection Hqh as <- | discriminate]
  end.
  unfold get. cbn [shape data]. rewrite Hq. f_equal.
  cbn [ravel size_of fold_right].
  pose proof (Nat.div_mod_eq (h * L + i) nh) as Hdm.
  set (p := (h * L + i) / nh) in *. set (r := (h * L + i) mod nh) in *.
  assert (Hm : (h * L + i) * head = (nh * p + r) * head) by (now rewrite <- Hdm).
  nia.
Qed.

Lemma split_heads_reinterprets_buffer_witness :
  exists hs : Heads R,
    split_heads 2 rows_1_2_4 rows_1_2_4 rows_1_2_4 = Ok hs
    /\ get 0%R (query_heads hs) head_1_pos_0 = get 0%R rows_1_2_4 pos_1_feature_0.
Proof.
  eexists. split; [reflexivity|].
  apply (split_heads_reinterprets_buffer 2 rows_1_2_4 rows_1_2_4 rows_1_2_4 _
           1 2 2 0 1 0 0); (reflexivity || lia).
Defined.

(** X5.  A self-attention layer with a positive number of heads dividing
    its width, applied to an input of shape (B, L, n) with parameters of the
    matching shapes, returns outputs of shape (B, L, hidden_dim) and one
    attention map per head, of shape (B, num_heads, L, L). *)
Theorem SelfMultiHeadAttention_call_shapes :
  forall (num_heads head n_in : nat) (p : AttentionParams R)
         (inputs : ndarray R) (mask : option (ndarray Z)) (B L : nat),
    num_heads <> 0 ->
    attention_shaped p n_in (num_heads * head) ->
    shape inputs = [B; L; n_in] ->
    (forall m, mask = Some m -> shape m = [B; num_heads; L; L]) ->
    exists outputs attention : ndarray R,
      SelfMultiHeadAttention_call (mk_attention (num_heads * head) num_heads) p
        inputs mask = Ok (outputs, attention)
      /\ shape outputs = [B; L; num_heads * head]
      /\ shape attention = [B; num_heads; L; L].
Proof.
  intros nh head n_in p inputs mask B L Hnh Hp Hx Hm.
  exact (SelfMultiHeadAttention_call_returns nh head n_in p inputs mask B L
           Hnh Hp Hx Hm).
Qed.

Lemma SelfMultiHeadAttention_call_shapes_witness :
  exists outputs attention : ndarray R,
    SelfMultiHeadAttention_call (mk_attention (1 * 1) 1) (biased_attention 1%R)
      x_seven None = Ok (outputs, attention)
    /\ shape outputs = [1; 1; 1 * 1]
    /\ shape attention = [1; 1; 1; 1].
Proof.
  apply (SelfMultiHeadAttention_call_shapes 1 1 1 (biased_attention 1%R) x_seven
           None 1 1).
  - discriminate.
  - repeat split.
  - reflexivity.
  - discriminate.
Defined.

(** ** Further properties of the decoder block and of the decoder *)

Lemma block_shaped_params_1_2 : block_shaped params_1_2 block_width_1.
Proof. repeat split; repeat constructor. Qed.

Lemma block_valid_width_1 : block_valid block_width_1.
Proof. repeat split; discriminate. Qed.

(** X6.  A block with a positive number of heads dividing its width and at
    least one expert, applied with parameters of the matching shapes to an
    input of shape (B, L, hidden_dim), returns: the output has the shape of
    the input and both attention maps have shape (B, num_heads, L, L). *)
Theorem GPT4Block_call_shapes :
  forall (F : Type) (SF : Scalar F)
         (bernoulli : string -> F -> list nat -> ndarray bool)
         (self : GPT4Block F) (p : BlockParams F) (x : ndarray F)
         (mask : option (ndarray Z)) (training : bool) (B L : nat),
    block_valid self -> block_shaped p self ->
    shape x = [B; L; hidden_dim self] ->
    exists y a1 a2 : ndarray F,
      GPT4Block_call bernoulli self p x mask training = Ok (y, a1, a2)
      /\ shape y = [B; L; hidden_dim self]
      /\ shape a1 = [B; num_heads self; L; L]
      /\ shape a2 = [B; num_heads self; L; L].
Proof.
  intros F SF bernoulli self p x mask training B L Hv Hp Hx.
  destruct (GPT4Block_trace_returns bernoulli self p x mask training B L Hv Hp Hx)
    as (t & Ht & _ & _ & _ & H3 & Ha1 & Ha2).
  unfold GPT4Block_call. rewrite Ht. cbn [rbind].
  exists (t_x3 t), (t_attention1 t), (t_attention2 t).
  repeat split; assumption.
Qed.

Lemma GPT4Block_call_shapes_witness :
  exists y a1 a2 : ndarray R,
    GPT4Block_call keep_all block_width_1 params_1_2 x_pair None true
      = Ok (y, a1, a2)
    /\ shape y = [1; 2; hidden_dim block_width_1]
    /\ shape a1 = [1; num_heads block_width_1; 2; 2]
    /\ shape a2 = [1; num_heads block_width_1; 2; 2].
Proof.
  apply (GPT4Block_call_shapes R R_Scalar keep_all block_width_1 params_1_2 x_pair
           None true 1 2).
  - exact block_valid_width_1.
  - exact block_shaped_params_1_2.
  - reflexivity.
Defined.

Lemma self_attention_weights_positive (m : SelfMultiHeadAttention)
    (p : AttentionParams R) (inputs : ndarray R) (mask : option (ndarray Z))
    (outputs attention : ndarray R) (idx : list nat) :
  SelfMultiHeadAttention_call m p inputs mask = Ok (outputs, attention) ->
  in_range (shape attention) idx ->
  (0 < get 0%R attention idx)%R.
Proof.
  intros Hcall Hr. unfold SelfMultiHeadAttention_call in Hcall.
  inv_binds Hcall. injection Hcall as _ <-.
  match goal with
  | Hatt : attention_function _ _ _ _ _ = Ok _ |- _ =>
      apply (attention_function_weights _ _ _ _ _ _ _ idx Hatt Hr)
  end.
Qed.

(** X7.  The causal mask of the block hides nothing: in both attention maps
    that a block returns, every query position [i] gives a strictly positive
    weight to every key position [j], the later positions [j > i]
    included. *)
Theorem block_attention_reaches_every_position :
  forall (bernoulli : string -> R -> list nat -> ndarray bool)
         (self : GPT4Block R) (p : BlockParams R) (x : ndarray R)
         (mask : option (ndarray Z)) (training : bool) (B L : nat),
    block_valid self -> block_shaped p self ->
    shape x = [B; L; hidden_dim self] ->
    exists y a1 a2 : ndarray R,
      GPT4Block_call bernoulli self p x mask training = Ok (y, a1, a2)
      /\ forall b h i j : nat,
           b < B -> h < num_heads self -> i < L -> j < L ->
           (0 < get 0%R a1 [b; h; i; j])%R /\ (0 < get 0%R a2 [b; h; i; j])%R.
Proof.
  intros bernoulli self p x mask training B L Hv Hp Hx.
  destruct (GPT4Block_trace_returns bernoulli self p x mask training B L Hv Hp Hx)
    as (t & Ht & _ & _ & _ & _ & Ha1 & Ha2).
  unfold GPT4Block_call. rewrite Ht. cbn [rbind].
  exists (t_x3 t), (t_attention1 t), (t_attention2 t).
  split; [reflexivity|].
  intros b h i j Hb Hh Hi Hj.
  assert (Hr : in_range [B; num_heads self; L; L] [b; h; i; j])
    by (unfold in_range; repeat constructor; assumption).
  unfold GPT4Block_trace in Ht. cbv zeta in Ht. inv_binds Ht.
  injection Ht as <-. cbn [t_attention1 t_attention2] in *.
  split.
  - match goal with
    | Hatt : SelfMultiHeadAttention_call (attention1 _) _ _ _ = Ok _ |- _ =>
        apply (self_attention_weights_positive _ _ _ _ _ _ _ Hatt)
    end.
    now rewrite Ha1.
  - match goal with
    | Hatt : SelfMultiHeadAttention_call (attention2 _) _ _ _ = Ok _ |- _ =>
        apply (self_attention_weights_positive _ _ _ _ _ _ _ Hatt)
    end.
    now rewrite Ha2.
Qed.

Lemma block_attention_reaches_every_position_witness :
  exists y a1 a2 : ndarray R,
    GPT4Block_call keep_all block_width_1 params_1_2 x_pair None false
      = Ok (y, a1, a2)
    /\ (0 < get 0%R a1 masked_position)%R
    /\ (0 < get 0%R a2 masked_position)%R.
Proof.
  destruct (block_attention_reaches_every_position keep_all block_width_1
              params_1_2 x_pair None false 1 2
              block_valid_width_1 block_shaped_params_1_2 eq_refl)
    as (y & a1 & a2 & Hcall & Hpos).
  exists y, a1, a2. split; [exact Hcall|].
  apply (Hpos 0 0 0 1); cbn; lia.
Defined.

(** X8.  In every call of the block that returns, the feed-forward network
    runs on the third normalization of the stream, and the residual addition
    that closes it adds the output of the second attention to the dropped-out
    feed-forward output; the sum is the output of the block. *)
Theorem third_residual_adds_second_attention :
  forall (F : Type) (SF : Scalar F)
         (bernoulli : string -> F -> list nat -> ndarray bool)
         (self : GPT4Block F) (p : BlockParams F) (x : ndarray F)
         (mask : option (ndarray Z)) (training : bool) (t : BlockTrace F),
    GPT4Block_trace bernoulli self p x mask training = Ok t ->
    layer_norm (norm3 (GPT4Block_setup self)) (p_norm3 p) (t_x2 t)
      = Ok (t_normed3 t)
    /\ PositionWiseFFNMoE_call (feed_forward (GPT4Block_setup self))
         (p_feed_forward p) (t_normed3 t) = Ok (t_output t)
    /\ t_dropped3 t
       = dropout_apply bernoulli "dropout3" (dropout3 (GPT4Block_setup self))
           (t_output t) (negb training)
    /\ add_arrays (t_dropped3 t) (t_attended2 t) = Ok (t_x3 t)
    /\ GPT4Block_call bernoulli self p x mask training
       = Ok (t_x3 t, t_attention1 t, t_attention2 t).
Proof.
  intros F SF bernoulli self p x mask training t Hcall.
  assert (Hres : GPT4Block_call bernoulli self p x mask training
                 = Ok (t_x3 t, t_attention1 t, t_attention2 t))
    by (unfold GPT4Block_call; now rewrite Hcall).
  unfold GPT4Block_trace in Hcall. cbv zeta in Hcall.
  inv_binds Hcall.
  injection Hcall as <-.
  cbn [t_x2 t_normed3 t_output t_dropped3 t_attended2 t_x3 t_attention1
       t_attention2] in *.
  repeat split; assumption.
Qed.

Lemma third_residual_adds_second_attention_witness :
  add_arrays (t_dropped3 trace_width_1) (t_attended2 trace_width_1)
    = Ok (t_x3 trace_width_1)
  /\ GPT4Block_call keep_all block_width_1 params_1_2 x_seven None false
     = Ok (t_x3 trace_width_1, t_attention1 trace_width_1,
           t_attention2 trace_width_1).
Proof.
  destruct (third_residual_adds_second_attention R R_Scalar keep_all block_width_1
              params_1_2 x_seven None false trace_width_1 block_width_1_trace)
    as (_ & _ & _ & Hadd & Hcall).
  split; [exact Hadd | exact Hcall].
Defined.

(** X24.  The mixture-of-experts feed-forward layer with at least one
    expert, applied to an input of shape (B, L, num_outputs) with parameters
    of the matching shapes (experts and gate reading num_outputs features,
    the gated unit and the final layer reading num_hiddens), returns an array
    of the shape of its input. *)
Theorem PositionWiseFFNMoE_call_shapes :
  forall (F : Type) (SF : Scalar F) (m : PositionWiseFFNMoE) (p : MoEParams F)
         (X : ndarray F) (B L : nat),
    ffn_num_experts m <> 0 ->
    moe_shaped p (mk_moe (ffn_num_experts m) (ffn_num_hiddens m)
                    (ffn_num_outputs m)) ->
    shape X = [B; L; ffn_num_outputs m] ->
    exists y : ndarray F,
      PositionWiseFFNMoE_call m p X = Ok y
      /\ shape y = [B; L; ffn_num_outputs m].
Proof.
  intros F SF m p X B L HE Hp HX. unfold PositionWiseFFNMoE_call.
  exact (MixtureOfExperts_call_returns
           (mk_moe (ffn_num_experts m) (ffn_num_hiddens m) (ffn_num_outputs m))
           p X B L HE Hp HX).
Qed.

Lemma PositionWiseFFNMoE_call_shapes_witness :
  exists y : ndarray R,
    PositionWiseFFNMoE_call (mk_ffn 1 1 1) zero_moe x_pair = Ok y
    /\ shape y = [1; 2; 1].
Proof.
  apply (PositionWiseFFNMoE_call_shapes R R_Scalar (mk_ffn 1 1 1) zero_moe x_pair
           1 2).
  - discriminate.
  - repeat split; repeat constructor.
  - reflexivity.
Defined.

(** *** Zero experts *)

Lemma MixtureOfExperts_call_no_experts {F : Type} `{Scalar F}
    (m : MixtureOfExperts) (p : MoEParams F) (X out : ndarray F) :
  moe_num_experts m = 0 -> MixtureOfExperts_call m p X <> Ok out.
Proof.
  intros HE Hcall. unfold MixtureOfExperts_call in Hcall. rewrite HE in Hcall.
  destruct (experts p) as [|e es] eqn:Hes; cbn [length Nat.eqb negb] in Hcall;
    [|discriminate].
  inv_bind Hcall. inv_bind Hcall. cbn [rmapM rbind stack_axis2] in Hcall.
  discriminate.
Qed.

(** X9.  A block configured with [num_experts = 0] never returns: whatever
    the parameters and the input, the call ends in an exception, at the
    latest when the empty list of expert outputs is stacked. *)
Theorem block_without_experts_never_returns :
  forall (F : Type) (SF : Scalar F)
         (bernoulli : string -> F -> list nat -> ndarray bool)
         (self : GPT4Block F) (p : BlockParams F) (x : ndarray F)
         (mask : option (ndarray Z)) (training : bool)
         (r : ndarray F * ndarray F * ndarray F),
    num_experts self = 0 ->
    GPT4Block_call bernoulli self p x mask training <> Ok r.
Proof.
  intros F SF bernoulli self p x mask training r HE Hcall.
  unfold GPT4Block_call in Hcall. inv_bind Hcall. clear Hcall.
  match goal with
  | Ht : GPT4Block_trace _ _ _ _ _ _ = Ok _ |- _ =>
      unfold GPT4Block_trace in Ht; cbv zeta in Ht; inv_binds Ht
  end.
  match goal with
  | Hffn : PositionWiseFFNMoE_call _ _ _ = Ok _ |- _ =>
      unfold PositionWiseFFNMoE_call in Hffn;
      apply MixtureOfExperts_call_no_experts in Hffn; [exact Hffn | exact HE]
  end.
Qed.

Lemma block_without_experts_never_returns_witness :
  GPT4Block_call keep_all block_no_experts params_1_2 x_seven None false
    <> Ok (x_seven, x_seven, x_seven).
Proof.
  apply (block_without_experts_never_returns R R_Scalar keep_all block_no_experts
           params_1_2 x_seven None false (x_seven, x_seven, x_seven)).
  reflexivity.
Defined.

(** *** The decoder stack *)

Lemma decoder_layers_mask_irrelevant {F : Type} `{Scalar F}
    (bernoulli : nat -> string -> F -> list nat -> ndarray bool)
    (self : GPT4Decoder F) (layers : list (BlockParams F))
    (mask mask' : option (ndarray Z)) (training : bool) (remaining : nat) :
  forall (i : nat) (x : ndarray F) (maps cross : list (ndarray F)),
    decoder_layers bernoulli self layers remaining i x mask training maps cross
    = decoder_layers bernoulli self layers remaining i x mask' training maps cross.
Proof.
  induction remaining as [|n IH]; intros i x maps cross; cbn [decoder_layers];
    [reflexivity|].
  destruct (nth_error layers i) as [bp|]; [|reflexivity].
  change (GPT4Block_call (bernoulli i) (decoder_block self) bp x mask training)
    with (GPT4Block_call (bernoulli i) (decoder_block self) bp x mask' training).
  destruct (GPT4Block_call (bernoulli i) (decoder_block self) bp x mask' training)
    as [[[y a] c]|e]; cbn [rbind]; [apply IH | reflexivity].
Qed.

(** X10.  The [mask] argument of the decoder has no effect: every block
    replaces it by its own causal mask, so two calls that differ only in the
    mask behave alike, outputs, attention maps and exceptions included. *)
Theorem decoder_ignores_mask_argument :
  forall (F : Type) (SF : Scalar F)
         (take_out_of_range : ndarray F -> Z -> nat -> F)
         (bernoulli : nat -> string -> F -> list nat -> ndarray bool)
         (self : GPT4Decoder F) (p : DecoderParams F) (x : ndarray Z)
         (mask mask' : option (ndarray Z)) (training drop_last_layer : bool),
    GPT4Decoder_call take_out_of_range bernoulli self p x mask training
      drop_last_layer
    = GPT4Decoder_call take_out_of_range bernoulli self p x mask' training
        drop_last_layer.
Proof.
  intros F SF take bernoulli self p x mask mask' training dl.
  unfold GPT4Decoder_call.
  destruct (embed take (d_vocab_size self) (d_embed_dim self) (p_embedding p) x)
    as [e|err]; cbn [rbind]; [|reflexivity].
  now rewrite (decoder_layers_mask_irrelevant bernoulli self (p_layers p) mask mask').
Qed.

(** *** Inference mode *)

Ltac same_binds :=
  repeat first
    [ rewrite !dropout_apply_deterministic
    | reflexivity
    | match goal with
      | |- rbind ?e _ = rbind ?e _ =>
          let r := fresh "r" in
          destruct e as [r|?]; cbn [rbind]; [|reflexivity]
      | |- (let '(_, _) := ?r in _) = _ => destruct r
      end ].

Lemma GPT4Block_call_inference {F : Type} `{Scalar F}
    (b1 b2 : string -> F -> list nat -> ndarray bool)
    (self : GPT4Block F) (p : BlockParams F) (x : ndarray F)
    (mask : option (ndarray Z)) :
  GPT4Block_call b1 self p x mask false = GPT4Block_call b2 self p x mask false.
Proof.
  unfold GPT4Block_call.
  assert (Ht : GPT4Block_trace b1 self p x mask false
               = GPT4Block_trace b2 self p x mask false).
  { unfold GPT4Block_trace. cbv zeta. cbn [negb]. same_binds. }
  now rewrite Ht.
Qed.

Lemma decoder_layers_inference {F : Type} `{Scalar F}
    (b1 b2 : nat -> string -> F -> list nat -> ndarray bool)
    (self : GPT4Decoder F) (layers : list (BlockParams F))
    (mask : option (ndarray Z)) (remaining : nat) :
  forall (i : nat) (x : ndarray F) (maps cross : list (ndarray F)),
    decoder_layers b1 self layers remaining i x mask false maps cross
    = decoder_layers b2 self layers remaining i x mask false maps cross.
Proof.
  induction remaining as [|n IH]; intros i x maps cross; cbn [decoder_layers];
    [reflexivity|].
  destruct (nth_error layers i) as [bp|]; [|reflexivity].
  rewrite (GPT4Block_call_inference (b1 i) (b2 i)).
  destruct (GPT4Block_call (b2 i) (decoder_block self) bp x mask false)
    as [[[y a] c]|e]; cbn [rbind]; [apply IH | reflexivity].
Qed.

(** X11.  With [training = False] the forward pass does not depend on the
    dropout masks: two calls of the model on the same input and parameters
    give the same result whatever the random source draws. *)
Theorem inference_ignores_dropout :
  forall (F : Type) (SF : Scalar F)
         (take_out_of_range : ndarray F -> Z -> nat -> F)
         (b1 b2 : nat -> string -> F -> list nat -> ndarray bool)
         (self : GPT4 F) (p : DecoderParams F) (x : ndarray Z)
         (drop_last_layer : bool),
    GPT4_call take_out_of_range b1 self p x false drop_last_layer
    = GPT4_call take_out_of_range b2 self p x false drop_last_layer.
Proof.
  intros F SF take b1 b2 self p x dl.
  unfold GPT4_call, GPT4Decoder_call.
  destruct (embed take _ _ (p_embedding p) x) as [e|err]; cbn [rbind];
    [|reflexivity].
  now rewrite (decoder_layers_inference b1 b2).
Qed.

(** *** Shapes of the forward pass *)

Lemma decoder_valid_width_1 : decoder_valid (GPT4_decoder gpt4_width_1).
Proof. split; [repeat split; discriminate | reflexivity]. Qed.

Lemma decoder_shaped_params_1 :
  decoder_shaped decoder_params_1 (GPT4_decoder gpt4_width_1).
Proof.
  split; [reflexivity|]. split; [reflexivity|]. split.
  - constructor; [exact block_shaped_params_1_2 | constructor].
  - split; reflexivity.
Qed.

(** X12.  For a model whose embedding width equals its hidden width, with
    a positive number of heads dividing that width, at least one expert and
    parameters of the shapes that initialization creates, the forward pass on
    a batch of token ids of shape (B, L) returns: logits of shape
    (B, L, vocab_size), or hidden states of shape (B, L, hidden_dim) when
    [drop_last_layer] is set. *)
Theorem GPT4_call_shapes :
  forall (F : Type) (SF : Scalar F)
         (take_out_of_range : ndarray F -> Z -> nat -> F)
         (bernoulli : nat -> string -> F -> list nat -> ndarray bool)
         (self : GPT4 F) (p : DecoderParams F) (x : ndarray Z)
         (training drop_last_layer : bool) (B L : nat),
    decoder_valid (GPT4_decoder self) ->
    decoder_shaped p (GPT4_decoder self) ->
    shape x = [B; L] ->
    exists y : ndarray F,
      GPT4_call take_out_of_range bernoulli self p x training drop_last_layer
        = Ok y
      /\ shape y = [B; L; if drop_last_layer then g_hidden_dim self
                          else g_vocab_size self].
Proof.
  intros F SF take bernoulli self p x training dl B L Hv Hp Hx.
  destruct (GPT4Decoder_call_returns take bernoulli (GPT4_decoder self) p x None
              training dl B L Hv Hp Hx) as (y & am & cm & Hcall & Hy & _ & _).
  unfold GPT4_call. rewrite Hcall. cbn [rbind fst].
  exists y. split; [reflexivity | exact Hy].
Qed.

Lemma GPT4_call_shapes_witness :
  exists y : ndarray R,
    GPT4_call take_zero drop_all_layers gpt4_width_1 decoder_params_1
      prefix_123_456 true false = Ok y
    /\ shape y = [1; 2; 3].
Proof.
  apply (GPT4_call_shapes R R_Scalar take_zero drop_all_layers gpt4_width_1
           decoder_params_1 prefix_123_456 true false 1 2).
  - exact decoder_valid_width_1.
  - exact decoder_shaped_params_1.
  - reflexivity.
Defined.

(** X13.  Under the same conditions the decoder returns its two stacks of
    attention maps with shape (num_layers, B, num_heads, L, L), as its
    docstring says, when there is at least one layer; without layers both
    are the empty array of shape (0,). *)
Theorem GPT4Decoder_call_attention_maps :
  forall (F : Type) (SF : Scalar F)
         (take_out_of_range : ndarray F -> Z -> nat -> F)
         (bernoulli : nat -> string -> F -> list nat -> ndarray bool)
         (self : GPT4Decoder F) (p : DecoderParams F) (x : ndarray Z)
         (mask : option (ndarray Z)) (training drop_last_layer : bool)
         (B L : nat),
    decoder_valid self -> decoder_shaped p self -> shape x = [B; L] ->
    exists y attention_maps cross_attention_maps : ndarray F,
      GPT4Decoder_call take_out_of_range bernoulli self p x mask training
        drop_last_layer = Ok (y, attention_maps, cross_attention_maps)
      /\ shape attention_maps = shape cross_attention_maps
      /\ (d_num_layers self = 0 -> shape attention_maps = [0])
      /\ (d_num_layers self <> 0 ->
          shape attention_maps
          = [d_num_layers self; B; d_num_heads self; L; L]).
Proof.
  intros F SF take bernoulli self p x mask training dl B L Hv Hp Hx.
  destruct (GPT4Decoder_call_returns take bernoulli self p x mask training dl B L
              Hv Hp Hx) as (y & am & cm & Hcall & _ & Ham & Hcm).
  exists y, am, cm. split; [exact Hcall|].
  split; [now rewrite Ham, Hcm|].
  rewrite Ham. unfold maps_shape.
  destruct (d_num_layers self); split; (reflexivity || congruence || discriminate).
Qed.

Lemma GPT4Decoder_call_attention_maps_witness :
  exists y attention_maps cross_attention_maps : ndarray R,
    GPT4Decoder_call take_zero keep_all_layers (GPT4_decoder gpt4_width_1)
      decoder_params_1 tokens_0_1 None false false
      = Ok (y, attention_maps, cross_attention_maps)
    /\ shape attention_maps = [1; 1; 1; 2; 2].
Proof.
  destruct (GPT4Decoder_call_attention_maps R R_Scalar take_zero keep_all_layers
              (GPT4_decoder gpt4_width_1) decoder_params_1 tokens_0_1 None
              false false 1 2 decoder_valid_width_1 decoder_shaped_params_1
              eq_refl)
    as (y & am & cm & Hcall & _ & _ & Hs).
  exists y, am, cm. split; [exact Hcall|].
  apply Hs. discriminate.
Defined.

(** ** Further properties of generation *)

Lemma run_bind_returns {A B : Type} (c : run A) (k : A -> run B)
    (n1 n2 : nat) (a : A) (b : B) :
  c = (n1, Ok a) -> k a = (n2, Ok b) -> run_bind c k = (n1 + n2, Ok b).
Proof. intros -> Hk. unfold run_bind. now rewrite Hk. Qed.

Lemma broadcast_to_vector_ok (B : nat) (f : list nat -> Z) :
  exists v : ndarray Z, broadcast_to 0%Z (build [B] f) [B] = Ok v.
Proof.
  unfold broadcast_to. cbn [shape build]. unfold broadcast_shapes.
  cbn [rev app broadcast_rev]. rewrite broadcast_dim_refl. cbn [rbind rmap rev app].
  rewrite shape_eqb_refl. eexists. reflexivity.
Qed.

Section BatchTotal.
Context {F : Type} `{Scalar F}.
Variable decoder : ndarray Z -> result (ndarray F).
Variable categorical_sample : Z -> ndarray F -> list nat -> Z.
Variable clock : nat -> Z.
Variable self : GPT4 F.
Variable V : nat.
Hypothesis V_pos : 0 < V.
Hypothesis decoder_ok : decoder_total_batch decoder V.

Lemma next_tokens_batch (i B L : nat) (x : ndarray Z) (temperature : F)
    (deterministic : bool) :
  shape x = [B; L] -> 1 <= L ->
  exists f : list nat -> Z,
    next_tokens decoder categorical_sample clock i x temperature deterministic
    = (1, Ok (build [B] f)).
Proof.
  intros Hx HL. destruct (decoder_ok x B L Hx) as (y & Hy & Hsy).
  assert (HV : Nat.eqb V 0 = false) by (apply Nat.eqb_neq; lia).
  assert (HL0 : Nat.eqb L 0 = false) by (apply Nat.eqb_neq; lia).
  unfold next_tokens, call_decoder. rewrite Hy.
  rewrite run_bind_ok. cbv beta.
  unfold take_last_axis1. rewrite Hsy, HL0.
  rewrite !run_bind_lift_ok.
  unfold softmax. cbn [shape amap build rev app].
  rewrite !run_bind_lift_ok.
  destruct deterministic.
  - unfold argmax. cbn [shape build rev app]. rewrite HV.
    unfold run_lift, steps, outcome. cbn [fst snd]. eexists. reflexivity.
  - unfold categorical. cbn [shape build rev app]. rewrite HV.
    unfold run_lift, steps, outcome. cbn [fst snd]. eexists. reflexivity.
Qed.

Lemma generate_batch_loop_returns (temperature : F) (deterministic : bool)
    (B M : nat) (fuel : nat) :
  forall (i L : nat) (input out0 : ndarray Z),
    shape out0 = [B; M] -> shape input = [B; L] -> 1 <= L ->
    exists (n : nat) (out : ndarray Z),
      generate_batch_loop decoder categorical_sample clock self fuel i input out0
        temperature deterministic = (n, Ok out).
Proof.
  induction fuel as [|fuel IH]; intros i L input out0 Hout Hin HL.
  - exists 0, out0. reflexivity.
  - cbn [generate_batch_loop].
    destruct (next_tokens_batch i B L input temperature deterministic Hin HL)
      as (f & Hnt).
    assert (Hset : exists out1, set_column 0%Z out0 i (build [B] f) = Ok out1
                                /\ shape out1 = [B; M]).
    { unfold set_column. rewrite Hout.
      destruct (broadcast_to_vector_ok B f) as (v & Hv). rewrite Hv. cbn [rbind].
      eexists. split; reflexivity. }
    destruct Hset as (out1 & Hset & Hout1).
    assert (Hexp : expand_axis1 (build [B] f)
                   = Ok (mk_ndarray [B; 1] (data (build [B] f)))).
    { unfold expand_axis1, reshape. cbn [shape build].
      replace (Nat.eqb (size_of [B]) (size_of [B; 1])) with true; [reflexivity|].
      symmetry. apply Nat.eqb_eq. cbn [size_of fold_right]. lia. }
    assert (Hcat : exists input',
               concatenate_axis1 0%Z input
                 (mk_ndarray [B; 1] (data (build [B] f))) = Ok input'
               /\ shape input' = [B; L + 1]).
    { unfold concatenate_axis1. rewrite Hin. cbn [shape shape_eqb].
      rewrite Nat.eqb_refl. cbn [andb]. eexists. split; reflexivity. }
    destruct Hcat as (input' & Hcat & Hin').
    destruct (all_equal (build [B] f) (end_token self)) eqn:Hall.
    + exists (1 + 0), out1.
      eapply run_bind_returns; [exact Hnt|]. cbv beta.
      rewrite Hset, run_bind_lift_ok, Hexp, run_bind_lift_ok, Hcat,
        run_bind_lift_ok, Hall.
      reflexivity.
    + destruct (IH (S i) (L + 1) input' out1 Hout1 Hin' ltac:(lia))
        as (n & out & Hloop).
      exists (1 + n), out.
      eapply run_bind_returns; [exact Hnt|]. cbv beta.
      rewrite Hset, run_bind_lift_ok, Hexp, run_bind_lift_ok, Hcat,
        run_bind_lift_ok, Hall.
      exact Hloop.
Qed.

End BatchTotal.

Section BatchFacts.
Context {F : Type} `{Scalar F}.
Variable decoder : ndarray Z -> result (ndarray F).
Variable categorical_sample : Z -> ndarray F -> list nat -> Z.
Variable clock : nat -> Z.
Variable self : GPT4 F.

(** The loop of [generate_batch] leaves the columns past its last step as
    they were. *)
Lemma generate_batch_loop_tail (temperature : F) (deterministic : bool)
    (B M : nat) (fuel : nat) :
  forall (i n : nat) (input out0 out : ndarray Z),
    shape out0 = [B; M] -> i + fuel <= M ->
    (exists rest, shape input = B :: rest) ->
    generate_batch_loop decoder categorical_sample clock self fuel i input out0
      temperature deterministic = (n, Ok out) ->
    forall r c, r < B -> i + n <= c -> c < M ->
      get 0%Z out [r; c] = get 0%Z out0 [r; c].
Proof.
  induction fuel as [|fuel IH]; intros i n input out0 out Hout Hfuel [rest Hin] Hloop.
  - cbn [generate_batch_loop] in Hloop. injection Hloop as <- <-. reflexivity.
  - cbn [generate_batch_loop] in Hloop.
    inv_run Hloop as nt Hnt. apply next_tokens_inv in Hnt. destruct Hnt as [-> Hbuild].
    inv_lift Hloop as out1 Hset. inv_lift Hloop as column Hexp.
    inv_lift Hloop as input' Hcat. subst.
    assert (HiM : i < M) by lia.
    destruct (@batch_step_inv i B M input input' out0 out1 _ column rest
                Hout HiM Hin Hbuild Hset Hexp Hcat)
      as (f & -> & Hout1 & Hin' & Hget).
    intros r c Hr Hc HcM.
    destruct (all_equal (build [B] f) (end_token self)) eqn:Hall.
    + injection Hloop as <- <-. rewrite (Hget r c Hr HcM).
      destruct (Nat.eqb_spec c i); [lia | reflexivity].
    + assert (Hfuel' : S i + fuel <= M) by lia.
      rewrite (IH (S i) _ input' out1 out Hout1 Hfuel' Hin' Hloop r c Hr
                 ltac:(lia) HcM).
      rewrite (Hget r c Hr HcM).
      destruct (Nat.eqb_spec c i); [lia | reflexivity].
Qed.

Lemma run_bind_ext {A B : Type} (c : run A) (k1 k2 : A -> run B) :
  (forall a, k1 a = k2 a) -> run_bind c k1 = run_bind c k2.
Proof.
  intros Hk. destruct c as [n [a|e]]; cbn [run_bind]; [|reflexivity].
  now rewrite Hk.
Qed.

Variable categorical_sample' : Z -> ndarray F -> list nat -> Z.
Variable clock' : nat -> Z.

Lemma generate_loop_greedy (temperature : F) (fuel : nat) :
  forall (i : nat) (x : ndarray Z) (out : list Z),
    generate_loop decoder categorical_sample clock self fuel i x out
      temperature true
    = generate_loop decoder categorical_sample' clock' self fuel i x out
        temperature true.
Proof.
  induction fuel as [|fuel IH]; intros i x out; cbn [generate_loop];
    [reflexivity|].
  change (next_tokens decoder categorical_sample clock i x temperature true)
    with (next_tokens decoder categorical_sample' clock' i x temperature true).
  apply run_bind_ext. intros nt.
  apply run_bind_ext. intros nt0.
  apply run_bind_ext. intros tok.
  apply run_bind_ext. intros x'.
  destruct (Z.eqb tok (end_token self)); [reflexivity | apply IH].
Qed.

Lemma generate_batch_loop_greedy (temperature : F) (fuel : nat) :
  forall (i : nat) (x out : ndarray Z),
    generate_batch_loop decoder categorical_sample clock self fuel i x out
      temperature true
    = generate_batch_loop decoder categorical_sample' clock' self fuel i x out
        temperature true.
Proof.
  induction fuel as [|fuel IH]; intros i x out; cbn [generate_batch_loop];
    [reflexivity|].
  change (next_tokens decoder categorical_sample clock i x temperature true)
    with (next_tokens decoder categorical_sample' clock' i x temperature true).
  apply run_bind_ext. intros nt.
  apply run_bind_ext. intros out1.
  apply run_bind_ext. intros column.
  apply run_bind_ext. intros x'.
  destruct (all_equal nt (end_token self)); [reflexivity | apply IH].
Qed.

End BatchFacts.

Lemma GPT4_decode_total_batch {F : Type} `{Scalar F}
    (take_out_of_range : ndarray F -> Z -> nat -> F)
    (bernoulli : nat -> string -> F -> list nat -> ndarray bool)
    (self : GPT4 F) (p : DecoderParams F) :
  decoder_valid (GPT4_decoder self) ->
  decoder_shaped p (GPT4_decoder self) ->
  decoder_total_batch (GPT4_decode take_out_of_range bernoulli self p)
    (g_vocab_size self).
Proof.
  intros Hv Hp x B L Hx.
  destruct (GPT4Decoder_call_returns take_out_of_range bernoulli
              (GPT4_decoder self) p x None false false B L Hv Hp Hx)
    as (y & am & cm & Hcall & Hy & _).
  unfold GPT4_decode. rewrite Hcall. exists y. split; [reflexivity | exact Hy].
Qed.

Lemma decoder_total_of_batch {F : Type}
    (decoder : ndarray Z -> result (ndarray F)) (V : nat) :
  decoder_total_batch decoder V -> decoder_total decoder V.
Proof. intros Hd x L Hx. exact (Hd x 1 L Hx). Qed.

Lemma generate_None {F : Type} `{Scalar F}
    (decoder : ndarray Z -> result (ndarray F))
    (categorical_sample : Z -> ndarray F -> list nat -> Z) (clock : nat -> Z)
    (self : GPT4 F) (temperature : F) (deterministic : bool) :
  generate decoder categorical_sample clock self None temperature deterministic
  = generate_loop decoder categorical_sample clock self (max_length self) 0
      (mk_ndarray [1; 1] [start_token self]) [] temperature deterministic.
Proof.
  unfold generate, run_lift, run_bind.
  now destruct (generate_loop _ _ _ _ _ _ _ _ _ _).
Qed.

(** X14.  On a model that is well configured (embedding width equal to the
    hidden width, a positive number of heads dividing it, at least one
    expert, a non-empty vocabulary) with parameters of the shapes that
    initialization creates, [generate] returns for every prompt of shape
    (1, L) with L >= 1 and without prompt, whatever the temperature and the
    sampling mode: one token per decoder call, at most max_length tokens, the
    end token nowhere but last, and last whenever fewer than max_length
    tokens come back. *)
Theorem generate_returns_on_the_model :
  forall (F : Type) (SF : Scalar F)
         (take_out_of_range : ndarray F -> Z -> nat -> F)
         (bernoulli : nat -> string -> F -> list nat -> ndarray bool)
         (categorical_sample : Z -> ndarray F -> list nat -> Z)
         (clock : nat -> Z) (self : GPT4 F) (p : DecoderParams F)
         (x : option (ndarray Z)) (temperature : F) (deterministic : bool),
    decoder_valid (GPT4_decoder self) ->
    decoder_shaped p (GPT4_decoder self) ->
    0 < g_vocab_size self ->
    (forall x0, x = Some x0 -> exists L, shape x0 = [1; L] /\ 1 <= L) ->
    exists (n : nat) (out : list Z),
      generate (GPT4_decode take_out_of_range bernoulli self p)
        categorical_sample clock self x temperature deterministic = (n, Ok out)
      /\ length out = n /\ n <= max_length self
      /\ (forall j, j + 1 < n -> nth j out 0%Z <> end_token self)
      /\ (n < max_length self ->
          1 <= n /\ nth (n - 1) out 0%Z = end_token self).
Proof.
  intros F SF take bernoulli sample clock self p x temperature deterministic
    Hv Hp HV Hx.
  pose proof (decoder_total_of_batch _ _
                (GPT4_decode_total_batch take bernoulli self p Hv Hp)) as Hdec.
  assert (Hloop : exists (x0 : ndarray Z) (L : nat),
            shape x0 = [1; L] /\ 1 <= L
            /\ generate (GPT4_decode take bernoulli self p) sample clock self x
                 temperature deterministic
               = generate_loop (GPT4_decode take bernoulli self p) sample clock
                   self (max_length self) 0 x0 [] temperature deterministic).
  { destruct x as [x0|].
    - destruct (Hx x0 eq_refl) as (L & Hs & HL). exists x0, L.
      split; [exact Hs|]. split; [exact HL|].
      apply generate_batch_1. unfold shape_at. now rewrite Hs.
    - exists (mk_ndarray [1; 1] [start_token self]), 1.
      split; [reflexivity|]. split; [lia|]. apply generate_None. }
  destruct Hloop as (x0 & L & Hs & HL & ->).
  destruct (@generate_loop_returns F SF (GPT4_decode take bernoulli self p)
              sample clock self (g_vocab_size self) HV Hdec (max_length self)
              0 L x0 [] temperature deterministic Hs HL)
    as (n & toks & Hrun & Hlen & Hle & Hmid & Hlast).
  exists n, toks. repeat split; try assumption; now apply Hlast.
Qed.

Lemma generate_returns_on_the_model_witness :
  exists (n : nat) (out : list Z),
    generate (GPT4_decode take_zero keep_all_layers gpt4_width_1 decoder_params_1)
      sample_zero clock_zero gpt4_width_1 (Some tokens_0_1) 1%R false
      = (n, Ok out)
    /\ length out = n /\ n <= 3.
Proof.
  destruct (generate_returns_on_the_model R R_Scalar take_zero keep_all_layers
              sample_zero clock_zero gpt4_width_1 decoder_params_1
              (Some tokens_0_1) 1%R false
              decoder_valid_width_1 decoder_shaped_params_1)
    as (n & out & Hrun & Hlen & Hle & _).
  - cbn. lia.
  - intros x0 Hx0. injection Hx0 as <-. exists 2. split; [reflexivity | lia].
  - exists n, out. repeat split; assumption.
Defined.

(** X15.  A prompt without tokens is not accepted: on a well configured
    model with max_length > 0, [generate] on a prompt of shape (1, 0) and
    [generate_batch] on a prompt of shape (B, 0) run the decoder once and
    raise IndexError when they read the logits of the last position. *)
Theorem generation_rejects_empty_prompt :
  forall (F : Type) (SF : Scalar F)
         (take_out_of_range : ndarray F -> Z -> nat -> F)
         (bernoulli : nat -> string -> F -> list nat -> ndarray bool)
         (categorical_sample : Z -> ndarray F -> list nat -> Z)
         (clock : nat -> Z) (self : GPT4 F) (p : DecoderParams F)
         (temperature : F) (deterministic : bool),
    decoder_valid (GPT4_decoder self) ->
    decoder_shaped p (GPT4_decoder self) ->
    0 < max_length self ->
    (forall x : ndarray Z,
       shape x = [1; 0] ->
       generate (GPT4_decode take_out_of_range bernoulli self p)
         categorical_sample clock self (Some x) temperature deterministic
       = (1, Raise IndexError))
    /\ (forall (x : ndarray Z) (B : nat),
          shape x = [B; 0] ->
          generate_batch (GPT4_decode take_out_of_range bernoulli self p)
            categorical_sample clock self (Some x) temperature deterministic
          = (1, Raise IndexError)).
Proof.
  intros F SF take bernoulli sample clock self p temperature deterministic
    Hv Hp Hmax.
  pose proof (GPT4_decode_total_batch take bernoulli self p Hv Hp) as Hdec.
  assert (Hstep : forall (x : ndarray Z) (B i : nat),
            shape x = [B; 0] ->
            next_tokens (GPT4_decode take bernoulli self p) sample clock i x
              temperature deterministic = (1, Raise IndexError)).
  { intros x B i Hx. destruct (Hdec x B 0 Hx) as (y & Hy & Hsy).
    unfold next_tokens, call_decoder. rewrite Hy, run_bind_ok. cbv beta.
    unfold take_last_axis1. rewrite Hsy. reflexivity. }
  destruct (max_length self) as [|m] eqn:Hm; [lia|].
  split.
  - intros x Hx.
    rewrite (generate_batch_1 (GPT4_decode take bernoulli self p) sample clock
               self x temperature deterministic)
      by (unfold shape_at; now rewrite Hx).
    rewrite Hm. cbn [generate_loop]. now rewrite (Hstep x 1 0 Hx).
  - intros x B Hx. unfold generate_batch, shape_at. rewrite Hx.
    cbn [nth_error]. rewrite run_bind_lift_ok, Hm.
    cbn [generate_batch_loop]. now rewrite (Hstep x B 0 Hx).
Qed.

Lemma generation_rejects_empty_prompt_witness :
  generate (GPT4_decode take_zero keep_all_layers gpt4_width_1 decoder_params_1)
    sample_zero clock_zero gpt4_width_1 (Some empty_prefix) 1%R true
  = (1, Raise IndexError).
Proof.
  destruct (generation_rejects_empty_prompt R R_Scalar take_zero keep_all_layers
              sample_zero clock_zero gpt4_width_1 decoder_params_1 1%R true
              decoder_valid_width_1 decoder_shaped_params_1) as [Hone _].
  - cbn. lia.
  - apply Hone. reflexivity.
Defined.

(** X16.  On a well configured model, [generate_batch] returns for every
    batch of prompts of shape (B, L) with L >= 1, and without prompt: the
    result is a buffer of shape (B, max_length), one row per prompt (one row
    without prompt), filled by at most max_length decoder calls. *)
Theorem generate_batch_returns_on_the_model :
  forall (F : Type) (SF : Scalar F)
         (take_out_of_range : ndarray F -> Z -> nat -> F)
         (bernoulli : nat -> string -> F -> list nat -> ndarray bool)
         (categorical_sample : Z -> ndarray F -> list nat -> Z)
         (clock : nat -> Z) (self : GPT4 F) (p : DecoderParams F)
         (temperature : F) (deterministic : bool),
    decoder_valid (GPT4_decoder self) ->
    decoder_shaped p (GPT4_decoder self) ->
    0 < g_vocab_size self ->
    (forall (x : ndarray Z) (B L : nat),
       shape x = [B; L] -> 1 <= L ->
       exists (n : nat) (out : ndarray Z),
         generate_batch (GPT4_decode take_out_of_range bernoulli self p)
           categorical_sample clock self (Some x) temperature deterministic
         = (n, Ok out)
         /\ shape out = [B; max_length self] /\ n <= max_length self)
    /\ (exists (n : nat) (out : ndarray Z),
          generate_batch (GPT4_decode take_out_of_range bernoulli self p)
            categorical_sample clock self None temperature deterministic
          = (n, Ok out)
          /\ shape out = [1; max_length self] /\ n <= max_length self).
Proof.
  intros F SF take bernoulli sample clock self p temperature deterministic
    Hv Hp HV.
  pose proof (GPT4_decode_total_batch take bernoulli self p Hv Hp) as Hdec.
  assert (Hloop : forall (input : ndarray Z) (B L : nat),
            shape input = [B; L] -> 1 <= L ->
            exists (n : nat) (out : ndarray Z),
              generate_batch_loop (GPT4_decode take bernoulli self p) sample
                clock self (max_length self) 0 input
                (build [B; max_length self] (fun _ => 0%Z)) temperature
                deterministic = (n, Ok out)
              /\ shape out = [B; max_length self] /\ n <= max_length self).
  { intros input B L Hin HL.
    destruct (generate_batch_loop_returns (GPT4_decode take bernoulli self p)
                sample clock self (g_vocab_size self) HV Hdec temperature
                deterministic B (max_length self) (max_length self) 0 L input
                (build [B; max_length self] (fun _ => 0%Z)) eq_refl Hin HL)
      as (n & out & Hrun).
    exists n, out. split; [exact Hrun|].
    assert (Hfuel : 0 + max_length self <= max_length self) by lia.
    assert (Hrest : exists rest, shape input = B :: rest) by (now exists [L]).
    destruct (@generate_batch_loop_inv F SF (GPT4_decode take bernoulli self p)
                sample clock self temperature deterministic B (max_length self)
                (max_length self) 0 n input
                (build [B; max_length self] (fun _ => 0%Z)) out
                eq_refl Hfuel Hrest Hrun) as (Hs & Hle & _).
    split; assumption. }
  split.
  - intros x B L Hx HL. unfold generate_batch, shape_at. rewrite Hx.
    cbn [nth_error]. rewrite run_bind_lift_ok. exact (Hloop x B L Hx HL).
  - unfold generate_batch. rewrite run_bind_lift_ok.
    exact (Hloop (build [1; 1] (fun _ => start_token self)) 1 1 eq_refl
             ltac:(lia)).
Qed.

Lemma generate_batch_returns_on_the_model_witness :
  exists (n : nat) (out : ndarray Z),
    generate_batch
      (GPT4_decode take_zero keep_all_layers gpt4_width_1 decoder_params_1)
      sample_zero clock_zero gpt4_width_1 (Some start_tokens_2) 1%R false
    = (n, Ok out)
    /\ shape out = [2; 3] /\ n <= 3.
Proof.
  destruct (generate_batch_returns_on_the_model R R_Scalar take_zero
              keep_all_layers sample_zero clock_zero gpt4_width_1
              decoder_params_1 1%R false
              decoder_valid_width_1 decoder_shaped_params_1) as [Hsome _].
  - cbn. lia.
  - apply (Hsome start_tokens_2 2 2); [reflexivity | lia].
Defined.

(** X17.  Whatever the decoder, the buffer that [generate_batch] returns
    after [n] decoding steps holds 0 in every column from [n] on: the columns
    that no step wrote keep the zeros the buffer was created with, so a run
    that stops early is padded with token 0, not with the end token. *)
Theorem generate_batch_pads_with_zeros :
  forall (F : Type) (SF : Scalar F)
         (decoder : ndarray Z -> result (ndarray F))
         (categorical_sample : Z -> ndarray F -> list nat -> Z)
         (clock : nat -> Z) (self : GPT4 F) (x : option (ndarray Z))
         (temperature : F) (deterministic : bool) (n : nat) (out : ndarray Z),
    generate_batch decoder categorical_sample clock self x temperature
      deterministic = (n, Ok out) ->
    exists B : nat,
      shape out = [B; max_length self]
      /\ forall r c, r < B -> n <= c -> c < max_length self ->
           get 0%Z out [r; c] = 0%Z.
Proof.
  intros F SF decoder sample clock self x temperature deterministic n out Hgen.
  unfold generate_batch in Hgen. inv_lift Hgen as B HB. subst.
  assert (Hin : exists rest,
            shape match x with
                  | Some x0 => x0
                  | None => build [B; 1] (fun _ => start_token self)
                  end = B :: rest).
  { destruct x as [x|].
    - unfold shape_at in HB. destruct (shape x) as [|d rest]; [discriminate|].
      cbn in HB. injection HB as <-. now exists rest.
    - now exists [1]. }
  assert (Hfuel : 0 + max_length self <= max_length self) by lia.
  exists B. split.
  - apply (@generate_batch_loop_inv F SF decoder sample clock self temperature
             deterministic B (max_length self) (max_length self)
             0 _ _ (build [B; max_length self] (fun _ => 0%Z)) _
             eq_refl Hfuel Hin Hgen).
  - intros r c Hr Hn Hc.
    rewrite (generate_batch_loop_tail decoder sample clock self temperature
               deterministic B (max_length self) (max_length self) 0 _ _
               (build [B; max_length self] (fun _ => 0%Z)) out
               eq_refl Hfuel Hin Hgen r c Hr ltac:(lia) Hc).
    rewrite get_build; [reflexivity|].
    unfold in_range. repeat constructor; assumption.
Qed.

Lemma generate_batch_pads_with_zeros_witness :
  get 0%Z staggered_output row_1_col_2 = 0%Z.
Proof.
  destruct (generate_batch_pads_with_zeros R R_Scalar (flat_decoder 2)
              sample_staggered step_clock tiny_config (Some start_tokens_2) 1%R
              false 2 staggered_output staggered_run) as (B & Hs & Hpad).
  cbn in Hs. injection Hs as <-.
  apply (Hpad 1 2); cbn; lia.
Defined.

(** X18.  With [deterministic = True] neither the sampler nor the clock is
    consulted: [generate] and [generate_batch] give the same result, whatever
    the random draws and the time of the call. *)
Theorem greedy_generation_ignores_sampler_and_clock :
  forall (F : Type) (SF : Scalar F)
         (decoder : ndarray Z -> result (ndarray F))
         (sample1 sample2 : Z -> ndarray F -> list nat -> Z)
         (clock1 clock2 : nat -> Z) (self : GPT4 F) (x : option (ndarray Z))
         (temperature : F),
    generate decoder sample1 clock1 self x temperature true
    = generate decoder sample2 clock2 self x temperature true
    /\ generate_batch decoder sample1 clock1 self x temperature true
       = generate_batch decoder sample2 clock2 self x temperature true.
Proof.
  intros F SF decoder sample1 sample2 clock1 clock2 self x temperature.
  split.
  - unfold generate. apply run_bind_ext. intros _.
    apply generate_loop_greedy.
  - unfold generate_batch. apply run_bind_ext. intros B.
    apply generate_batch_loop_greedy.
Qed.

(** ** Further properties of the trainer *)

Section TrainerProps.
Context {F : Type} `{Scalar F}.
Variables (Params TrainState Blob : Type).
Variable params : TrainState -> Params.
Variable pickle_dump : Params -> Blob.
Variable train_step :
  TrainState -> ndarray Z -> ndarray Z -> result (TrainState * ndarray F).
Variable evaluation_step :
  TrainState -> ndarray Z -> ndarray Z -> result (ndarray F).
Variable fs_write :
  Machine F TrainState Blob -> string -> Blob -> write_outcome Blob.

#[local] Abbreviation machine' := (Machine F TrainState Blob).
#[local] Abbreviation evaluate'' := (evaluate evaluation_step).
#[local] Abbreviation train_epoch' :=
  (train_epoch params pickle_dump train_step evaluation_step fs_write).
#[local] Abbreviation train_from' :=
  (train_from params pickle_dump train_step evaluation_step fs_write).
#[local] Abbreviation train'' :=
  (train params pickle_dump train_step evaluation_step fs_write).

Lemma train_batches_best (loader : list (ndarray Z * ndarray Z)) :
  forall (total : F) (cnt : nat) (m : machine'),
    best_val_loss (self (snd (train_batches train_step loader total cnt m)))
    = best_val_loss (self m).
Proof.
  induction loader as [|batch rest IH]; intros total cnt m; [reflexivity|].
  cbn [train_batches]. unfold pbind, get_self, plift.
  destruct (shard (num_devices (self m)) batch) as [[inputs targets]|e];
    [|reflexivity].
  destruct (train_step (state (self m)) inputs targets) as [[st loss]|e];
    [|reflexivity].
  unfold set_state. rewrite IH. reflexivity.
Qed.

(** X19.  [evaluate] only reads: whether it returns a loss or raises, the
    trainer (its state and its best validation loss), the files and the
    output are as they were before the call. *)
Theorem evaluate_is_read_only :
  forall (loader : list (ndarray Z * ndarray Z)) (m : machine'),
    snd (evaluate'' loader m) = m.
Proof. intros loader m. apply evaluate_pure. Qed.

(** One epoch with an empty validation loader does not complete, and
    writes no file. *)
Lemma train_epoch_empty_validation (train_loader : list (ndarray Z * ndarray Z))
    (epoch : nat) (m : machine') :
  fst (train_epoch' train_loader (Some []) epoch m) <> Ok tt
  /\ files (snd (train_epoch' train_loader (Some []) epoch m)) = files m.
Proof.
  unfold train_epoch, pbind.
  destruct (train_batches_quiet train_step train_loader (of_Z 0) 0 m)
    as (_ & Hf & _).
  destruct (train_batches train_step train_loader (of_Z 0) 0 m)
    as [[[total cnt]|e] m1]; cbn [snd] in Hf; [|split; [discriminate | exact Hf]].
  unfold plift. destruct (mean_of total cnt) as [mean|e];
    [|split; [discriminate | exact Hf]].
  unfold emit. rewrite validate_eq. cbn [fst snd files].
  split; [discriminate | exact Hf].
Qed.

(** X20.  Empty loaders make the mean loss a division by zero: [evaluate]
    on an empty loader and [train] on an empty training loader raise
    ZeroDivisionError and change nothing; [train] with an empty validation
    loader never completes its first epoch and writes no checkpoint, although
    the training steps of that epoch have run. *)
Theorem empty_loaders_divide_by_zero :
  (forall m : machine', evaluate'' [] m = (Raise ZeroDivisionError, m))
  /\ (forall (n : nat) (val_loader : option (list (ndarray Z * ndarray Z)))
             (m : machine'),
        train'' [] (S n) val_loader m = (Raise ZeroDivisionError, m))
  /\ (forall (train_loader : list (ndarray Z * ndarray Z)) (n : nat)
             (m : machine'),
        fst (train'' train_loader (S n) (Some []) m) <> Ok tt
        /\ files (snd (train'' train_loader (S n) (Some []) m)) = files m).
Proof.
  split; [reflexivity|]. split; [reflexivity|].
  intros train_loader n m. unfold train. cbn [train_from]. unfold pbind.
  destruct (train_epoch_empty_validation train_loader 0 m) as [Hr Hf].
  destruct (train_epoch' train_loader (Some []) 0 m) as [[[]|e] m1];
    cbn [fst snd] in *; [congruence|].
  split; [discriminate | exact Hf].
Qed.

(** X21.  When [train] completes at least one epoch with a validation
    loader, the weights file holds the parameters of the trainer's final
    state: the checkpoint on disk is the one of the last epoch, whichever
    epoch had the best validation loss. *)
Theorem checkpoint_is_the_last_epoch :
  forall (train_loader loader : list (ndarray Z * ndarray Z)) (n : nat)
         (m : machine'),
    fst (train'' train_loader (S n) (Some loader) m) = Ok tt ->
    files (snd (train'' train_loader (S n) (Some loader) m))
      !! weights_filename (self m)
    = Some (pickle_dump
              (params (state (self (snd (train'' train_loader (S n)
                                           (Some loader) m)))))).
Proof.
  intros train_loader loader n m Hok. unfold train in *.
  destruct (train_from' train_loader (Some loader) 0 (S n) m) as [r m'] eqn:Hrun.
  cbn [fst snd] in *. subst r.
  apply train_from_checkpoint in Hrun. destruct Hrun as [Hw Hfile].
  rewrite <- Hw. apply Hfile. lia.
Qed.

End TrainerProps.

Lemma checkpoint_is_the_last_epoch_witness :
  files (snd (toy_train 2 toy_machine)) !! "params.pkl"
  = Some (state (self (snd (toy_train 2 toy_machine)))).
Proof.
  exact (@checkpoint_is_the_last_epoch R R_Scalar R R R (fun st : R => st)
           (fun p : R => p) toy_train_step toy_evaluation_step always_written
           toy_loader toy_loader 1 toy_machine toy_train_completes).
Defined.

(** *** The best validation loss, over the reals *)

Lemma Rltb_true (a b : R) : Rltb a b = true -> (a < b)%R.
Proof. unfold Rltb. destruct (Rlt_dec a b); [trivial | discriminate]. Qed.

Lemma Rltb_false (a b : R) : Rltb a b = false -> (b <= a)%R.
Proof. unfold Rltb. destruct (Rlt_dec a b); [discriminate | lra]. Qed.

Section BestLoss.
Variables (Params TrainState Blob : Type).
Variable params : TrainState -> Params.
Variable pickle_dump : Params -> Blob.
Variable train_step :
  TrainState -> ndarray Z -> ndarray Z -> result (TrainState * ndarray R).
Variable evaluation_step :
  TrainState -> ndarray Z -> ndarray Z -> result (ndarray R).
Variable fs_write :
  Machine R TrainState Blob -> string -> Blob -> write_outcome Blob.

Lemma least_seen_nil (best : option R) (new : list (event R Blob)) :
  val_losses new = [] -> least_seen best best new.
Proof.
  intros Hnil. unfold least_seen. rewrite Hnil. split; [intros v []|].
  split; [|now left]. intros b0 ->. exists b0. split; [reflexivity | lra].
Qed.

Lemma val_losses_app (es1 es2 : list (event R Blob)) :
  val_losses (es1 ++ es2) = val_losses es1 ++ val_losses es2.
Proof. unfold val_losses. apply flat_map_app. Qed.

Lemma train_epoch_best (train_loader : list (ndarray Z * ndarray Z))
    (val_loader : option (list (ndarray Z * ndarray Z))) (epoch : nat)
    (m m1 : Machine R TrainState Blob) (r : result unit) :
  train_epoch params pickle_dump train_step evaluation_step fs_write
    train_loader val_loader epoch m = (r, m1) ->
  exists new : list (event R Blob),
    events m1 = events m ++ new
    /\ least_seen (best_val_loss (self m)) (best_val_loss (self m1)) new.
Proof.
  unfold train_epoch, pbind.
  destruct (train_batches_quiet train_step train_loader (of_Z 0) 0 m)
    as (He & _ & _).
  pose proof (train_batches_best _ _ train_step train_loader (of_Z 0) 0 m) as Hb.
  destruct (train_batches train_step train_loader (of_Z 0) 0 m)
    as [[[total cnt]|e] m0]; cbn [snd] in He, Hb.
  - unfold plift. destruct (mean_of total cnt) as [mean|e].
    + unfold emit. destruct val_loader as [loader|].
      * rewrite validate_eq. cbn [fst snd].
        destruct (fst (evaluate evaluation_step loader _)) as [v|e].
        -- intros Hsave. pose proof Hsave as Hself.
           apply save_params_self in Hself.
           apply save_params_events in Hsave.
           destruct Hsave as (new & Hev & _ & _ & Hnil).
           rewrite Hself, Hev. unfold validated. cbn [events self].
           rewrite He, <- !app_assoc. eexists. split; [reflexivity|].
           unfold least_seen. rewrite !val_losses_app, Hnil, <- Hb.
           cbn [app val_losses flat_map].
           destruct (best_val_loss (self m0)) as [b|] eqn:Hbest;
             cbn [improves R_Scalar fltb best_val_loss].
           ++ destruct (Rltb v b) eqn:Hlt; cbn [best_val_loss].
              ** apply Rltb_true in Hlt. split; [|split].
                 --- intros v' [<-|[]]. exists v. split; [reflexivity | lra].
                 --- intros b0 Hb0. injection Hb0 as <-. exists v.
                     split; [reflexivity | lra].
                 --- right. exists v. split; [now left | reflexivity].
              ** apply Rltb_false in Hlt. rewrite Hbest. split; [|split].
                 --- intros v' [<-|[]]. exists b. split; [reflexivity | exact Hlt].
                 --- intros b0 Hb0. injection Hb0 as <-. exists b.
                     split; [reflexivity | lra].
                 --- now left.
           ++ cbn [best_val_loss]. split; [|split].
              ** intros v' [<-|[]]. exists v. split; [reflexivity | lra].
              ** discriminate.
              ** right. exists v. split; [now left | reflexivity].
        -- intros Heq; injection Heq as <- <-.
           cbn [events self]. rewrite He, Hb. eexists. split; [reflexivity|].
           now apply least_seen_nil.
      * cbn [validate pret]. intros Heq; injection Heq as <- <-.
        cbn [events self]. rewrite He, Hb. eexists. split; [reflexivity|].
        now apply least_seen_nil.
    + intros Heq; injection Heq as <- <-. exists []. rewrite app_nil_r, Hb.
      split; [exact He|]. now apply least_seen_nil.
  - intros Heq; injection Heq as <- <-. exists []. rewrite app_nil_r, Hb.
    split; [exact He|]. now apply least_seen_nil.
Qed.

Lemma least_seen_trans (b0 b1 b2 : option R) (new1 new2 : list (event R Blob)) :
  least_seen b0 b1 new1 -> least_seen b1 b2 new2 ->
  least_seen b0 b2 (new1 ++ new2).
Proof.
  intros (Hv1 & Hd1 & Ha1) (Hv2 & Hd2 & Ha2). unfold least_seen.
  rewrite val_losses_app. split; [|split].
  - intros v Hin. apply in_app_or in Hin. destruct Hin as [Hin|Hin].
    + destruct (Hv1 v Hin) as (b & Hb & Hle).
      destruct (Hd2 b Hb) as (b' & Hb' & Hle').
      exists b'. split; [exact Hb' | lra].
    + now apply Hv2.
  - intros b Hb. destruct (Hd1 b Hb) as (b' & Hb' & Hle).
    destruct (Hd2 b' Hb') as (b'' & Hb'' & Hle'').
    exists b''. split; [exact Hb'' | lra].
  - destruct Ha2 as [->|(v & Hin & ->)].
    + destruct Ha1 as [->|(v & Hin & ->)]; [now left|].
      right. exists v. split; [apply in_or_app; now left | reflexivity].
    + right. exists v. split; [apply in_or_app; now right | reflexivity].
Qed.

Lemma train_from_best (train_loader : list (ndarray Z * ndarray Z))
    (val_loader : option (list (ndarray Z * ndarray Z))) (remaining : nat) :
  forall (epoch : nat) (m m' : Machine R TrainState Blob) (r : result unit),
    train_from params pickle_dump train_step evaluation_step fs_write
      train_loader val_loader epoch remaining m = (r, m') ->
    exists new : list (event R Blob),
      events m' = events m ++ new
      /\ least_seen (best_val_loss (self m)) (best_val_loss (self m')) new.
Proof.
  induction remaining as [|remaining IH]; intros epoch m m' r Hrun.
  - cbn [train_from pret] in Hrun. injection Hrun as <- <-.
    exists []. rewrite app_nil_r. split; [reflexivity|]. now apply least_seen_nil.
  - cbn [train_from] in Hrun. unfold pbind in Hrun.
    destruct (train_epoch params pickle_dump train_step evaluation_step fs_write
                train_loader val_loader epoch m) as [r1 m1] eqn:Hepoch.
    destruct (train_epoch_best _ _ _ _ _ _ Hepoch) as (new1 & He1 & Hl1).
    destruct r1 as [[]|e].
    + destruct (IH (S epoch) m1 m' r Hrun) as (new2 & He2 & Hl2).
      exists (new1 ++ new2). rewrite He2, He1, <- app_assoc.
      split; [reflexivity|]. exact (least_seen_trans _ _ _ _ _ Hl1 Hl2).
    + injection Hrun as <- <-. exists new1. split; [exact He1 | exact Hl1].
Qed.

(** X22.  With real-valued losses, whether [train] completes or raises,
    the best validation loss recorded afterwards is the least one seen: it is
    at most every validation loss printed during the call and at most the
    best loss recorded before, and it is one of these values. *)
Theorem best_val_loss_is_the_least_seen :
  forall (train_loader : list (ndarray Z * ndarray Z)) (num_epochs : nat)
         (val_loader : option (list (ndarray Z * ndarray Z)))
         (m : Machine R TrainState Blob),
    exists new : list (event R Blob),
      events (snd (train params pickle_dump train_step evaluation_step fs_write
                     train_loader num_epochs val_loader m)) = events m ++ new
      /\ (forall v, In v (val_losses new) ->
            best_le (best_val_loss (self (snd
              (train params pickle_dump train_step evaluation_step fs_write
                 train_loader num_epochs val_loader m)))) v)
      /\ (forall b0, best_val_loss (self m) = Some b0 ->
            best_le (best_val_loss (self (snd
              (train params pickle_dump train_step evaluation_step fs_write
                 train_loader num_epochs val_loader m)))) b0)
      /\ (best_val_loss (self (snd
            (train params pickle_dump train_step evaluation_step fs_write
               train_loader num_epochs val_loader m)))
          = best_val_loss (self m)
          \/ exists v, In v (val_losses new)
               /\ best_val_loss (self (snd
                    (train params pickle_dump train_step evaluation_step fs_write
                       train_loader num_epochs val_loader m))) = Some v).
Proof.
  intros train_loader num_epochs val_loader m. unfold train.
  destruct (train_from params pickle_dump train_step evaluation_step fs_write
              train_loader val_loader 0 num_epochs m) as [r m'] eqn:Hrun.
  cbn [snd].
  destruct (train_from_best _ _ _ _ _ _ _ Hrun) as (new & He & Hl).
  exists new. split; [exact He | exact Hl].
Qed.

End BestLoss.

Lemma best_val_loss_is_the_least_seen_witness :
  best_le (best_val_loss (self (snd
             (train (fun st : R => st) (fun p : R => p) toy_train_step
                toy_evaluation_step always_written toy_loader 2
                (Some toy_loader) seasoned_machine)))) 5%R.
Proof.
  destruct (best_val_loss_is_the_least_seen R R R (fun st : R => st)
              (fun p : R => p) toy_train_step toy_evaluation_step
              always_written toy_loader 2 (Some toy_loader) seasoned_machine)
    as (new & _ & _ & Hbefore & _).
  apply Hbefore. reflexivity.
Defined.

(** *** Sharding a batch over the devices *)

(** X23.  How [train] and [evaluate] split a batch of shape (B, L), with
    targets of shape (B, L'), over [d] devices: without devices the floor
    division raises ZeroDivisionError; with fewer sequences than devices the
    per-device batch size is 0 and the reshape to (d, 0, -1) raises
    ZeroDivisionError too, when it computes the missing extent; and when
    B = d * k with k > 0 the inputs and the targets are reshaped to (d, k, L)
    and (d, k, L'), their buffers unchanged. *)
Theorem shard_splits_batch_over_devices :
  forall (d : nat) (inputs targets : ndarray Z) (B L L' : nat),
    shape inputs = [B; L] -> shape targets = [B; L'] ->
    (d = 0 -> shard d (inputs, targets) = Raise ZeroDivisionError)
    /\ (0 < d -> B < d -> shard d (inputs, targets) = Raise ZeroDivisionError)
    /\ (forall k : nat,
          0 < d -> 0 < k -> B = d * k ->
          shard d (inputs, targets)
          = Ok (mk_ndarray [d; k; L] (data inputs),
                mk_ndarray [d; k; L'] (data targets))).
Proof.
  intros d inputs targets B L L' Hi Ht.
  unfold shard, shape_at, floordiv. rewrite Hi. cbn [nth_error rbind].
  split; [|split].
  - intros ->. reflexivity.
  - intros Hd HB.
    replace (Nat.eqb d 0) with false by (symmetry; apply Nat.eqb_neq; lia).
    cbn [rbind]. rewrite (Nat.div_small B d HB).
    unfold reshape_infer at 1. rewrite Nat.mul_0_r. reflexivity.
  - intros k Hd0 Hk ->.
    assert (Hd : d <> 0) by lia.
    replace (Nat.eqb d 0) with false by (symmetry; now apply Nat.eqb_neq).
    cbn [rbind].
    replace (d * k / d) with k
      by (rewrite Nat.mul_comm, Nat.div_mul; [reflexivity | exact Hd]).
    assert (Hdk : d * k <> 0) by nia.
    assert (Hres : forall (a : ndarray Z) (n : nat),
              shape a = [d * k; n] ->
              reshape_infer a d k = Ok (mk_ndarray [d; k; n] (data a))).
    { intros a n Ha. unfold reshape_infer. rewrite Ha.
      replace (Nat.eqb (d * k) 0) with false by (symmetry; now apply Nat.eqb_neq).
      assert (Hsz : size_of [d * k; n] = n * (d * k))
        by (cbn [size_of fold_right]; nia).
      rewrite Hsz, Nat.Div0.mod_mul, Nat.div_mul by exact Hdk.
      cbn [Nat.eqb negb]. unfold reshape. rewrite Ha, Hsz.
      replace (Nat.eqb (n * (d * k)) (size_of [d; k; n])) with true;
        [reflexivity|].
      symmetry. apply Nat.eqb_eq. cbn [size_of fold_right]. nia. }
    rewrite (Hres inputs L Hi), (Hres targets L' Ht). reflexivity.
Qed.

Lemma shard_splits_batch_over_devices_witness :
  shard 2 batch_4_2
  = Ok (mk_ndarray [2; 2; 2] (data (fst batch_4_2)),
        mk_ndarray [2; 2; 2] (data (snd batch_4_2)))
  /\ shard 2 batch_1_2 = Raise ZeroDivisionError.
Proof.
  destruct (shard_splits_batch_over_devices 2 (fst batch_4_2) (snd batch_4_2)
              4 2 2 eq_refl eq_refl) as (_ & _ & Hok).
  destruct (shard_splits_batch_over_devices 2 (fst batch_1_2) (snd batch_1_2)
              1 2 2 eq_refl eq_refl) as (_ & Hfew & _).
  split.
  - apply (Hok 2); [lia | lia | reflexivity].
  - apply Hfew; lia.
Defined.

(** ** Configurations on which the forward pass cannot return *)

Section ConfigFacts.
Context {F : Type} `{Scalar F}.

Lemma layer_norm_shape_inv (ln : LayerNorm F) (p : LayerNormParams F)
    (x y : ndarray F) :
  layer_norm ln p x = Ok y -> shape y = shape x.
Proof.
  unfold layer_norm. intros Hy. inv_bind Hy.
  destruct (negb _); [discriminate|]. now injection Hy as <-.
Qed.

Lemma dense_shape_inv (features : nat) (p : DenseParams F) (x y : ndarray F) :
  dense features p x = Ok y -> shape y = removelast (shape x) ++ [features].
Proof.
  unfold dense. intros Hy. inv_bind Hy.
  destruct (negb _); [discriminate|]. now injection Hy as <-.
Qed.

Lemma add_arrays_incompatible (a b y : ndarray F) (s1 s2 : list nat) (n1 n2 : nat) :
  shape a = s1 ++ [n1] -> shape b = s2 ++ [n2] ->
  n1 <> n2 -> n1 <> 1 -> n2 <> 1 ->
  add_arrays a b <> Ok y.
Proof.
  intros Ha Hb Hne H1 H2. unfold add_arrays, broadcast2, broadcast_shapes.
  rewrite Ha, Hb, !rev_app_distr. cbn [rev app broadcast_rev].
  unfold broadcast_dim.
  replace (Nat.eqb n1 n2) with false by (symmetry; now apply Nat.eqb_neq).
  replace (Nat.eqb n1 1) with false by (symmetry; now apply Nat.eqb_neq).
  replace (Nat.eqb n2 1) with false by (symmetry; now apply Nat.eqb_neq).
  discriminate.
Qed.

Lemma attention_function_heads (num_heads : nat) (query key value : ndarray F)
    (mask : option (ndarray Z)) (B L E B' L' E' : nat)
    (r : ndarray F * ndarray F) :
  shape query = [B; L; E] -> shape key = [B'; L'; E'] -> B <> 0 -> L <> 0 ->
  attention_function num_heads query key value mask = Ok r ->
  num_heads <> 0 /\ Nat.modulo E num_heads = 0.
Proof.
  intros Hq Hk HB HL Hcall.
  unfold attention_function, split_heads, shape_at, shape_last, floordiv in Hcall.
  rewrite Hq, Hk in Hcall. cbn [nth_error rev app rbind] in Hcall.
  destruct (Nat.eqb_spec num_heads 0) as [->|Hnh]; [discriminate|].
  split; [exact Hnh|]. cbn [rbind] in Hcall.
  unfold reshape at 1 in Hcall. rewrite Hq in Hcall.
  destruct (Nat.eqb_spec (size_of [B; L; E])
              (size_of [B; num_heads; L; E / num_heads])) as [Heq|Hne];
    [|discriminate].
  clear Hcall. cbn [size_of fold_right] in Heq.
  pose proof (Nat.div_mod_eq E num_heads) as Hdm.
  set (qt := E / num_heads) in *. set (rm := E mod num_heads) in *.
  assert (Hcancel : L * (E * 1) = num_heads * (L * (qt * 1))).
  { apply (Nat.mul_cancel_l _ _ B HB). exact Heq. }
  assert (Hcancel' : E = num_heads * qt).
  { apply (Nat.mul_cancel_l _ _ L HL). nia. }
  lia.
Qed.

Lemma SelfMultiHeadAttention_call_inv (m : SelfMultiHeadAttention)
    (p : AttentionParams F) (inputs : ndarray F) (mask : option (ndarray Z))
    (outputs attention : ndarray F) :
  SelfMultiHeadAttention_call m p inputs mask = Ok (outputs, attention) ->
  (exists s, shape outputs = s ++ [att_hidden_dim m])
  /\ forall B L n, shape inputs = [B; L; n] -> B <> 0 -> L <> 0 ->
       att_num_heads m <> 0
       /\ Nat.modulo (att_hidden_dim m) (att_num_heads m) = 0.
Proof.
  intros Hcall. unfold SelfMultiHeadAttention_call in Hcall.
  inv_bind Hcall. rename v into pr, E into Hpr.
  inv_bind Hcall. destruct v as [[q k] vl]. rename E into Hsplit.
  inv_bind Hcall. destruct v as [ctx w]. rename E into Hatt.
  inv_bind Hcall. rename E into Hout. injection Hcall as <- <-.
  split.
  - eexists. exact (dense_shape_inv _ _ _ _ Hout).
  - intros B L n Hx HB HL.
    pose proof (dense_shape_inv _ _ _ _ Hpr) as Hspr.
    rewrite Hx in Hspr. cbn [removelast app] in Hspr.
    destruct (array_split3_returns pr B L (att_hidden_dim m) Hspr)
      as (q' & k' & v' & Hsplit' & Hq & Hk & _).
    rewrite Hsplit in Hsplit'. injection Hsplit' as <- <- <-.
    exact (attention_function_heads _ _ _ _ _ _ _ _ _ _ _ _ Hq Hk HB HL Hatt).
Qed.

Lemma GPT4Block_call_inv
    (bernoulli : string -> F -> list nat -> ndarray bool)
    (self : GPT4Block F) (p : BlockParams F) (x : ndarray F)
    (mask : option (ndarray Z)) (training : bool)
    (r : ndarray F * ndarray F * ndarray F) :
  GPT4Block_call bernoulli self p x mask training = Ok r ->
  num_experts self <> 0
  /\ (forall s n, shape x = s ++ [n] -> n <> 1 -> hidden_dim self <> 1 ->
        n = hidden_dim self)
  /\ (forall B L n, shape x = [B; L; n] -> B <> 0 -> L <> 0 ->
        num_heads self <> 0
        /\ Nat.modulo (hidden_dim self) (num_heads self) = 0).
Proof.
  intros Hcall. split.
  - intros HE. revert Hcall.
    unfold GPT4Block_call. intros Hcall. inv_bind Hcall. clear Hcall.
    unfold GPT4Block_trace in E. cbv zeta in E. inv_binds E.
    match goal with
    | Hffn : PositionWiseFFNMoE_call _ _ _ = Ok _ |- _ =>
        unfold PositionWiseFFNMoE_call in Hffn;
        apply MixtureOfExperts_call_no_experts in Hffn; [exact Hffn | exact HE]
    end.
  - unfold GPT4Block_call in Hcall. inv_bind Hcall. clear Hcall.
    unfold GPT4Block_trace in E. cbv zeta in E.
    inv_bind E. inv_bind E. inv_bind E.
    inv_bind E. rename v3 into normed1, E3 into Hnorm.
    inv_bind E. destruct v3 as [attended1 w1]. rename E3 into Hatt.
    inv_bind E. rename E3 into Hadd. clear E.
    pose proof (layer_norm_shape_inv _ _ _ _ Hnorm) as Hsn.
    destruct (SelfMultiHeadAttention_call_inv _ _ _ _ _ _ Hatt)
      as [[s' Hsa] Hheads].
    cbn [GPT4Block_setup attention1 att_hidden_dim att_num_heads] in Hsa, Hheads.
    split.
    + intros s n Hx Hn1 Hh1.
      destruct (Nat.eq_dec n (hidden_dim self)) as [Heq|Hne]; [exact Heq|].
      exfalso. revert Hadd.
      apply (add_arrays_incompatible _ _ _ s s' n (hidden_dim self));
        [|exact Hsa | exact Hne | exact Hn1 | exact Hh1].
      rewrite shape_dropout_apply, Hsn. exact Hx.
    + intros B L n Hx HB HL.
      apply (Hheads B L n); [|exact HB | exact HL].
      rewrite Hsn. exact Hx.
Qed.

End ConfigFacts.

(** X25.  The heads must divide the width: on a non-empty input of shape
    (B, L, n), a block with [num_heads = 0], or whose [hidden_dim] is not a
    multiple of [num_heads], never returns, whatever its parameters. *)
Theorem block_requires_heads_dividing_width :
  forall (F : Type) (SF : Scalar F)
         (bernoulli : string -> F -> list nat -> ndarray bool)
         (self : GPT4Block F) (p : BlockParams F) (x : ndarray F)
         (mask : option (ndarray Z)) (training : bool) (B L n : nat)
         (r : ndarray F * ndarray F * ndarray F),
    shape x = [B; L; n] -> B <> 0 -> L <> 0 ->
    num_heads self = 0 \/ Nat.modulo (hidden_dim self) (num_heads self) <> 0 ->
    GPT4Block_call bernoulli self p x mask training <> Ok r.
Proof.
  intros F SF bernoulli self p x mask training B L n r Hx HB HL Hbad Hcall.
  destruct (GPT4Block_call_inv _ _ _ _ _ _ _ Hcall) as (_ & _ & Hheads).
  destruct (Hheads B L n Hx HB HL) as [Hnh Hmod].
  destruct Hbad as [H0|Hm]; [exact (Hnh H0) | exact (Hm Hmod)].
Qed.

Lemma block_requires_heads_dividing_width_witness :
  GPT4Block_call keep_all block_3_wide_2_heads params_1_2 x_1_1_3 None false
    <> Ok (x_1_1_3, x_1_1_3, x_1_1_3).
Proof.
  apply (block_requires_heads_dividing_width R R_Scalar keep_all
           block_3_wide_2_heads params_1_2 x_1_1_3 None false 1 1 3
           (x_1_1_3, x_1_1_3, x_1_1_3)).
  - reflexivity.
  - discriminate.
  - discriminate.
  - right. cbn. discriminate.
Defined.

Lemma embed_shape_inv {F : Type} `{Scalar F}
    (take_out_of_range : ndarray F -> Z -> nat -> F)
    (num_embeddings features : nat) (table : ndarray F) (inputs : ndarray Z)
    (e : ndarray F) :
  embed take_out_of_range num_embeddings features table inputs = Ok e ->
  shape e = shape inputs ++ [features].
Proof.
  unfold embed. destruct (negb _); [discriminate|].
  intros He. now injection He as <-.
Qed.

(** X26.  The embedding width must be the hidden width: a decoder with at
    least one layer whose [embed_dim] differs from its [hidden_dim], neither
    of them being 1, never returns, whatever its parameters and its input:
    the first residual addition cannot broadcast the two widths. *)
Theorem decoder_requires_embed_dim_equal_hidden_dim :
  forall (F : Type) (SF : Scalar F)
         (take_out_of_range : ndarray F -> Z -> nat -> F)
         (bernoulli : nat -> string -> F -> list nat -> ndarray bool)
         (self : GPT4Decoder F) (p : DecoderParams F) (x : ndarray Z)
         (mask : option (ndarray Z)) (training drop_last_layer : bool)
         (r : ndarray F * ndarray F * ndarray F),
    d_num_layers self <> 0 ->
    d_embed_dim self <> d_hidden_dim self ->
    d_embed_dim self <> 1 -> d_hidden_dim self <> 1 ->
    GPT4Decoder_call take_out_of_range bernoulli self p x mask training
      drop_last_layer <> Ok r.
Proof.
  intros F SF take bernoulli self p x mask training dl r Hlayers Hne He1 Hh1
    Hcall.
  unfold GPT4Decoder_call in Hcall.
  inv_bind Hcall. rename v into e, E into Hembed.
  inv_bind Hcall. rename E into Hrun. clear Hcall.
  apply embed_shape_inv in Hembed.
  destruct (d_num_layers self) as [|n]; [congruence|].
  cbn [decoder_layers] in Hrun.
  destruct (nth_error (p_layers p) 0) as [bp|]; [|discriminate].
  inv_bind Hrun. rename E into Hblock. clear Hrun.
  destruct (GPT4Block_call_inv _ _ _ _ _ _ _ Hblock) as (_ & Hwidth & _).
  apply Hne.
  exact (Hwidth (shape x) (d_embed_dim self) Hembed He1 Hh1).
Qed.

Lemma decoder_requires_embed_dim_equal_hidden_dim_witness :
  GPT4Decoder_call take_zero keep_all_layers decoder_3_into_2 decoder_params_1
    tokens_0_1 None false false
  <> Ok (x_1_1_3, x_1_1_3, x_1_1_3).
Proof.
  apply (decoder_requires_embed_dim_equal_hidden_dim R R_Scalar take_zero
           keep_all_layers decoder_3_into_2 decoder_params_1 tokens_0_1 None
           false false (x_1_1_3, x_1_1_3, x_1_1_3)); cbn; discriminate.
Defined.
